(** * Binance MCP: the signed-request core and its dispatch layer

    A shallow embedding of [binance-client.ts] (class [BinanceClient] and
    [hmacSha256Hex]) and of [server.ts] ([handleToolCall] and the tool
    handler registered by [createServer]).

    Conventions of the embedding:
    - a JavaScript string is a [string] of bytes, read as its UTF-8 encoding
      (what [TextEncoder] and the form-urlencoded serializer work on);
    - a JavaScript number is modelled by an integer [Z], which stands for
      itself below 2^53 in magnitude: the numbers of the exchange's
      protocol (limits, ids, millisecond timestamps, windows, error codes)
      are such integers;
    - a plain object is the list of its own properties in insertion order;
      [Object_entries] computes the enumeration order from it;
    - [fetch] is an event of a small free monad [Prog], interpreted by [run]
      against a simulated remote, which records every request made. *)

From Stdlib Require Import ZArith List String Ascii Bool Lia.
From Stdlib Require Import Permutation Sorted.
From Stdlib Require Import DecimalString.
Import ListNotations.

Local Open Scope string_scope.
Local Open Scope Z_scope.

(* ================================================================== *)
(** ** JavaScript values *)

#[warnings="-register-all"]
Inductive JSValue : Type :=
| VUndefined
| VNull
| VBool (b : bool)
| VNum (n : Z)
| VStr (s : string)
| VArr (l : list JSValue)
| VObj (o : list (string * JSValue)).

(** A plain object ([Record<string, unknown>]): own properties in insertion
    order.  Objects built by the operations below have distinct keys. *)
Definition JSObject : Type := list (string * JSValue).

Definition keys (o : JSObject) : list string := map fst o.

(** [Number.prototype.toString()] on an integer of magnitude below 10^21,
    the numbers this development deals with: decimal digits, with a
    leading minus sign for negatives.  (From 10^21 on JavaScript prints an
    exponent.) *)
Definition Number_toString (n : Z) : string :=
  NilZero.string_of_int (Z.to_int n).

(** [String(v)], which is also the conversion of a template literal. *)
Fixpoint ToString (v : JSValue) : string :=
  match v with
  | VUndefined => "undefined"
  | VNull => "null"
  | VBool true => "true"
  | VBool false => "false"
  | VNum n => Number_toString n
  | VStr s => s
  | VArr l =>
      String.concat ","
        (map (fun e => match e with
                       | VUndefined | VNull => ""
                       | _ => ToString e
                       end) l)
  | VObj _ => "[object Object]"
  end.

(** [ToBoolean]: the falsy values are undefined, null, false, 0 and the
    empty string. *)
Definition truthy (v : JSValue) : bool :=
  match v with
  | VUndefined | VNull => false
  | VBool b => b
  | VNum n => negb (n =? 0)
  | VStr s => negb (s =? "")%string
  | VArr _ | VObj _ => true
  end.

(** [a || b] *)
Definition js_or (a b : JSValue) : JSValue := if truthy a then a else b.

(** [v !== undefined && v !== null] *)
Definition present (v : JSValue) : bool :=
  match v with
  | VUndefined | VNull => false
  | _ => true
  end.

(* ------------------------------------------------------------------ *)
(** *** Own properties and their order *)

(** [o[k]] on a plain object, for a data property name. *)
Fixpoint obj_get (o : JSObject) (k : string) : JSValue :=
  match o with
  | [] => VUndefined
  | (k', v) :: o' => if (k' =? k)%string then v else obj_get o' k
  end.

Fixpoint has_key (o : JSObject) (k : string) : bool :=
  match o with
  | [] => false
  | (k', _) :: o' => (k' =? k)%string || has_key o' k
  end.

(** [o[k] = v]: an existing property keeps its place, a new one is added
    last. *)
Fixpoint obj_set (o : JSObject) (k : string) (v : JSValue) : JSObject :=
  match o with
  | [] => [(k, v)]
  | (k', v') :: o' =>
      if (k' =? k)%string then (k, v) :: o' else (k', v') :: obj_set o' k v
  end.

Definition is_digit (c : ascii) : bool :=
  let n := N_of_ascii c in (48 <=? n)%N && (n <=? 57)%N.

Fixpoint digits_value (s : string) (acc : N) : option N :=
  match s with
  | EmptyString => Some acc
  | String c s' =>
      if is_digit c
      then digits_value s' (10 * acc + (N_of_ascii c - 48))%N
      else None
  end.

(** An array index is the canonical decimal form of an integer between 0
    and 2^32 - 2: these keys are enumerated first, in numeric order. *)
Definition array_index (k : string) : option N :=
  match k with
  | EmptyString => None
  | String c rest =>
      if (c =? "0")%char && negb (rest =? "")%string then None
      else
        match digits_value k 0%N with
        | Some n => if (n <=? 4294967294)%N then Some n else None
        | None => None
        end
  end.

Definition is_array_index (k : string) : bool :=
  match array_index k with Some _ => true | None => false end.

Fixpoint insert_index (n : N) (e : string * JSValue)
         (l : list (N * (string * JSValue))) : list (N * (string * JSValue)) :=
  match l with
  | [] => [(n, e)]
  | (m, e') :: l' =>
      if (n <=? m)%N then (n, e) :: l else (m, e') :: insert_index n e l'
  end.

(** The index-keyed properties of [o], in ascending numeric order. *)
Fixpoint index_entries (o : JSObject) : list (N * (string * JSValue)) :=
  match o with
  | [] => []
  | (k, v) :: o' =>
      match array_index k with
      | Some n => insert_index n (k, v) (index_entries o')
      | None => index_entries o'
      end
  end.

Definition named_entries (o : JSObject) : JSObject :=
  filter (fun e => negb (is_array_index (fst e))) o.

(** [Object.entries(o)]: own property keys in the order of
    OrdinaryOwnPropertyKeys, array indices ascending first, then the other
    string keys in insertion order. *)
Definition Object_entries (o : JSObject) : list (string * JSValue) :=
  (map snd (index_entries o) ++ named_entries o)%list.

(** [{ ...o }]: the own properties are copied in enumeration order. *)
Definition obj_copy (o : JSObject) : JSObject :=
  fold_left (fun acc e => obj_set acc (fst e) (snd e)) (Object_entries o) [].

(* ================================================================== *)
(** ** URLSearchParams *)

Definition hex_upper (n : N) : ascii :=
  ascii_of_N (if (n <? 10)%N then 48 + n else 55 + n)%N.

Definition is_alnum (c : ascii) : bool :=
  let n := N_of_ascii c in
  ((48 <=? n) && (n <=? 57) || (65 <=? n) && (n <=? 90)
   || (97 <=? n) && (n <=? 122))%N.

(** The bytes the application/x-www-form-urlencoded percent-encode set
    leaves alone: ASCII alphanumerics and [* - . _]. *)
Definition form_safe (c : ascii) : bool :=
  is_alnum c || (c =? "*")%char || (c =? "-")%char || (c =? ".")%char
  || (c =? "_")%char.

Definition percent_byte (c : ascii) : string :=
  let n := N_of_ascii c in
  String "%" (String (hex_upper (n / 16)) (String (hex_upper (n mod 16)) "")).

(** Percent-encoding of one byte, with space as plus. *)
Definition form_encode_byte (c : ascii) : string :=
  if form_safe c then String c ""
  else if (c =? " ")%char then "+"
  else percent_byte c.

Fixpoint form_encode (s : string) : string :=
  match s with
  | EmptyString => ""
  | String c s' => form_encode_byte c ++ form_encode s'
  end.

(** The application/x-www-form-urlencoded serializer, as the URL standard
    words it: each tuple is appended to the output, preceded by [&] when
    the output is not empty. *)
Definition serialize_step (output : string) (t : string * string) : string :=
  let name := form_encode (fst t) in
  let value := form_encode (snd t) in
  (if (output =? "")%string then output else output ++ "&")
    ++ name ++ "=" ++ value.

(** [new URLSearchParams(entries).toString()] *)
Definition URLSearchParams_toString (entries : list (string * string)) : string :=
  fold_left serialize_step entries "".

(* ================================================================== *)
(** ** [BinanceClient.buildQueryString] *)

Definition buildQueryString (params : JSObject) : string :=
  let entries :=
    map (fun e => (fst e, ToString (snd e)))
        (filter (fun e => present (snd e)) (Object_entries params)) in
  URLSearchParams_toString entries.

(* ================================================================== *)
(** ** Errors *)

(** A thrown value: every error of the program is an [Error] object, with
    its [name] and [message]. *)
Record JSError : Type := mkError { ename : string; emessage : string }.

(* ================================================================== *)
(** ** Web Crypto: HMAC with SHA-256

    [crypto.subtle] is the platform's; it is modelled by the algorithm it
    implements (FIPS 180-4 and RFC 2104) on 32-bit words and bytes kept
    in [Z]. *)

Module SHA256.

Definition w32 (x : Z) : Z := x mod 4294967296.
Definition add32 (x y : Z) : Z := w32 (x + y).
Definition rotr (n x : Z) : Z :=
  Z.lor (Z.shiftr x n) (w32 (Z.shiftl x (32 - n))).
Definition not32 (x : Z) : Z := 4294967295 - x.

Definition Ch (x y z : Z) : Z := Z.lxor (Z.land x y) (Z.land (not32 x) z).
Definition Maj (x y z : Z) : Z :=
  Z.lxor (Z.lxor (Z.land x y) (Z.land x z)) (Z.land y z).
Definition Sigma0 (x : Z) : Z :=
  Z.lxor (Z.lxor (rotr 2 x) (rotr 13 x)) (rotr 22 x).
Definition Sigma1 (x : Z) : Z :=
  Z.lxor (Z.lxor (rotr 6 x) (rotr 11 x)) (rotr 25 x).
Definition sigma0 (x : Z) : Z :=
  Z.lxor (Z.lxor (rotr 7 x) (rotr 18 x)) (Z.shiftr x 3).
Definition sigma1 (x : Z) : Z :=
  Z.lxor (Z.lxor (rotr 17 x) (rotr 19 x)) (Z.shiftr x 10).

(** The constants are fractional parts of roots of the first primes
    (FIPS 180-4, 4.2.2 and 5.3.3), 32 bits each. *)
Definition is_prime (n : nat) : bool :=
  (1 <? n)%nat
  && forallb (fun d => negb (n mod d =? 0)%nat) (seq 2 (n - 2)).

Definition first_primes (count : nat) : list Z :=
  map Z.of_nat (firstn count (filter is_prime (seq 2 400))).

(** [root k n bits acc]: the largest [r] in [acc, acc + 2^bits) with
    [r^k <= n], found bit by bit. *)
Fixpoint root (k n : Z) (bits : nat) (acc : Z) : Z :=
  match bits with
  | O => acc
  | S bits' =>
      let candidate := acc + 2 ^ Z.of_nat bits' in
      if candidate ^ k <=? n then root k n bits' candidate
      else root k n bits' acc
  end.

Definition fraction_bits (k p : Z) : Z :=
  w32 (root k (p * 2 ^ (32 * k)) 40 0).

Definition K : list Z :=
  Eval vm_compute in map (fraction_bits 3) (first_primes 64).

Definition H0 : list Z :=
  Eval vm_compute in map (fraction_bits 2) (first_primes 8).

(** Big-endian bytes of a 32-bit word, and of the 64-bit bit length. *)
Definition word_bytes (w : Z) : list Z :=
  [ (w / 16777216) mod 256; (w / 65536) mod 256; (w / 256) mod 256;
    w mod 256 ].

Definition length_bytes (bits : Z) : list Z :=
  word_bytes (bits / 4294967296) ++ word_bytes (bits mod 4294967296).

Fixpoint bytes_words (l : list Z) : list Z :=
  match l with
  | a :: b :: c :: d :: l' =>
      (a * 16777216 + b * 65536 + c * 256 + d) :: bytes_words l'
  | _ => []
  end.

(** Padding: the bit 1, zeros up to 56 modulo 64, the length in bits. *)
Definition pad (msg : list Z) : list Z :=
  let n := Z.of_nat (List.length msg) in
  let zeros := Z.to_nat ((55 - n) mod 64) in
  msg ++ [128] ++ repeat 0 zeros ++ length_bytes (8 * n).

(** The message schedule, most recent word first. *)
Fixpoint schedule (n : nat) (rw : list Z) : list Z :=
  match n with
  | O => rw
  | S n' =>
      let w := add32 (add32 (sigma1 (nth 1 rw 0)) (nth 6 rw 0))
                     (add32 (sigma0 (nth 14 rw 0)) (nth 15 rw 0)) in
      schedule n' (w :: rw)
  end.

Definition round (st : list Z) (kw : Z * Z) : list Z :=
  match st with
  | [a; b; c; d; e; f; g; h] =>
      let t1 := add32 (add32 (add32 h (Sigma1 e)) (add32 (Ch e f g) (fst kw)))
                      (snd kw) in
      let t2 := add32 (Sigma0 a) (Maj a b c) in
      [add32 t1 t2; a; b; c; add32 d t1; e; f; g]
  | _ => st
  end.

Definition compress (h : list Z) (block : list Z) : list Z :=
  let w := rev (schedule 48 (rev (bytes_words block))) in
  let st := fold_left round (combine K w) h in
  map (fun p => add32 (fst p) (snd p)) (combine h st).

Fixpoint blocks (n : nat) (l : list Z) (h : list Z) : list Z :=
  match n with
  | O => h
  | S n' => blocks n' (skipn 64 l) (compress h (firstn 64 l))
  end.

Definition hash (msg : list Z) : list Z :=
  let p := pad msg in
  flat_map word_bytes (blocks (List.length p / 64) p H0).

(** RFC 2104, with the 64-byte block of SHA-256. *)
Definition block_key (key : list Z) : list Z :=
  let k := if (64 <? Z.of_nat (List.length key)) then hash key else key in
  k ++ repeat 0 (64 - List.length k).

Definition hmac (key msg : list Z) : list Z :=
  let k := block_key key in
  let ipad := map (Z.lxor 54) k in
  let opad := map (Z.lxor 92) k in
  hash (opad ++ hash (ipad ++ msg)).

End SHA256.

(** [new TextEncoder().encode(s)] *)
Definition TextEncoder_encode (s : string) : list Z :=
  map (fun c => Z.of_N (N_of_ascii c)) (list_ascii_of_string s).

Definition hex_lower (n : N) : ascii :=
  ascii_of_N (if (n <? 10)%N then 48 + n else 87 + n)%N.

Fixpoint hex_digits (fuel : nat) (n : N) (acc : string) : string :=
  match fuel with
  | O => acc
  | S fuel' =>
      let acc' := String (hex_lower (n mod 16)) acc in
      if (n / 16 =? 0)%N then acc' else hex_digits fuel' (n / 16)%N acc'
  end.

(** [n.toString(16)] on a non-negative integer: lowercase digits, no
    leading zero. *)
Definition Number_toString16 (n : Z) : string :=
  hex_digits (S (N.size_nat (Z.to_N n))) (Z.to_N n) "".

Fixpoint repeat_char (n : nat) (c : ascii) : string :=
  match n with
  | O => ""
  | S n' => String c (repeat_char n' c)
  end.

(** [s.padStart(len, c)] with a one-character filler. *)
Definition padStart (s : string) (len : nat) (c : ascii) : string :=
  repeat_char (len - String.length s) c ++ s.

(** [crypto.subtle.importKey('raw', key, {name: 'HMAC', hash: 'SHA-256'})]
    rejects key data of length zero with a DataError (Web Cryptography
    API, HMAC, import key: "if length is zero then throw a DataError"). *)
Definition importKey (key : list Z) : JSError + list Z :=
  match key with
  | [] => inl (mkError "DataError" "Zero-length key is not supported")
  | _ => inr key
  end.

(** [hmacSha256Hex(key, data)]: the promise settles with [inl] when it
    rejects and with [inr] when it fulfils. *)
Definition hmacSha256Hex (key data : string) : JSError + string :=
  match importKey (TextEncoder_encode key) with
  | inl e => inl e
  | inr cryptoKey =>
      let signature := SHA256.hmac cryptoKey (TextEncoder_encode data) in
      inr (String.concat ""
             (map (fun b => padStart (Number_toString16 b) 2 "0") signature))
  end.

(* ================================================================== *)
(** ** The network *)

Record Request : Type := mkRequest {
  req_url : string;
  req_method : string;
  req_headers : list (string * string);
  req_body : option string
}.

Record Response : Type := mkResponse {
  status : Z;
  statusText : string;
  body : string
}.

(** [response.ok]: the status is in the range 200-299. *)
Definition ok (r : Response) : bool :=
  (200 <=? status r) && (status r <=? 299).

(** A computation that returns, throws, or awaits [fetch(url, init)] and
    goes on with what the promise settles to: the response, or the error
    it is rejected with. *)
Inductive Prog (A : Type) : Type :=
| Ret (a : A)
| Throw (e : JSError)
| Fetch (rq : Request) (k : JSError + Response -> Prog A).

Arguments Ret {A} a.
Arguments Throw {A} e.
Arguments Fetch {A} rq k.

Fixpoint bind {A B : Type} (p : Prog A) (f : A -> Prog B) : Prog B :=
  match p with
  | Ret a => f a
  | Throw e => Throw e
  | Fetch rq k => Fetch rq (fun r => bind (k r) f)
  end.

Notation "x <- p ;; q" := (bind p (fun x => q))
  (at level 61, p at next level, right associativity).

(** A settled promise taken into the computation. *)
Definition lift {A : Type} (r : JSError + A) : Prog A :=
  match r with
  | inl e => Throw e
  | inr a => Ret a
  end.

(** [const response = await fetch(url, init)] outside any [try]: a
    rejection is thrown at the [await]. *)
Definition fetch {A : Type} (rq : Request) (k : Response -> Prog A) : Prog A :=
  Fetch rq (fun settled =>
    match settled with
    | inl e => Throw e
    | inr response => k response
    end).

Inductive Outcome (A : Type) : Type :=
| Returned (a : A)
| Thrown (e : JSError).

Arguments Returned {A} a.
Arguments Thrown {A} e.

(** A simulated remote answers a request, given the requests made before
    it, with a response or with a network failure. *)
Definition Remote : Type := list Request -> Request -> JSError + Response.

(** [run remote p log]: the outcome of [p] against [remote] and the log of
    the requests made, oldest first. *)
Fixpoint run {A : Type} (remote : Remote) (p : Prog A) (log : list Request)
  : Outcome A * list Request :=
  match p with
  | Ret a => (Returned a, log)
  | Throw e => (Thrown e, log)
  | Fetch rq k => run remote (k (remote log rq)) (log ++ [rq])%list
  end.

(** [v[k]] on any value, for the data property names the program reads
    ([msg], [code], [message], [serverTime]): reading a property of null or
    undefined throws a TypeError, a primitive or an array has no such
    property. *)
Definition get_prop (v : JSValue) (k : string) : JSError + JSValue :=
  match v with
  | VUndefined =>
      inl (mkError "TypeError"
             ("Cannot read properties of undefined (reading '" ++ k ++ "')"))
  | VNull =>
      inl (mkError "TypeError"
             ("Cannot read properties of null (reading '" ++ k ++ "')"))
  | VObj o => inr (obj_get o k)
  | _ => inr VUndefined
  end.

(* ================================================================== *)
(** ** [BinanceClient] *)

Record BinanceConfig : Type := mkConfig {
  apiKey : string;
  secretKey : string
}.

Definition baseUrl : string := "https://api.binance.com".

Section Client.

(** The platform's [JSON.parse], which [response.json()] uses too. *)
Variable JSON_parse : string -> JSError + JSValue.

Variable config : BinanceConfig.

(** [await response.json().catch(() => ({}))] *)
Definition json_or_empty (response : Response) : JSValue :=
  match JSON_parse (body response) with
  | inr v => v
  | inl _ => VObj []
  end.

(** [throw new Error(`Binance API Error ${response.status}: ${detail}`)] *)
Definition api_error (response : Response) (detail : JSValue) : JSError :=
  mkError "Error"
    ("Binance API Error " ++ Number_toString (status response) ++ ": "
       ++ ToString detail).

(** The failure branch: [error.msg || error[alt] || response.statusText]
    goes into the message. *)
Definition fail_with (alt : string) (response : Response) : Prog JSValue :=
  let error := json_or_empty response in
  msg <- lift (get_prop error "msg") ;;
  if truthy msg then Throw (api_error response msg)
  else
    other <- lift (get_prop error alt) ;;
    Throw (api_error response (js_or other (VStr (statusText response)))).

Definition with_query (url : string) (params : option JSObject) : string :=
  match params with
  | Some p =>
      let qs := buildQueryString p in
      if (qs =? "")%string then url else url ++ "?" ++ qs
  | None => url
  end.

Definition publicGet (endpoint : string) (params : option JSObject)
  : Prog JSValue :=
  let url := with_query (baseUrl ++ endpoint) params in
  fetch (mkRequest url "GET" [] None) (fun response =>
    if negb (ok response) then fail_with "message" response
    else lift (JSON_parse (body response))).

Definition getServerTime : Prog JSValue :=
  data <- publicGet "/api/v3/time" None ;;
  lift (get_prop data "serverTime").

(** [params?.recvWindow] *)
Definition opt_get (params : option JSObject) (k : string) : JSValue :=
  match params with
  | Some p => obj_get p k
  | None => VUndefined
  end.

(** [{ ...params, timestamp: serverTime,
       recvWindow: params?.recvWindow || 5000 }] *)
Definition allParams (params : option JSObject) (serverTime : JSValue)
  : JSObject :=
  let spread := match params with Some p => obj_copy p | None => [] end in
  obj_set (obj_set spread "timestamp" serverTime)
          "recvWindow" (js_or (opt_get params "recvWindow") (VNum 5000)).

(** The success branch of the signed and user-stream modes. *)
Definition text_or_empty (response : Response) : Prog JSValue :=
  let text := body response in
  if (text =? "")%string then Ret (VObj []) else lift (JSON_parse text).

(** [fetch(url, fetchOpts)] of [signedRequest]: the signed query string is
    the query of the URL for GET and DELETE, and the form-urlencoded body
    for POST. *)
Definition signed_fetch (method endpoint signedQs : string) : Request :=
  let url :=
    if (method =? "GET")%string || (method =? "DELETE")%string
    then baseUrl ++ endpoint ++ "?" ++ signedQs
    else baseUrl ++ endpoint in
  let headers := [("X-MBX-APIKEY", apiKey config)] in
  if (method =? "POST")%string
  then mkRequest url method
         (headers ++ [("Content-Type", "application/x-www-form-urlencoded")])%list
         (Some signedQs)
  else mkRequest url method headers None.

Definition signedRequest (method endpoint : string)
           (params : option JSObject) : Prog JSValue :=
  serverTime <- getServerTime ;;
  let queryString := buildQueryString (allParams params serverTime) in
  signature <- lift (hmacSha256Hex (secretKey config) queryString) ;;
  let signedQs := queryString ++ "&signature=" ++ signature in
  fetch (signed_fetch method endpoint signedQs) (fun response =>
    if negb (ok response) then fail_with "code" response
    else text_or_empty response).

Definition userStreamRequest (method endpoint : string)
           (params : option JSObject) : Prog JSValue :=
  let url := with_query (baseUrl ++ endpoint) params in
  fetch (mkRequest url method [("X-MBX-APIKEY", apiKey config)] None)
    (fun response =>
       if negb (ok response) then fail_with "code" response
       else text_or_empty response).

(** *** The operations *)

Definition ping := publicGet "/api/v3/ping" None.
Definition getServerTimePublic := publicGet "/api/v3/time" None.
Definition getExchangeInfo (params : option JSObject) :=
  publicGet "/api/v3/exchangeInfo" params.
Definition getOrderBook (params : JSObject) :=
  publicGet "/api/v3/depth" (Some params).
Definition getRecentTrades (params : JSObject) :=
  publicGet "/api/v3/trades" (Some params).
Definition getAggregateTrades (params : JSObject) :=
  publicGet "/api/v3/aggTrades" (Some params).
Definition getKlines (params : JSObject) :=
  publicGet "/api/v3/klines" (Some params).
Definition getAvgPrice (params : JSObject) :=
  publicGet "/api/v3/avgPrice" (Some params).
Definition getTicker24hr (params : option JSObject) :=
  publicGet "/api/v3/ticker/24hr" params.
Definition getTickerPrice (params : option JSObject) :=
  publicGet "/api/v3/ticker/price" params.
Definition getBookTicker (params : option JSObject) :=
  publicGet "/api/v3/ticker/bookTicker" params.

Definition newOrder (params : JSObject) :=
  signedRequest "POST" "/api/v3/order" (Some params).
Definition testOrder (params : JSObject) :=
  signedRequest "POST" "/api/v3/order/test" (Some params).
Definition queryOrder (params : JSObject) :=
  signedRequest "GET" "/api/v3/order" (Some params).
Definition cancelOrder (params : JSObject) :=
  signedRequest "DELETE" "/api/v3/order" (Some params).
Definition cancelAllOrders (params : JSObject) :=
  signedRequest "DELETE" "/api/v3/openOrders" (Some params).
Definition getOpenOrders (params : option JSObject) :=
  signedRequest "GET" "/api/v3/openOrders" params.
Definition getAllOrders (params : JSObject) :=
  signedRequest "GET" "/api/v3/allOrders" (Some params).

Definition getAccountInfo (params : option JSObject) :=
  signedRequest "GET" "/api/v3/account" params.
Definition getMyTrades (params : JSObject) :=
  signedRequest "GET" "/api/v3/myTrades" (Some params).

Definition createListenKey :=
  userStreamRequest "POST" "/api/v3/userDataStream" None.
Definition keepaliveListenKey (listenKey : JSValue) :=
  userStreamRequest "PUT" "/api/v3/userDataStream"
    (Some [("listenKey", listenKey)]).
Definition closeListenKey (listenKey : JSValue) :=
  userStreamRequest "DELETE" "/api/v3/userDataStream"
    (Some [("listenKey", listenKey)]).

End Client.

(* ================================================================== *)
(** ** [server.ts]: the dispatch layer *)

(** A call of one method of the client, with the arguments it is given. *)
Inductive FacadeCall : Type :=
| call_ping
| call_getServerTimePublic
| call_getExchangeInfo (params : option JSObject)
| call_getOrderBook (params : JSObject)
| call_getRecentTrades (params : JSObject)
| call_getAggregateTrades (params : JSObject)
| call_getKlines (params : JSObject)
| call_getAvgPrice (params : JSObject)
| call_getTicker24hr (params : option JSObject)
| call_getTickerPrice (params : option JSObject)
| call_getBookTicker (params : option JSObject)
| call_newOrder (params : JSObject)
| call_testOrder (params : JSObject)
| call_queryOrder (params : JSObject)
| call_cancelOrder (params : JSObject)
| call_cancelAllOrders (params : JSObject)
| call_getOpenOrders (params : option JSObject)
| call_getAllOrders (params : JSObject)
| call_getAccountInfo (params : option JSObject)
| call_getMyTrades (params : JSObject)
| call_createListenKey
| call_keepaliveListenKey (listenKey : JSValue)
| call_closeListenKey (listenKey : JSValue).

(** [const { _fields, ...params } = args]: the own properties of [args]
    other than [_fields], copied in enumeration order. *)
Definition strip_fields (args : JSObject) : JSObject :=
  fold_left
    (fun acc e =>
       if (fst e =? "_fields")%string then acc
       else obj_set acc (fst e) (snd e))
    (Object_entries args) [].

(** [Object.keys(params).length ? params : undefined] *)
Definition if_nonempty (params : JSObject) : option JSObject :=
  match Object_entries params with
  | [] => None
  | _ => Some params
  end.

(** The [switch] of [handleToolCall]: which method is called, on what. *)
Definition dispatch (toolName : string) (args : JSObject)
  : JSError + FacadeCall :=
  let params := strip_fields args in
  let named n := (toolName =? n)%string in
  if named "bn_ping" then inr call_ping
  else if named "bn_server_time" then inr call_getServerTimePublic
  else if named "bn_exchange_info"
       then inr (call_getExchangeInfo (if_nonempty params))
  else if named "bn_order_book" then inr (call_getOrderBook params)
  else if named "bn_recent_trades" then inr (call_getRecentTrades params)
  else if named "bn_aggregate_trades" then inr (call_getAggregateTrades params)
  else if named "bn_klines" then inr (call_getKlines params)
  else if named "bn_avg_price" then inr (call_getAvgPrice params)
  else if named "bn_ticker_24hr"
       then inr (call_getTicker24hr (if_nonempty params))
  else if named "bn_ticker_price"
       then inr (call_getTickerPrice (if_nonempty params))
  else if named "bn_book_ticker"
       then inr (call_getBookTicker (if_nonempty params))
  else if named "bn_new_order" then inr (call_newOrder params)
  else if named "bn_test_order" then inr (call_testOrder params)
  else if named "bn_query_order" then inr (call_queryOrder params)
  else if named "bn_cancel_order" then inr (call_cancelOrder params)
  else if named "bn_cancel_all_orders" then inr (call_cancelAllOrders params)
  else if named "bn_open_orders"
       then inr (call_getOpenOrders (if_nonempty params))
  else if named "bn_all_orders" then inr (call_getAllOrders params)
  else if named "bn_account_info"
       then inr (call_getAccountInfo (if_nonempty params))
  else if named "bn_my_trades" then inr (call_getMyTrades params)
  else if named "bn_create_listen_key" then inr call_createListenKey
  else if named "bn_keepalive_listen_key"
       then inr (call_keepaliveListenKey (obj_get params "listenKey"))
  else if named "bn_close_listen_key"
       then inr (call_closeListenKey (obj_get params "listenKey"))
  else inl (mkError "Error" ("Unknown tool: " ++ toolName)).

(** The names of [TOOLS] (tools.ts), in order. *)
Definition TOOLS : list string :=
  [ "bn_ping"; "bn_server_time"; "bn_exchange_info"; "bn_order_book";
    "bn_recent_trades"; "bn_aggregate_trades"; "bn_klines"; "bn_avg_price";
    "bn_ticker_24hr"; "bn_ticker_price"; "bn_book_ticker";
    "bn_new_order"; "bn_test_order"; "bn_query_order"; "bn_cancel_order";
    "bn_cancel_all_orders"; "bn_open_orders"; "bn_all_orders";
    "bn_account_info"; "bn_my_trades";
    "bn_create_listen_key"; "bn_keepalive_listen_key";
    "bn_close_listen_key" ].

Definition publicTools : list string :=
  [ "bn_ping"; "bn_server_time"; "bn_exchange_info";
    "bn_order_book"; "bn_recent_trades"; "bn_aggregate_trades";
    "bn_klines"; "bn_avg_price"; "bn_ticker_24hr"; "bn_ticker_price";
    "bn_book_ticker" ].

(** [list.includes(x)] *)
Definition includes (l : list string) (x : string) : bool :=
  existsb (fun y => (y =? x)%string) l.

(** The result of a tool call: one text item and the error flag. *)
Record ToolResult : Type := mkResult { text : string; isError : bool }.

Definition credentials_required : string :=
  "Error: BINANCE_API_KEY and BINANCE_SECRET_KEY are required for this operation. Set them as environment variables or pass via config.".

(** [a !== b] where [a] is a string or undefined. *)
Definition strict_neq (a b : JSValue) : bool :=
  match a, b with
  | VUndefined, VUndefined => false
  | VStr x, VStr y => negb (x =? y)%string
  | _, _ => true
  end.

Section Server.

Variable JSON_parse : string -> JSError + JSValue.

(** [JSON.stringify(result, null, 2)] is the platform's. *)
Variable JSON_stringify : JSValue -> string.

Definition invoke (client : BinanceConfig) (c : FacadeCall) : Prog JSValue :=
  match c with
  | call_ping => ping JSON_parse
  | call_getServerTimePublic => getServerTimePublic JSON_parse
  | call_getExchangeInfo p => getExchangeInfo JSON_parse p
  | call_getOrderBook p => getOrderBook JSON_parse p
  | call_getRecentTrades p => getRecentTrades JSON_parse p
  | call_getAggregateTrades p => getAggregateTrades JSON_parse p
  | call_getKlines p => getKlines JSON_parse p
  | call_getAvgPrice p => getAvgPrice JSON_parse p
  | call_getTicker24hr p => getTicker24hr JSON_parse p
  | call_getTickerPrice p => getTickerPrice JSON_parse p
  | call_getBookTicker p => getBookTicker JSON_parse p
  | call_newOrder p => newOrder JSON_parse client p
  | call_testOrder p => testOrder JSON_parse client p
  | call_queryOrder p => queryOrder JSON_parse client p
  | call_cancelOrder p => cancelOrder JSON_parse client p
  | call_cancelAllOrders p => cancelAllOrders JSON_parse client p
  | call_getOpenOrders p => getOpenOrders JSON_parse client p
  | call_getAllOrders p => getAllOrders JSON_parse client p
  | call_getAccountInfo p => getAccountInfo JSON_parse client p
  | call_getMyTrades p => getMyTrades JSON_parse client p
  | call_createListenKey => createListenKey JSON_parse client
  | call_keepaliveListenKey k => keepaliveListenKey JSON_parse client k
  | call_closeListenKey k => closeListenKey JSON_parse client k
  end.

Definition handleToolCall (toolName : string) (args : JSObject)
           (client : BinanceConfig) : Prog JSValue :=
  match dispatch toolName args with
  | inl e => Throw e
  | inr c => invoke client c
  end.

(** [try { ... } catch (error) { ... }] around the awaited call. *)
Fixpoint catch_result (p : Prog JSValue) : Prog ToolResult :=
  match p with
  | Ret result => Ret (mkResult (JSON_stringify result) false)
  | Throw error => Ret (mkResult ("Error: " ++ emessage error) true)
  | Fetch rq k => Fetch rq (fun r => catch_result (k r))
  end.

(** The configuration [createServer] is given: absent, or both keys. *)
Variable config : option BinanceConfig.

(** [config?.apiKey] and [config?.secretKey] *)
Definition config_field (f : BinanceConfig -> string) : JSValue :=
  match config with
  | Some c => VStr (f c)
  | None => VUndefined
  end.

(** [config?.apiKey || args.BINANCE_API_KEY] and its like for the secret. *)
Definition effective_apiKey (args : JSObject) : JSValue :=
  js_or (config_field apiKey) (obj_get args "BINANCE_API_KEY").

Definition effective_secretKey (args : JSObject) : JSValue :=
  js_or (config_field secretKey) (obj_get args "BINANCE_SECRET_KEY").

(** The handler registered for [toolName]: from the cached client (the
    variable [client] of [createServer]) and the arguments to the result
    and the client kept for the next call.  The client holds the string
    conversion of the keys, which is all it reads of them (a header value
    and the input of [TextEncoder]). *)
Definition handler (toolName : string) (client : option BinanceConfig)
           (args : JSObject) : Prog (ToolResult * option BinanceConfig) :=
  let key := effective_apiKey args in
  let secret := effective_secretKey args in
  if negb (includes publicTools toolName)
     && (negb (truthy key) || negb (truthy secret))
  then Ret (mkResult credentials_required true, client)
  else
    let fresh := mkConfig (ToString (js_or key (VStr "")))
                          (ToString (js_or secret (VStr ""))) in
    let client' :=
      match client with
      | Some c => if strict_neq (config_field apiKey) key then fresh else c
      | None => fresh
      end in
    result <- catch_result (handleToolCall toolName args client') ;;
    Ret (result, Some client').

End Server.

(* ================================================================== *)
(** ** A JSON reader

    The theorems below hold for every [JSON_parse].  This reader of the
    JSON grammar with integer numbers (strings without [\u] escapes)
    is the instance on which their examples are run. *)

Module JSONReader.

Definition dquote : ascii := ascii_of_N 34.

(** [quoted s]: the string literal of JSON for a plain [s]. *)
Definition quoted (s : string) : string :=
  String dquote (s ++ String dquote "").

Definition is_ws (c : ascii) : bool :=
  (c =? " ")%char || (c =? "010")%char || (c =? "013")%char
  || (c =? "009")%char.

Fixpoint skip_ws (s : string) : string :=
  match s with
  | String c s' => if is_ws c then skip_ws s' else s
  | EmptyString => s
  end.

(** [expect lit s]: [s] without its prefix [lit]. *)
Fixpoint expect (lit s : string) : option string :=
  match lit, s with
  | EmptyString, _ => Some s
  | String a lit', String b s' =>
      if (a =? b)%char then expect lit' s' else None
  | _, _ => None
  end.

Fixpoint read_digits (s : string) (acc : string) : string * string :=
  match s with
  | String c s' =>
      if is_digit c then read_digits s' (acc ++ String c "") else (acc, s)
  | EmptyString => (acc, s)
  end.

Definition starts_fraction (s : string) : bool :=
  match s with
  | String c _ => (c =? ".")%char || (c =? "e")%char || (c =? "E")%char
  | EmptyString => false
  end.

Definition read_number (s : string) : option (JSValue * string) :=
  let '(neg, s1) :=
    match s with
    | String "-" s' => (true, s')
    | _ => (false, s)
    end in
  let '(ds, rest) := read_digits s1 "" in
  match ds with
  | EmptyString => None
  | String "0" (String _ _) => None
  | _ =>
      if starts_fraction rest then None
      else
        match digits_value ds 0%N with
        | Some n => Some (VNum (if neg then - Z.of_N n else Z.of_N n), rest)
        | None => None
        end
  end.

Definition unescape (c : ascii) : option ascii :=
  if (c =? dquote)%char then Some c
  else if (c =? "\")%char then Some c
  else if (c =? "/")%char then Some c
  else if (c =? "b")%char then Some "008"%char
  else if (c =? "f")%char then Some "012"%char
  else if (c =? "n")%char then Some "010"%char
  else if (c =? "r")%char then Some "013"%char
  else if (c =? "t")%char then Some "009"%char
  else None.

(** The characters of a string literal, after its opening quote. *)
Fixpoint read_string (s : string) (acc : string) : option (string * string) :=
  match s with
  | EmptyString => None
  | String c s' =>
      if (c =? dquote)%char then Some (acc, s')
      else if (c =? "\")%char then
        match s' with
        | String e s'' =>
            match unescape e with
            | Some d => read_string s'' (acc ++ String d "")
            | None => None
            end
        | EmptyString => None
        end
      else if (N_of_ascii c <? 32)%N then None
      else read_string s' (acc ++ String c "")
  end.

Fixpoint read_value (fuel : nat) (s : string) : option (JSValue * string) :=
  match fuel with
  | O => None
  | S fuel' =>
      match skip_ws s with
      | EmptyString => None
      | String c r =>
          if (c =? "n")%char then
            option_map (fun t => (VNull, t)) (expect "ull" r)
          else if (c =? "t")%char then
            option_map (fun t => (VBool true, t)) (expect "rue" r)
          else if (c =? "f")%char then
            option_map (fun t => (VBool false, t)) (expect "alse" r)
          else if (c =? dquote)%char then
            option_map (fun p => (VStr (fst p), snd p)) (read_string r "")
          else if (c =? "[")%char then
            match skip_ws r with
            | String "]" t => Some (VArr [], t)
            | _ => option_map (fun p => (VArr (fst p), snd p))
                              (read_elements fuel' r [])
            end
          else if (c =? "{")%char then
            match skip_ws r with
            | String "}" t => Some (VObj [], t)
            | _ => option_map (fun p => (VObj (fst p), snd p))
                              (read_members fuel' r [])
            end
          else read_number (String c r)
      end
  end
with read_elements (fuel : nat) (s : string) (acc : list JSValue)
  : option (list JSValue * string) :=
  match fuel with
  | O => None
  | S fuel' =>
      match read_value fuel' s with
      | Some (v, t) =>
          match skip_ws t with
          | String "," t' => read_elements fuel' t' (acc ++ [v])%list
          | String "]" t' => Some ((acc ++ [v])%list, t')
          | _ => None
          end
      | None => None
      end
  end
with read_members (fuel : nat) (s : string) (acc : JSObject)
  : option (JSObject * string) :=
  match fuel with
  | O => None
  | S fuel' =>
      match skip_ws s with
      | String c r =>
          if negb (c =? dquote)%char then None else
          match read_string r "" with
          | Some (k, t) =>
              match skip_ws t with
              | String ":" t' =>
                  match read_value fuel' t' with
                  | Some (v, u) =>
                      match skip_ws u with
                      | String "," u' => read_members fuel' u' (obj_set acc k v)
                      | String "}" u' => Some (obj_set acc k v, u')
                      | _ => None
                      end
                  | None => None
                  end
              | _ => None
              end
          | None => None
          end
      | _ => None
      end
  end.

Definition parse (s : string) : JSError + JSValue :=
  match read_value (2 * String.length s + 2) s with
  | Some (v, rest) =>
      match skip_ws rest with
      | EmptyString => inr v
      | _ => inl (mkError "SyntaxError" "Unexpected non-whitespace character after JSON")
      end
  | None => inl (mkError "SyntaxError" "Unexpected token in JSON")
  end.

End JSONReader.

(* ================================================================== *)
(** ** Vocabulary of the statements *)

(** *** Reading a query string

    The fields of a form-urlencoded string are its pieces between [&];
    the name of a field is what precedes its first [=]. *)

Fixpoint string_forallb (f : ascii -> bool) (s : string) : bool :=
  match s with
  | EmptyString => true
  | String c s' => f c && string_forallb f s'
  end.

Fixpoint split_on (c : ascii) (s : string) : list string :=
  match s with
  | EmptyString => [""]
  | String a s' =>
      if (a =? c)%char then "" :: split_on c s'
      else
        match split_on c s' with
        | h :: t => String a h :: t
        | [] => [String a ""]
        end
  end.

Definition query_components (q : string) : list string := split_on "&" q.

(** [cut c s]: what precedes and what follows the first [c] of [s]. *)
Fixpoint cut (c : ascii) (s : string) : string * string :=
  match s with
  | EmptyString => ("", "")
  | String a r =>
      if (a =? c)%char then ("", r)
      else let (n, v) := cut c r in (String a n, v)
  end.

Definition component_name (c : string) : string := fst (cut "=" c).

Definition unhex (c : ascii) : option N :=
  let n := N_of_ascii c in
  if ((48 <=? n) && (n <=? 57))%N then Some (n - 48)%N
  else if ((65 <=? n) && (n <=? 70))%N then Some (n - 55)%N
  else if ((97 <=? n) && (n <=? 102))%N then Some (n - 87)%N
  else None.

(** Decoding of a form-urlencoded name or value: plus is a space, a
    percent sign with two hexadecimal digits is the byte they denote. *)
Fixpoint form_decode (s : string) : string :=
  match s with
  | EmptyString => ""
  | String c r =>
      if (c =? "+")%char then String " " (form_decode r)
      else if (c =? "%")%char then
        match r with
        | String h1 (String h2 r') =>
            match unhex h1, unhex h2 with
            | Some a, Some b =>
                String (ascii_of_N (16 * a + b)) (form_decode r')
            | _, _ => String c (form_decode r)
            end
        | _ => String c (form_decode r)
        end
      else String c (form_decode r)
  end.

Definition parse_component (c : string) : string * string :=
  let (n, v) := cut "=" c in (form_decode n, form_decode v).

(** The application/x-www-form-urlencoded parser: the name and value of
    each non-empty piece. *)
Definition parse_query (q : string) : list (string * string) :=
  map parse_component
      (filter (fun c => negb (c =? "")%string) (query_components q)).

(** [c] does not occur in [s]. *)
Definition free_of (c : ascii) (s : string) : bool :=
  string_forallb (fun a => negb (a =? c)%char) s.

Definition has_field (q name : string) : bool :=
  existsb (fun c => (component_name c =? name)%string) (query_components q).

(** The query of a URL: what follows its first [?]. *)
Fixpoint url_query (url : string) : option string :=
  match url with
  | EmptyString => None
  | String a s' => if (a =? "?")%char then Some s' else url_query s'
  end.

Definition is_lower_hex (c : ascii) : bool :=
  let n := N_of_ascii c in
  ((48 <=? n) && (n <=? 57) || (97 <=? n) && (n <=? 102))%N.

(** One tuple of the serializer's output. *)
Definition encoded_pair (t : string * string) : string :=
  form_encode (fst t) ++ "=" ++ form_encode (snd t).

(** One pair of the serialized string. *)
Definition pair_string (e : string * JSValue) : string :=
  form_encode (fst e) ++ "=" ++ form_encode (ToString (snd e)).

(** The canonical string as the specification words it: the entries that
    are present, joined in the insertion order of the mapping. *)
Definition canonical_insertion_order (P : JSObject) : string :=
  String.concat "&" (map pair_string (filter (fun e => present (snd e)) P)).

(** *** The operations by request mode *)

Inductive RequestMode : Type := PUBLIC | USER_STREAM | SIGNED.

Definition mode_of (c : FacadeCall) : RequestMode :=
  match c with
  | call_ping | call_getServerTimePublic | call_getExchangeInfo _
  | call_getOrderBook _ | call_getRecentTrades _ | call_getAggregateTrades _
  | call_getKlines _ | call_getAvgPrice _ | call_getTicker24hr _
  | call_getTickerPrice _ | call_getBookTicker _ => PUBLIC
  | call_createListenKey | call_keepaliveListenKey _
  | call_closeListenKey _ => USER_STREAM
  | _ => SIGNED
  end.

(** Method, path and parameters of a signed operation. *)
Definition signed_call (c : FacadeCall)
  : option (string * string * option JSObject) :=
  match c with
  | call_newOrder p => Some ("POST", "/api/v3/order", Some p)
  | call_testOrder p => Some ("POST", "/api/v3/order/test", Some p)
  | call_queryOrder p => Some ("GET", "/api/v3/order", Some p)
  | call_cancelOrder p => Some ("DELETE", "/api/v3/order", Some p)
  | call_cancelAllOrders p => Some ("DELETE", "/api/v3/openOrders", Some p)
  | call_getOpenOrders p => Some ("GET", "/api/v3/openOrders", p)
  | call_getAllOrders p => Some ("GET", "/api/v3/allOrders", Some p)
  | call_getAccountInfo p => Some ("GET", "/api/v3/account", p)
  | call_getMyTrades p => Some ("GET", "/api/v3/myTrades", Some p)
  | _ => None
  end.

(** The parameter mapping a call hands to the client, when its method
    takes one. *)
Definition forwarded (c : FacadeCall) : option (option JSObject) :=
  match c with
  | call_getExchangeInfo p | call_getTicker24hr p | call_getTickerPrice p
  | call_getBookTicker p | call_getOpenOrders p | call_getAccountInfo p =>
      Some p
  | call_getOrderBook p | call_getRecentTrades p | call_getAggregateTrades p
  | call_getKlines p | call_getAvgPrice p | call_newOrder p
  | call_testOrder p | call_queryOrder p | call_cancelOrder p
  | call_cancelAllOrders p | call_getAllOrders p | call_getMyTrades p =>
      Some (Some p)
  | _ => None
  end.

(** *** Simulated remotes of the examples *)

Definition time_request : Request :=
  mkRequest (baseUrl ++ "/api/v3/time") "GET" [] None.

(** Answers the server-time call with a fixed time and anything else with
    [answer]. *)
Definition exchange (answer : Response) : Remote :=
  fun _ rq =>
    if (req_url rq =? req_url time_request)%string
    then inr (mkResponse 200 "OK"
                ("{" ++ JSONReader.quoted "serverTime" ++ ":1499827319559}"))
    else inr answer.

(** Answers every call with [answer]. *)
Definition always (answer : Response) : Remote := fun _ _ => inr answer.

(** *** Enumeration order *)

(** The order of the index-keyed properties. *)
Definition index_le (a b : N * (string * JSValue)) : Prop :=
  (fst a <= fst b)%N.

(** No key of [o] is an array index. *)
Definition no_index_keys (o : JSObject) : bool :=
  forallb (fun e => negb (is_array_index (fst e))) o.

(** *** Hexadecimal text *)

(** The two lowercase hexadecimal digits of a byte. *)
Definition two_hex (b : Z) : string :=
  String (hex_lower (Z.to_N b / 16)) (String (hex_lower (Z.to_N b mod 16)) "").

Definition is_byte (b : Z) : Prop := 0 <= b < 256.

Definition hex_byte_ok (b : Z) : bool :=
  (padStart (Number_toString16 b) 2 "0" =? two_hex b)%string
  && string_forallb is_lower_hex (two_hex b).

(** *** Requests and outcomes *)

(** [params?.hasOwnProperty(k)] *)
Definition opt_has_key (params : option JSObject) (k : string) : bool :=
  match params with
  | Some p => has_key p k
  | None => false
  end.

(** The query string a request carries: its body when it has one, the
    query of its URL otherwise. *)
Definition wire_query (rq : Request) : option string :=
  match req_body rq with
  | Some b => Some b
  | None => url_query (req_url rq)
  end.

(** [out] is the error of the exchange for [response]: an error is thrown;
    when the decoded body is not null its message carries the status and
    [msg], else the property [alt], else the status text; an undecodable
    body leaves the status text. *)
Definition exchange_error (JSON_parse : string -> JSError + JSValue)
           (alt : string) (response : Response) (out : Outcome JSValue)
  : Prop :=
  (exists e, out = Thrown e)
  /\ (forall msg other,
         get_prop (json_or_empty JSON_parse response) "msg" = inr msg ->
         get_prop (json_or_empty JSON_parse response) alt = inr other ->
         out = Thrown (api_error response
                         (js_or msg (js_or other
                                       (VStr (statusText response))))))
  /\ (forall e,
         JSON_parse (body response) = inl e ->
         out = Thrown (api_error response (VStr (statusText response)))).

(** [out] is the success of the signed and user-stream modes for
    [response]: the empty object for an empty body, what the body decodes
    to otherwise, and the decoding error when it does not decode. *)
Definition decoded_or_empty (JSON_parse : string -> JSError + JSValue)
           (response : Response) (out : Outcome JSValue) : Prop :=
  (body response = "" -> out = Returned (VObj []))
  /\ (body response <> "" ->
      forall e, JSON_parse (body response) = inl e -> out = Thrown e)
  /\ (body response <> "" ->
      forall v, JSON_parse (body response) = inr v -> out = Returned v).

(** *** The tools by the way they hand their arguments on *)

Definition mapping_tools : list string :=
  [ "bn_order_book"; "bn_recent_trades"; "bn_aggregate_trades"; "bn_klines";
    "bn_avg_price"; "bn_new_order"; "bn_test_order"; "bn_query_order";
    "bn_cancel_order"; "bn_cancel_all_orders"; "bn_all_orders";
    "bn_my_trades" ].

Definition optional_mapping_tools : list string :=
  [ "bn_exchange_info"; "bn_ticker_24hr"; "bn_ticker_price";
    "bn_book_ticker"; "bn_open_orders"; "bn_account_info" ].

Definition listen_key_tools : list string :=
  [ "bn_keepalive_listen_key"; "bn_close_listen_key" ].

Definition bare_tools : list string :=
  [ "bn_ping"; "bn_server_time"; "bn_create_listen_key" ].

(** The value a listen-key call is given. *)
Definition forwarded_key (c : FacadeCall) : option JSValue :=
  match c with
  | call_keepaliveListenKey k | call_closeListenKey k => Some k
  | _ => None
  end.

(** *** Sample data of the examples *)

Definition demo_config : BinanceConfig :=
  mkConfig "vmPUZE6mv9SD5VNHk4HlWFsOr6aKE2zvsw0MuIgwCIPy6utIco14y7Ju91duEh8A"
           "NhqPtmdSJYdKjVHjA7PZj4Mge3R5YNiP1e3UZjInClVN65XAbvqqM6A7H5fATj0j".

Definition demo_order : JSObject :=
  [ ("symbol", VStr "LTCBTC"); ("side", VStr "BUY"); ("type", VStr "MARKET");
    ("quantity", VStr "1") ].

Definition empty_success : Response := mkResponse 200 "OK" "".

(** HTTP 400 with the body [{"code":-1121,"msg":"Invalid symbol."}]. *)
Definition invalid_symbol : Response :=
  mkResponse 400 "Bad Request"
    ("{" ++ JSONReader.quoted "code" ++ ":-1121," ++ JSONReader.quoted "msg"
         ++ ":" ++ JSONReader.quoted "Invalid symbol." ++ "}").

(** The second request of a log. *)
Definition second (log : list Request) : Request := nth 1 log time_request.

(** *** Proof steps *)

(** Case analysis on the tool of [Hin : In toolName l], for a list [l] of
    tool names, with the dispatch [Hd] evaluated at each name. *)
Ltac each_tool Hin Hd finish :=
  simpl in Hin;
  repeat (destruct Hin as [<-|Hin];
          [unfold dispatch in Hd; simpl in Hd; inversion Hd; subst; finish|]);
  try contradiction.

(* ================================================================== *)
(** ** [tools.ts]: the catalog *)

(** A tool definition: its name, the title of its annotations, the
    property names and the required names of its input schema, and its
    four hints.  Descriptions and property types are left out. *)
Record MCPToolDefinition : Type := tool {
  name : string;
  title : string;
  properties : list string;
  required : list string;
  readOnlyHint : bool;
  destructiveHint : bool;
  idempotentHint : bool;
  openWorldHint : bool
}.

(** The 23 tool definitions of [TOOLS], in order. *)
Definition CATALOG : list MCPToolDefinition :=
  [ tool "bn_ping" "Ping"
      ["_fields"]
      []
      true false true true;
    tool "bn_server_time" "Get Server Time"
      ["_fields"]
      []
      true false true true;
    tool "bn_exchange_info" "Get Exchange Info"
      ["symbol"; "symbols"; "_fields"]
      []
      true false true true;
    tool "bn_order_book" "Get Order Book"
      ["symbol"; "limit"; "_fields"]
      ["symbol"]
      true false true true;
    tool "bn_recent_trades" "Get Recent Trades"
      ["symbol"; "limit"; "_fields"]
      ["symbol"]
      true false true true;
    tool "bn_aggregate_trades" "Get Aggregate Trades"
      ["symbol"; "fromId"; "startTime"; "endTime"; "limit"; "_fields"]
      ["symbol"]
      true false true true;
    tool "bn_klines" "Get Klines/Candlesticks"
      ["symbol"; "interval"; "startTime"; "endTime"; "limit"; "_fields"]
      ["symbol"; "interval"]
      true false true true;
    tool "bn_avg_price" "Get Average Price"
      ["symbol"; "_fields"]
      ["symbol"]
      true false true true;
    tool "bn_ticker_24hr" "Get 24hr Ticker"
      ["symbol"; "_fields"]
      []
      true false true true;
    tool "bn_ticker_price" "Get Price Ticker"
      ["symbol"; "_fields"]
      []
      true false true true;
    tool "bn_book_ticker" "Get Book Ticker"
      ["symbol"; "_fields"]
      []
      true false true true;
    tool "bn_new_order" "Place New Order"
      ["symbol"; "side"; "type"; "timeInForce"; "quantity"; "quoteOrderQty";
       "price"; "stopPrice"; "newClientOrderId"; "recvWindow"]
      ["symbol"; "side"; "type"]
      false false false false;
    tool "bn_test_order" "Test Order (Dry Run)"
      ["symbol"; "side"; "type"; "timeInForce"; "quantity"; "quoteOrderQty";
       "price"; "stopPrice"; "newClientOrderId"; "recvWindow"]
      ["symbol"; "side"; "type"]
      true false true false;
    tool "bn_query_order" "Query Order"
      ["symbol"; "orderId"; "origClientOrderId"; "recvWindow"; "_fields"]
      ["symbol"]
      true false true false;
    tool "bn_cancel_order" "Cancel Order"
      ["symbol"; "orderId"; "origClientOrderId"; "recvWindow"]
      ["symbol"]
      false true false false;
    tool "bn_cancel_all_orders" "Cancel All Orders"
      ["symbol"; "recvWindow"]
      ["symbol"]
      false true false false;
    tool "bn_open_orders" "Get Open Orders"
      ["symbol"; "recvWindow"; "_fields"]
      []
      true false true false;
    tool "bn_all_orders" "Get All Orders"
      ["symbol"; "orderId"; "startTime"; "endTime"; "limit"; "recvWindow";
       "_fields"]
      ["symbol"]
      true false true false;
    tool "bn_account_info" "Get Account Info"
      ["recvWindow"; "_fields"]
      []
      true false true false;
    tool "bn_my_trades" "Get My Trades"
      ["symbol"; "orderId"; "startTime"; "endTime"; "fromId"; "limit";
       "recvWindow"; "_fields"]
      ["symbol"]
      true false true false;
    tool "bn_create_listen_key" "Create Listen Key"
      ["_fields"]
      []
      false false false false;
    tool "bn_keepalive_listen_key" "Keepalive Listen Key"
      ["listenKey"]
      ["listenKey"]
      false false true false;
    tool "bn_close_listen_key" "Close Listen Key"
      ["listenKey"]
      ["listenKey"]
      false true true false ].

(* ================================================================== *)
(** ** [index.ts]: the configuration of the entry points *)

(** [process.env]: variables and their string values. *)
Definition Env : Type := list (string * string).

(** [process.env[k]] *)
Fixpoint env_get (env : Env) (k : string) : option string :=
  match env with
  | [] => None
  | (k', v) :: env' => if (k' =? k)%string then Some v else env_get env' k
  end.

(** [process.env[k] = v]: an existing variable keeps its place. *)
Fixpoint env_set (env : Env) (k v : string) : Env :=
  match env with
  | [] => [(k, v)]
  | (k', v') :: env' =>
      if (k' =? k)%string then (k, v) :: env' else (k', v') :: env_set env' k v
  end.

(** Truthiness of a string that may be undefined. *)
Definition set_and_nonempty (v : option string) : bool :=
  match v with
  | Some s => negb (s =? "")%string
  | None => false
  end.

(** [getConfig()]: the two keys of the environment, or null when one of
    them is unset or empty. *)
Definition getConfig (env : Env) : option BinanceConfig :=
  match env_get env "BINANCE_API_KEY", env_get env "BINANCE_SECRET_KEY" with
  | Some apiKey, Some secretKey =>
      if (apiKey =? "")%string || (secretKey =? "")%string then None
      else Some (mkConfig apiKey secretKey)
  | _, _ => None
  end.

(** The [config] of the options of [createSmitheryServer]. *)
Record SmitheryConfig : Type := mkSmithery {
  BINANCE_API_KEY : option string;
  BINANCE_SECRET_KEY : option string
}.

(** [if (v) process.env[k] = v] *)
Definition env_override (env : Env) (k : string) (v : option string) : Env :=
  match v with
  | Some s => if (s =? "")%string then env else env_set env k s
  | None => env
  end.

(** [createSmitheryServer(opts)]: the environment it leaves and the
    configuration it hands to [createServer]; [opts] is [None] when the
    options or their [config] are absent. *)
Definition createSmitheryServer (opts : option SmitheryConfig) (env : Env)
  : Env * option BinanceConfig :=
  let env1 :=
    match opts with
    | Some o => env_override env "BINANCE_API_KEY" (BINANCE_API_KEY o)
    | None => env
    end in
  let env2 :=
    match opts with
    | Some o => env_override env1 "BINANCE_SECRET_KEY" (BINANCE_SECRET_KEY o)
    | None => env1
    end in
  (env2, getConfig env2).

(* ================================================================== *)
(** ** The tool handler against a remote *)

(** The test of the handler that refuses a call for want of credentials. *)
Definition gate_blocks (config : option BinanceConfig) (toolName : string)
           (args : JSObject) : bool :=
  negb (includes publicTools toolName)
  && (negb (truthy (effective_apiKey config args))
      || negb (truthy (effective_secretKey config args))).

(** The client the handler calls: the cached one, or a new one from the
    effective keys when there is none or the configured API key differs
    from the effective one. *)
Definition next_client (config : option BinanceConfig)
           (client : option BinanceConfig) (args : JSObject) : BinanceConfig :=
  let key := effective_apiKey config args in
  let secret := effective_secretKey config args in
  let fresh := mkConfig (ToString (js_or key (VStr "")))
                        (ToString (js_or secret (VStr ""))) in
  match client with
  | Some c => if strict_neq (config_field config apiKey) key then fresh else c
  | None => fresh
  end.

(** The handler run against a remote: the result, the client kept for
    the next call and the requests made.  Its [try]/[catch] encloses the
    awaited call, so a rejected [fetch] comes back as an error result like
    any other failure. *)
Definition serve (JSON_parse : string -> JSError + JSValue)
           (JSON_stringify : JSValue -> string)
           (config : option BinanceConfig) (remote : Remote)
           (toolName : string) (client : option BinanceConfig)
           (args : JSObject) (log : list Request)
  : (ToolResult * option BinanceConfig) * list Request :=
  if gate_blocks config toolName args
  then ((mkResult credentials_required true, client), log)
  else
    let client' := next_client config client args in
    match run remote (handleToolCall JSON_parse toolName args client') log with
    | (Returned result, log') =>
        ((mkResult (JSON_stringify result) false, Some client'), log')
    | (Thrown error, log') =>
        ((mkResult ("Error: " ++ emessage error) true, Some client'), log')
    end.

(** *** Operations and their requests *)

(** Method and path of the request of each operation. *)
Definition operation (c : FacadeCall) : string * string :=
  match c with
  | call_ping => ("GET", "/api/v3/ping")
  | call_getServerTimePublic => ("GET", "/api/v3/time")
  | call_getExchangeInfo _ => ("GET", "/api/v3/exchangeInfo")
  | call_getOrderBook _ => ("GET", "/api/v3/depth")
  | call_getRecentTrades _ => ("GET", "/api/v3/trades")
  | call_getAggregateTrades _ => ("GET", "/api/v3/aggTrades")
  | call_getKlines _ => ("GET", "/api/v3/klines")
  | call_getAvgPrice _ => ("GET", "/api/v3/avgPrice")
  | call_getTicker24hr _ => ("GET", "/api/v3/ticker/24hr")
  | call_getTickerPrice _ => ("GET", "/api/v3/ticker/price")
  | call_getBookTicker _ => ("GET", "/api/v3/ticker/bookTicker")
  | call_newOrder _ => ("POST", "/api/v3/order")
  | call_testOrder _ => ("POST", "/api/v3/order/test")
  | call_queryOrder _ => ("GET", "/api/v3/order")
  | call_cancelOrder _ => ("DELETE", "/api/v3/order")
  | call_cancelAllOrders _ => ("DELETE", "/api/v3/openOrders")
  | call_getOpenOrders _ => ("GET", "/api/v3/openOrders")
  | call_getAllOrders _ => ("GET", "/api/v3/allOrders")
  | call_getAccountInfo _ => ("GET", "/api/v3/account")
  | call_getMyTrades _ => ("GET", "/api/v3/myTrades")
  | call_createListenKey => ("POST", "/api/v3/userDataStream")
  | call_keepaliveListenKey _ => ("PUT", "/api/v3/userDataStream")
  | call_closeListenKey _ => ("DELETE", "/api/v3/userDataStream")
  end.

(** The tool that dispatches to each operation. *)
Definition tool_of (c : FacadeCall) : string :=
  match c with
  | call_ping => "bn_ping"
  | call_getServerTimePublic => "bn_server_time"
  | call_getExchangeInfo _ => "bn_exchange_info"
  | call_getOrderBook _ => "bn_order_book"
  | call_getRecentTrades _ => "bn_recent_trades"
  | call_getAggregateTrades _ => "bn_aggregate_trades"
  | call_getKlines _ => "bn_klines"
  | call_getAvgPrice _ => "bn_avg_price"
  | call_getTicker24hr _ => "bn_ticker_24hr"
  | call_getTickerPrice _ => "bn_ticker_price"
  | call_getBookTicker _ => "bn_book_ticker"
  | call_newOrder _ => "bn_new_order"
  | call_testOrder _ => "bn_test_order"
  | call_queryOrder _ => "bn_query_order"
  | call_cancelOrder _ => "bn_cancel_order"
  | call_cancelAllOrders _ => "bn_cancel_all_orders"
  | call_getOpenOrders _ => "bn_open_orders"
  | call_getAllOrders _ => "bn_all_orders"
  | call_getAccountInfo _ => "bn_account_info"
  | call_getMyTrades _ => "bn_my_trades"
  | call_createListenKey => "bn_create_listen_key"
  | call_keepaliveListenKey _ => "bn_keepalive_listen_key"
  | call_closeListenKey _ => "bn_close_listen_key"
  end.

(** The path of a URL: what precedes its first [?]. *)
Definition url_path (url : string) : string := fst (cut "?" url).

(** The request of a public call, and of a user-stream call. *)
Definition public_request (endpoint : string) (params : option JSObject)
  : Request :=
  mkRequest (with_query (baseUrl ++ endpoint) params) "GET" [] None.

Definition user_request (cfg : BinanceConfig) (method endpoint : string)
           (params : option JSObject) : Request :=
  mkRequest (with_query (baseUrl ++ endpoint) params) method
            [("X-MBX-APIKEY", apiKey cfg)] None.

(** A request is that of operation [c]: its method, and its path under
    the base URL. *)
Definition request_of (c : FacadeCall) (rq : Request) : Prop :=
  req_method rq = fst (operation c)
  /\ url_path (req_url rq) = baseUrl ++ snd (operation c).

(** *** The signed string read back *)

(** The characters of a canonical string. *)
Definition query_char (c : ascii) : bool :=
  form_safe c || (c =? "+")%char || (c =? "%")%char || (c =? "&")%char
  || (c =? "=")%char.

(** What precedes the last field of a query string, and the value of that
    field. *)
Definition signed_part (q : string) : string :=
  String.concat "&" (removelast (query_components q)).

Definition last_value (q : string) : string :=
  snd (cut "=" (last (query_components q) "")).

(** A remote on which every request fails. *)
Definition unreachable (e : JSError) : Remote := fun _ _ => inl e.

(** An order that carries the credentials among its arguments. *)
Definition keyed_order : JSObject :=
  (demo_order
     ++ [("BINANCE_API_KEY", VStr (apiKey demo_config));
         ("BINANCE_SECRET_KEY", VStr (secretKey demo_config))])%list.

(** The clients the handler can hold under a configuration: none before
    the first call, then what each call leaves. *)
Inductive reachable_client (JSON_parse : string -> JSError + JSValue)
          (JSON_stringify : JSValue -> string)
          (config : option BinanceConfig) : option BinanceConfig -> Prop :=
| reach_start : reachable_client JSON_parse JSON_stringify config None
| reach_call (remote : Remote) (toolName : string)
             (client : option BinanceConfig) (args : JSObject)
             (log : list Request) :
    reachable_client JSON_parse JSON_stringify config client ->
    reachable_client JSON_parse JSON_stringify config
      (snd (fst (serve JSON_parse JSON_stringify config remote toolName client
                   args log))).

(** [opts?.config?.F] *)
Definition option_field (opts : option SmitheryConfig)
           (f : SmitheryConfig -> option string) : option string :=
  match opts with
  | Some o => f o
  | None => None
  end.

(** An option when it is set and not empty, the variable otherwise. *)
Definition option_or_env (v e : option string) : option string :=
  if set_and_nonempty v then v else e.

(** HTTP 200 with the body [{"orderId":28}]. *)
Definition order_ack : Response :=
  mkResponse 200 "OK" ("{" ++ JSONReader.quoted "orderId" ++ ":28}").

(** HTTP 200 with the body [{"serverTime":1499827319559}], the answer of
    [exchange] to the server-time call. *)
Definition time_answer : Response :=
  mkResponse 200 "OK"
    ("{" ++ JSONReader.quoted "serverTime" ++ ":1499827319559}").

(** The signature of [data] under the secret of [cfg], when the key import
    accepts that secret. *)
Definition signature_of (cfg : BinanceConfig) (data : string) : string :=
  match hmacSha256Hex (secretKey cfg) data with
  | inr sig => sig
  | inl _ => ""
  end.

(** HTTP 200 with a body that is no JSON. *)
Definition html_success : Response := mkResponse 200 "OK" "<html>".

(* ================================================================== *)
(** * Properties *)

(** ** Strings and lists *)

Lemma append_nil_r (s : string) : s ++ "" = s.
Proof. induction s as [|c s IH]; simpl; [reflexivity | now rewrite IH]. Qed.

Lemma append_assoc (s1 s2 s3 : string) : (s1 ++ s2) ++ s3 = s1 ++ s2 ++ s3.
Proof. induction s1 as [|c s1 IH]; simpl; [reflexivity | now rewrite IH]. Qed.

Lemma length_append (s1 s2 : string) :
  String.length (s1 ++ s2) = (String.length s1 + String.length s2)%nat.
Proof. induction s1 as [|c s1 IH]; simpl; [reflexivity | now rewrite IH]. Qed.

Lemma append_nonempty_r (s1 s2 : string) :
  (s2 =? "")%string = false -> (s1 ++ s2 =? "")%string = false.
Proof. destruct s1; [trivial | reflexivity]. Qed.

Lemma encoded_pair_nonempty (t : string * string) :
  (encoded_pair t =? "")%string = false.
Proof. unfold encoded_pair. now apply append_nonempty_r. Qed.

Lemma string_forallb_append (f : ascii -> bool) (s1 s2 : string) :
  string_forallb f (s1 ++ s2) = string_forallb f s1 && string_forallb f s2.
Proof.
  induction s1 as [|c s1 IH]; simpl; [reflexivity|].
  now rewrite IH, andb_assoc.
Qed.

(** ** The serializer joins the encoded pairs with [&] *)

Lemma serialize_from (l : list (string * string)) (acc : string) :
  (acc =? "")%string = false ->
  fold_left serialize_step l acc
  = String.concat "&" (acc :: map encoded_pair l).
Proof.
  revert acc. induction l as [|t l IH]; intros acc Hacc.
  - reflexivity.
  - cbn [fold_left map]. rewrite IH.
    + unfold serialize_step. rewrite Hacc. fold (encoded_pair t).
      destruct l as [|t' l]; cbn [map String.concat].
      * now rewrite append_assoc.
      * now rewrite !append_assoc.
    + unfold serialize_step. rewrite Hacc. fold (encoded_pair t).
      apply append_nonempty_r, encoded_pair_nonempty.
Qed.

Lemma URLSearchParams_toString_concat (l : list (string * string)) :
  URLSearchParams_toString l = String.concat "&" (map encoded_pair l).
Proof.
  unfold URLSearchParams_toString. destruct l as [|t l]; [reflexivity|].
  cbn [fold_left map]. rewrite serialize_from.
  - reflexivity.
  - unfold serialize_step. cbn [String.eqb append]. fold (encoded_pair t).
    apply encoded_pair_nonempty.
Qed.

Lemma buildQueryString_concat (P : JSObject) :
  buildQueryString P
  = String.concat "&"
      (map pair_string (filter (fun e => present (snd e)) (Object_entries P))).
Proof.
  unfold buildQueryString. rewrite URLSearchParams_toString_concat, map_map.
  reflexivity.
Qed.

(** ** Own properties: enumeration order *)

Lemma insert_index_perm n e l :
  Permutation (insert_index n e l) ((n, e) :: l).
Proof.
  induction l as [|[m e'] l IH]; simpl; [reflexivity|].
  destruct (n <=? m)%N; [reflexivity|].
  apply perm_trans with ((m, e') :: (n, e) :: l); [|apply perm_swap].
  now apply perm_skip.
Qed.

Lemma index_entries_perm (o : JSObject) :
  Permutation (map snd (index_entries o))
              (filter (fun e => is_array_index (fst e)) o).
Proof.
  induction o as [|[k v] o IH]; simpl; [reflexivity|].
  unfold is_array_index at 1. destruct (array_index k) as [n|]; [|exact IH].
  rewrite (Permutation_map snd (insert_index_perm n (k, v) (index_entries o))).
  simpl. now apply perm_skip.
Qed.

Lemma filter_partition_perm {A : Type} (f : A -> bool) (l : list A) :
  Permutation (filter f l ++ filter (fun x => negb (f x)) l)%list l.
Proof.
  induction l as [|a l IH]; simpl; [reflexivity|].
  destruct (f a); simpl.
  - now apply perm_skip.
  - rewrite <- Permutation_middle. now apply perm_skip.
Qed.

Lemma Object_entries_perm (o : JSObject) : Permutation (Object_entries o) o.
Proof.
  unfold Object_entries, named_entries. rewrite index_entries_perm.
  apply filter_partition_perm.
Qed.

Lemma insert_index_sorted n e l :
  Sorted index_le l -> Sorted index_le (insert_index n e l).
Proof.
  induction l as [|[m e'] l IH]; intros Hs; simpl.
  - repeat constructor.
  - destruct (n <=? m)%N eqn:Hle.
    + constructor; [exact Hs|]. constructor. unfold index_le; simpl.
      now apply N.leb_le.
    + apply Sorted_inv in Hs as [Hs Hhd]. constructor; [now apply IH|].
      destruct l as [|[m' e''] l]; simpl.
      * constructor. unfold index_le; simpl. apply N.leb_gt in Hle. lia.
      * destruct (n <=? m')%N.
        -- constructor. unfold index_le; simpl. apply N.leb_gt in Hle. lia.
        -- constructor. now apply HdRel_inv in Hhd.
Qed.

Lemma index_entries_sorted (o : JSObject) : Sorted index_le (index_entries o).
Proof.
  induction o as [|[k v] o IH]; simpl; [constructor|].
  destruct (array_index k); [now apply insert_index_sorted | exact IH].
Qed.

Lemma insert_index_Forall (Q : N * (string * JSValue) -> Prop) n e l :
  Q (n, e) -> Forall Q l -> Forall Q (insert_index n e l).
Proof.
  intros Hq Hl. induction Hl as [|[m e'] l Hm Hl IH]; simpl.
  - now repeat constructor.
  - destruct (n <=? m)%N; repeat constructor; assumption.
Qed.

Lemma index_entries_indexed (o : JSObject) :
  Forall (fun x => array_index (fst (snd x)) = Some (fst x)) (index_entries o).
Proof.
  induction o as [|[k v] o IH]; simpl; [constructor|].
  destruct (array_index k) eqn:E; [|exact IH].
  now apply insert_index_Forall.
Qed.

Lemma no_index_keys_entries (o : JSObject) :
  no_index_keys o = true -> index_entries o = [] /\ named_entries o = o.
Proof.
  unfold named_entries, no_index_keys.
  induction o as [|[k v] o IH]; simpl; [now split|].
  intros H. apply andb_prop in H as [Hk Ho]. rewrite Hk.
  unfold is_array_index in Hk. destruct (array_index k); [discriminate|].
  destruct (IH Ho) as [H1 H2]. split; [exact H1 | now rewrite H2].
Qed.

Lemma Object_entries_named (o : JSObject) :
  no_index_keys o = true -> Object_entries o = o.
Proof.
  intros H. destruct (no_index_keys_entries o H) as [H1 H2].
  unfold Object_entries. now rewrite H1, H2.
Qed.

(** ** Reading and writing properties *)

Lemma has_key_In (o : JSObject) (k : string) :
  has_key o k = true <-> In k (keys o).
Proof.
  induction o as [|[k' v] o IH]; simpl.
  - split; [discriminate | tauto].
  - rewrite orb_true_iff, IH, String.eqb_eq. tauto.
Qed.

Lemma has_key_perm (o o' : JSObject) (k : string) :
  Permutation o o' -> has_key o k = has_key o' k.
Proof.
  intros Hp. apply eq_true_iff_eq. rewrite !has_key_In. unfold keys.
  split; apply Permutation_in, Permutation_map;
    [assumption | now apply Permutation_sym].
Qed.

Lemma has_key_set (o : JSObject) (k : string) (v : JSValue) (k' : string) :
  has_key (obj_set o k v) k' = has_key o k' || (k =? k')%string.
Proof.
  induction o as [|[k0 v0] o IH]; simpl.
  - now rewrite orb_false_r.
  - destruct (k0 =? k)%string eqn:E; simpl.
    + apply String.eqb_eq in E; subst k0.
      destruct (k =? k')%string, (has_key o k'); reflexivity.
    + rewrite IH. now rewrite orb_assoc.
Qed.

Lemma obj_get_set_same (o : JSObject) (k : string) (v : JSValue) :
  obj_get (obj_set o k v) k = v.
Proof.
  induction o as [|[k0 v0] o IH]; simpl.
  - now rewrite String.eqb_refl.
  - destruct (k0 =? k)%string eqn:E; simpl.
    + now rewrite String.eqb_refl.
    + now rewrite E.
Qed.

Lemma obj_get_set_other (o : JSObject) (k : string) (v : JSValue) (k' : string) :
  k <> k' -> obj_get (obj_set o k v) k' = obj_get o k'.
Proof.
  intros Hne. apply String.eqb_neq in Hne.
  induction o as [|[k0 v0] o IH]; simpl.
  - now rewrite Hne.
  - destruct (k0 =? k)%string eqn:E; simpl.
    + apply String.eqb_eq in E; subst k0. now rewrite Hne.
    + now rewrite IH.
Qed.

Lemma obj_set_set (o : JSObject) (k : string) (v w : JSValue) :
  obj_set (obj_set o k v) k w = obj_set o k w.
Proof.
  induction o as [|[k0 v0] o IH]; simpl.
  - now rewrite String.eqb_refl.
  - destruct (k0 =? k)%string eqn:E; simpl.
    + now rewrite String.eqb_refl.
    + now rewrite E, IH.
Qed.

Lemma obj_set_fresh (o : JSObject) (k : string) (v : JSValue) :
  has_key o k = false -> obj_set o k v = (o ++ [(k, v)])%list.
Proof.
  induction o as [|[k0 v0] o IH]; simpl; intros H; [reflexivity|].
  apply orb_false_iff in H as [H1 H2]. now rewrite H1, IH.
Qed.

Lemma has_key_false (o : JSObject) (k : string) :
  ~ In k (keys o) -> has_key o k = false.
Proof.
  intros H. destruct (has_key o k) eqn:E; [|reflexivity].
  now apply has_key_In in E.
Qed.

Lemma has_key_get_In (o : JSObject) (k : string) :
  has_key o k = true -> In (k, obj_get o k) o.
Proof.
  induction o as [|[k0 v0] o IH]; simpl; [discriminate|].
  destruct (k0 =? k)%string eqn:E; simpl; intros H.
  - apply String.eqb_eq in E; subst. now left.
  - right. now apply IH.
Qed.

Lemma obj_get_absent (o : JSObject) (k : string) :
  has_key o k = false -> obj_get o k = VUndefined.
Proof.
  induction o as [|[k0 v0] o IH]; simpl; [reflexivity|].
  intros H. apply orb_false_iff in H as [H1 H2]. now rewrite H1, IH.
Qed.

Lemma obj_get_In (o : JSObject) (k : string) (v : JSValue) :
  NoDup (keys o) -> In (k, v) o -> obj_get o k = v.
Proof.
  induction o as [|[k0 v0] o IH]; simpl; [tauto|].
  intros Hnd [Heq|Hin].
  - inversion Heq; subst. now rewrite String.eqb_refl.
  - inversion Hnd as [|? ? Hk Hnd']; subst.
    destruct (k0 =? k)%string eqn:E.
    + apply String.eqb_eq in E; subst k0. exfalso. apply Hk.
      change k with (fst (k, v)). now apply in_map.
    + now apply IH.
Qed.

Lemma obj_get_perm (o o' : JSObject) (k : string) :
  NoDup (keys o') -> Permutation o o' -> obj_get o k = obj_get o' k.
Proof.
  intros Hnd Hp. destruct (has_key o k) eqn:E.
  - symmetry. apply obj_get_In; [assumption|].
    apply (Permutation_in _ Hp). now apply has_key_get_In.
  - rewrite (obj_get_absent o k E). symmetry. apply obj_get_absent.
    now rewrite <- (has_key_perm o o' k Hp).
Qed.

Lemma keys_perm_NoDup (o o' : JSObject) :
  Permutation o o' -> NoDup (keys o) -> NoDup (keys o').
Proof.
  intros Hp. apply Permutation_NoDup. unfold keys. now apply Permutation_map.
Qed.

(** *** Copying the own properties *)

Lemma copy_fold_keys (E acc : JSObject) (k : string) :
  has_key (fold_left (fun a e => obj_set a (fst e) (snd e)) E acc) k
  = has_key acc k || has_key E k.
Proof.
  revert acc. induction E as [|[k0 v0] E IH]; intros acc; simpl.
  - now rewrite orb_false_r.
  - rewrite IH, has_key_set. now rewrite orb_assoc.
Qed.

Lemma copy_fold_nodup (E acc : JSObject) :
  NoDup (keys (acc ++ E)%list) ->
  fold_left (fun a e => obj_set a (fst e) (snd e)) E acc = (acc ++ E)%list.
Proof.
  revert acc. induction E as [|[k v] E IH]; intros acc H; simpl.
  - now rewrite app_nil_r.
  - rewrite obj_set_fresh.
    + rewrite IH; rewrite <- app_assoc; [reflexivity | exact H].
    + apply has_key_false. unfold keys in *. rewrite map_app in H. simpl in H.
      apply NoDup_remove_2 in H. intros Hin. apply H, in_or_app. now left.
Qed.

Lemma obj_copy_has_key (o : JSObject) (k : string) :
  has_key (obj_copy o) k = has_key o k.
Proof.
  unfold obj_copy. rewrite copy_fold_keys. simpl.
  apply has_key_perm, Object_entries_perm.
Qed.

Lemma obj_copy_nodup (o : JSObject) :
  NoDup (keys o) -> obj_copy o = Object_entries o.
Proof.
  intros H. unfold obj_copy. rewrite copy_fold_nodup; [reflexivity|].
  simpl. apply (keys_perm_NoDup o); [|exact H].
  apply Permutation_sym, Object_entries_perm.
Qed.

Lemma strip_fold_filter (E acc : JSObject) :
  fold_left
    (fun a e =>
       if (fst e =? "_fields")%string then a else obj_set a (fst e) (snd e))
    E acc
  = fold_left (fun a e => obj_set a (fst e) (snd e))
      (filter (fun e => negb (fst e =? "_fields")%string) E) acc.
Proof.
  revert acc. induction E as [|[k v] E IH]; intros acc; simpl; [reflexivity|].
  destruct (k =? "_fields")%string; simpl; apply IH.
Qed.

Lemma has_key_filter_other (E : JSObject) (f k : string) :
  k <> f ->
  has_key (filter (fun e => negb (fst e =? f)%string) E) k = has_key E k.
Proof.
  intros Hne. induction E as [|[k0 v0] E IH]; simpl; [reflexivity|].
  destruct (k0 =? f)%string eqn:E1; simpl.
  - apply String.eqb_eq in E1; subst k0.
    assert ((f =? k)%string = false) as ->; [|exact IH].
    apply String.eqb_neq. congruence.
  - now rewrite IH.
Qed.

Lemma has_key_filter_same (E : JSObject) (f : string) :
  has_key (filter (fun e => negb (fst e =? f)%string) E) f = false.
Proof.
  induction E as [|[k0 v0] E IH]; simpl; [reflexivity|].
  destruct (k0 =? f)%string eqn:E1; simpl; [exact IH|].
  now rewrite E1, IH.
Qed.

Lemma obj_get_filter_other (E : JSObject) (f k : string) :
  k <> f ->
  obj_get (filter (fun e => negb (fst e =? f)%string) E) k = obj_get E k.
Proof.
  intros Hne. induction E as [|[k0 v0] E IH]; simpl; [reflexivity|].
  destruct (k0 =? f)%string eqn:E1; simpl.
  - apply String.eqb_eq in E1; subst k0.
    assert ((f =? k)%string = false) as ->; [|exact IH].
    apply String.eqb_neq. congruence.
  - now rewrite IH.
Qed.

(** ** Form encoding and the query parser *)

Lemma free_of_append (c : ascii) (s1 s2 : string) :
  free_of c (s1 ++ s2) = free_of c s1 && free_of c s2.
Proof. apply string_forallb_append. Qed.

Lemma form_encode_byte_free (c : ascii) :
  free_of "&" (form_encode_byte c) = true
  /\ free_of "=" (form_encode_byte c) = true.
Proof. destruct c as [[] [] [] [] [] [] [] []]; split; reflexivity. Qed.

Lemma form_encode_free (s : string) :
  free_of "&" (form_encode s) = true /\ free_of "=" (form_encode s) = true.
Proof.
  induction s as [|c s [IH1 IH2]]; simpl; [now split|].
  destruct (form_encode_byte_free c) as [H1 H2].
  rewrite !free_of_append, H1, H2, IH1, IH2. now split.
Qed.

Lemma form_decode_byte (c : ascii) (r : string) :
  form_decode (form_encode_byte c ++ r) = String c (form_decode r).
Proof. destruct c as [[] [] [] [] [] [] [] []]; reflexivity. Qed.

Lemma form_decode_encode (s : string) : form_decode (form_encode s) = s.
Proof.
  induction s as [|c s IH]; simpl; [reflexivity|].
  now rewrite form_decode_byte, IH.
Qed.

Lemma form_encode_inj (a b : string) : form_encode a = form_encode b -> a = b.
Proof.
  intros H. apply (f_equal form_decode) in H.
  now rewrite !form_decode_encode in H.
Qed.

Lemma split_on_nonnil (c : ascii) (s : string) : split_on c s <> [].
Proof.
  destruct s as [|a s]; simpl; [discriminate|].
  destruct (a =? c)%char; [discriminate|].
  destruct (split_on c s); discriminate.
Qed.

Lemma split_on_app_sep (c : ascii) (q r : string) :
  split_on c (q ++ String c r) = (split_on c q ++ split_on c r)%list.
Proof.
  induction q as [|a q IH]; simpl.
  - now rewrite Ascii.eqb_refl.
  - destruct (a =? c)%char; [now rewrite IH|].
    rewrite IH. pose proof (split_on_nonnil c q) as Hq.
    destruct (split_on c q); [contradiction | reflexivity].
Qed.

Lemma split_on_free (c : ascii) (s : string) :
  free_of c s = true -> split_on c s = [s].
Proof.
  unfold free_of. induction s as [|a s IH]; simpl; [reflexivity|].
  intros H. apply andb_prop in H as [Ha Hs].
  apply negb_true_iff in Ha. rewrite Ha, (IH Hs). reflexivity.
Qed.

Lemma split_on_concat (c : ascii) (l : list string) :
  l <> [] -> Forall (fun s => free_of c s = true) l ->
  split_on c (String.concat (String c "") l) = l.
Proof.
  induction l as [|x l IH]; [contradiction|]. intros _ Hall.
  inversion Hall as [|? ? Hx Hl]; subst.
  destruct l as [|y l].
  - simpl. now apply split_on_free.
  - change (String.concat (String c "") (x :: y :: l))
      with (x ++ String c (String.concat (String c "") (y :: l))).
    rewrite split_on_app_sep, (split_on_free c x Hx), IH;
      [reflexivity | discriminate | exact Hl].
Qed.

Lemma cut_app (c : ascii) (n v : string) :
  free_of c n = true -> cut c (n ++ String c v) = (n, v).
Proof.
  unfold free_of. induction n as [|a n IH]; simpl.
  - now rewrite Ascii.eqb_refl.
  - intros H. apply andb_prop in H as [Ha Hn].
    apply negb_true_iff in Ha. now rewrite Ha, (IH Hn).
Qed.

Lemma pair_string_cut (e : string * JSValue) :
  cut "=" (pair_string e)
  = (form_encode (fst e), form_encode (ToString (snd e))).
Proof.
  unfold pair_string.
  change ("=" ++ form_encode (ToString (snd e)))
    with (String "=" (form_encode (ToString (snd e)))).
  apply cut_app, form_encode_free.
Qed.

Lemma parse_component_pair (e : string * JSValue) :
  parse_component (pair_string e) = (fst e, ToString (snd e)).
Proof.
  unfold parse_component. rewrite pair_string_cut.
  now rewrite !form_decode_encode.
Qed.

Lemma pair_string_free (e : string * JSValue) :
  free_of "&" (pair_string e) = true.
Proof.
  unfold pair_string. rewrite !free_of_append.
  destruct (form_encode_free (fst e)) as [-> _].
  destruct (form_encode_free (ToString (snd e))) as [-> _]. reflexivity.
Qed.

Lemma pair_string_nonempty (e : string * JSValue) :
  (pair_string e =? "")%string = false.
Proof. unfold pair_string. now apply append_nonempty_r. Qed.

Lemma query_components_pairs (L : list (string * JSValue)) :
  L <> [] ->
  query_components (String.concat "&" (map pair_string L)) = map pair_string L.
Proof.
  intros HL. unfold query_components. apply split_on_concat.
  - destruct L; [contradiction | discriminate].
  - apply Forall_forall. intros s Hs. apply in_map_iff in Hs as [e [<- _]].
    apply pair_string_free.
Qed.

(** Parsing the serialized pairs gives the pairs back. *)
Lemma parse_query_pairs (L : list (string * JSValue)) :
  parse_query (String.concat "&" (map pair_string L))
  = map (fun e => (fst e, ToString (snd e))) L.
Proof.
  destruct L as [|e L]; [reflexivity|].
  unfold parse_query. rewrite query_components_pairs by discriminate.
  generalize (e :: L). clear. intros L.
  induction L as [|e L IH]; simpl; [reflexivity|].
  rewrite pair_string_nonempty. simpl.
  now rewrite parse_component_pair, IH.
Qed.

Lemma has_field_pairs (L : list (string * JSValue)) (name : string) :
  name <> "" ->
  has_field (String.concat "&" (map pair_string L)) (form_encode name)
  = existsb (fun e => (fst e =? name)%string) L.
Proof.
  intros Hname. unfold has_field. destruct L as [|e L].
  - simpl. unfold component_name. simpl. rewrite orb_false_r.
    destruct name as [|a name]; [contradiction|].
    simpl. destruct (form_encode_byte a ++ form_encode name) eqn:E;
      [|reflexivity].
    exfalso. apply (f_equal form_decode) in E.
    rewrite form_decode_byte in E. discriminate.
  - rewrite query_components_pairs by discriminate.
    generalize (e :: L). clear e L. intros L.
    induction L as [|e L IH]; simpl; [reflexivity|].
    rewrite IH. f_equal. unfold component_name. rewrite pair_string_cut.
    simpl. destruct (fst e =? name)%string eqn:E.
    + apply String.eqb_eq in E. rewrite E. apply String.eqb_refl.
    + apply String.eqb_neq. intros H. apply form_encode_inj in H.
      apply String.eqb_neq in E. contradiction.
Qed.

(** ** The digest and its hexadecimal text *)

Lemma word_bytes_length (w : Z) : List.length (SHA256.word_bytes w) = 4%nat.
Proof. reflexivity. Qed.

Lemma word_bytes_range (w : Z) : Forall is_byte (SHA256.word_bytes w).
Proof.
  unfold SHA256.word_bytes, is_byte.
  repeat constructor; apply Z.mod_pos_bound; lia.
Qed.

Lemma flat_word_bytes_length (l : list Z) :
  List.length (flat_map SHA256.word_bytes l) = (4 * List.length l)%nat.
Proof.
  induction l as [|w l IH]; [reflexivity|].
  cbn [flat_map]. rewrite length_app, word_bytes_length, IH. simpl. lia.
Qed.

Lemma flat_word_bytes_range (l : list Z) :
  Forall is_byte (flat_map SHA256.word_bytes l).
Proof.
  induction l as [|w l IH]; [constructor|].
  cbn [flat_map]. apply Forall_app. split; [apply word_bytes_range | exact IH].
Qed.

Lemma round_length (st : list Z) (kw : Z * Z) :
  List.length st = 8%nat -> List.length (SHA256.round st kw) = 8%nat.
Proof.
  intros H.
  do 9 (destruct st as [|? st]; try discriminate). reflexivity.
Qed.

Lemma rounds_length (l : list (Z * Z)) (st : list Z) :
  List.length st = 8%nat ->
  List.length (fold_left SHA256.round l st) = 8%nat.
Proof.
  revert st. induction l as [|kw l IH]; intros st H; simpl; [exact H|].
  now apply IH, round_length.
Qed.

Lemma compress_length (h block : list Z) :
  List.length h = 8%nat -> List.length (SHA256.compress h block) = 8%nat.
Proof.
  intros H. unfold SHA256.compress.
  rewrite length_map, length_combine, rounds_length by exact H.
  rewrite H. reflexivity.
Qed.

Lemma blocks_length (n : nat) (l h : list Z) :
  List.length h = 8%nat -> List.length (SHA256.blocks n l h) = 8%nat.
Proof.
  revert l h. induction n as [|n IH]; intros l h H; simpl; [exact H|].
  now apply IH, compress_length.
Qed.

Lemma hash_length (msg : list Z) : List.length (SHA256.hash msg) = 32%nat.
Proof.
  unfold SHA256.hash. rewrite flat_word_bytes_length, blocks_length;
    reflexivity.
Qed.

Lemma hash_range (msg : list Z) : Forall is_byte (SHA256.hash msg).
Proof. apply flat_word_bytes_range. Qed.

Lemma hmac_length (key msg : list Z) :
  List.length (SHA256.hmac key msg) = 32%nat.
Proof. apply hash_length. Qed.

Lemma hmac_range (key msg : list Z) : Forall is_byte (SHA256.hmac key msg).
Proof. apply hash_range. Qed.

Lemma hex_bytes_checked :
  forallb (fun n => hex_byte_ok (Z.of_nat n)) (seq 0 256) = true.
Proof. vm_compute. reflexivity. Qed.

Lemma hex_byte (b : Z) :
  is_byte b ->
  padStart (Number_toString16 b) 2 "0" = two_hex b
  /\ string_forallb is_lower_hex (two_hex b) = true.
Proof.
  intros [Hlo Hhi].
  pose proof hex_bytes_checked as H. rewrite forallb_forall in H.
  specialize (H (Z.to_nat b)). rewrite Z2Nat.id in H by exact Hlo.
  assert (In (Z.to_nat b) (seq 0 256)) as Hin by (apply in_seq; lia).
  apply H in Hin. unfold hex_byte_ok in Hin. apply andb_prop in Hin as [H1 H2].
  apply String.eqb_eq in H1. now split.
Qed.

Lemma hex_text_eq (l : list Z) :
  Forall is_byte l ->
  map (fun b => padStart (Number_toString16 b) 2 "0") l = map two_hex l.
Proof.
  induction 1 as [|b l Hb Hl IH]; simpl; [reflexivity|].
  destruct (hex_byte b Hb) as [-> _]. now rewrite IH.
Qed.

Lemma concat_empty_cons (x : string) (l : list string) :
  String.concat "" (x :: l) = x ++ String.concat "" l.
Proof. destruct l; simpl; [now rewrite append_nil_r | reflexivity]. Qed.

Lemma hex_text_length (l : list Z) :
  String.length (String.concat "" (map two_hex l)) = (2 * List.length l)%nat.
Proof.
  induction l as [|b l IH]; [reflexivity|].
  cbn [map]. rewrite concat_empty_cons, length_append, IH. simpl. lia.
Qed.

Lemma hex_text_lower (l : list Z) :
  Forall is_byte l ->
  string_forallb is_lower_hex (String.concat "" (map two_hex l)) = true.
Proof.
  induction 1 as [|b l Hb Hl IH]; [reflexivity|].
  cbn [map]. rewrite concat_empty_cons, string_forallb_append, IH.
  destruct (hex_byte b Hb) as [_ ->]. reflexivity.
Qed.

Lemma TextEncoder_encode_nil (s : string) :
  TextEncoder_encode s = [] -> s = "".
Proof. destruct s; [reflexivity | discriminate]. Qed.

(** The signing primitive on a non-empty key. *)
Lemma hmacSha256Hex_value (key data : string) :
  key <> "" ->
  hmacSha256Hex key data
  = inr (String.concat ""
           (map two_hex
              (SHA256.hmac (TextEncoder_encode key) (TextEncoder_encode data)))).
Proof.
  intros Hkey. unfold hmacSha256Hex, importKey.
  destruct (TextEncoder_encode key) eqn:E.
  - now apply TextEncoder_encode_nil in E.
  - now rewrite hex_text_eq by apply hmac_range.
Qed.

Lemma hmacSha256Hex_shape (key data sig : string) :
  hmacSha256Hex key data = inr sig ->
  String.length sig = 64%nat /\ string_forallb is_lower_hex sig = true.
Proof.
  intros H. destruct key as [|c key]; [discriminate|].
  rewrite hmacSha256Hex_value in H by discriminate.
  inversion H; subst. split.
  - now rewrite hex_text_length, hmac_length.
  - apply hex_text_lower, hmac_range.
Qed.

(** ** Running a computation *)

Lemma run_bind {A B : Type} (remote : Remote) (p : Prog A) (f : A -> Prog B)
      (log : list Request) :
  run remote (bind p f) log
  = match run remote p log with
    | (Returned a, log') => run remote (f a) log'
    | (Thrown e, log') => (Thrown e, log')
    end.
Proof.
  revert log. induction p as [a|e|rq k IH]; intros log; simpl;
    [reflexivity | reflexivity |].
  apply IH.
Qed.

Lemma run_fetch {A : Type} (remote : Remote) (rq : Request)
      (k : Response -> Prog A) (log : list Request) :
  run remote (fetch rq k) log
  = match remote log rq with
    | inl e => (Thrown e, (log ++ [rq])%list)
    | inr response => run remote (k response) (log ++ [rq])%list
    end.
Proof. simpl. now destruct (remote log rq). Qed.

Lemma run_lift {A : Type} (remote : Remote) (r : JSError + A)
      (log : list Request) :
  run remote (lift r) log
  = (match r with inl e => Thrown e | inr a => Returned a end, log).
Proof. destruct r; reflexivity. Qed.

Lemma js_or_truthy (a b : JSValue) : truthy a = true -> js_or a b = a.
Proof. intros H. unfold js_or. now rewrite H. Qed.

Lemma js_or_falsy (a b : JSValue) : truthy a = false -> js_or a b = b.
Proof. intros H. unfold js_or. now rewrite H. Qed.

Section ClientProperties.

Variable JSON_parse : string -> JSError + JSValue.
Variable config : BinanceConfig.

(** *** The failure branch *)

Lemma fail_with_throws (alt : string) (r : Response) :
  exists e, fail_with JSON_parse alt r = Throw e.
Proof.
  unfold fail_with.
  destruct (get_prop (json_or_empty JSON_parse r) "msg") as [e|msg]; simpl;
    [now exists e|].
  destruct (truthy msg); [eexists; reflexivity|].
  destruct (get_prop (json_or_empty JSON_parse r) alt) as [e|other]; simpl;
    eexists; reflexivity.
Qed.

Lemma fail_with_detail (alt : string) (r : Response) (msg other : JSValue) :
  get_prop (json_or_empty JSON_parse r) "msg" = inr msg ->
  get_prop (json_or_empty JSON_parse r) alt = inr other ->
  fail_with JSON_parse alt r
  = Throw (api_error r (js_or msg (js_or other (VStr (statusText r))))).
Proof.
  intros Hm Ho. unfold fail_with. rewrite Hm. simpl.
  destruct (truthy msg) eqn:Et.
  - now rewrite js_or_truthy.
  - rewrite Ho, js_or_falsy by exact Et. reflexivity.
Qed.

Lemma fail_with_unparseable (alt : string) (r : Response) (e : JSError) :
  JSON_parse (body r) = inl e ->
  fail_with JSON_parse alt r = Throw (api_error r (VStr (statusText r))).
Proof.
  intros H. unfold fail_with, json_or_empty. rewrite H. reflexivity.
Qed.

Lemma run_fail_with (remote : Remote) (alt : string) (r : Response)
      (log : list Request) :
  exists e, fail_with JSON_parse alt r = Throw e
            /\ run remote (fail_with JSON_parse alt r) log = (Thrown e, log).
Proof.
  destruct (fail_with_throws alt r) as [e He]. exists e.
  split; [exact He | now rewrite He].
Qed.

(** *** The server-time call *)

Lemma getServerTime_run (remote : Remote) :
  run remote (getServerTime JSON_parse) []
  = match remote [] time_request with
    | inl e => (Thrown e, [time_request])
    | inr r1 =>
        if ok r1 then
          match JSON_parse (body r1) with
          | inl e => (Thrown e, [time_request])
          | inr data =>
              match get_prop data "serverTime" with
              | inl e => (Thrown e, [time_request])
              | inr t => (Returned t, [time_request])
              end
          end
        else (fst (run remote (fail_with JSON_parse "message" r1) []),
              [time_request])
    end.
Proof.
  unfold getServerTime. rewrite run_bind. unfold publicGet.
  change (with_query (baseUrl ++ "/api/v3/time") None)
    with (req_url time_request).
  change (mkRequest (req_url time_request) "GET" [] None) with time_request.
  rewrite run_fetch. destruct (remote [] time_request) as [e|r1]; [reflexivity|].
  change ([] ++ [time_request])%list with [time_request].
  destruct (ok r1); cbn [negb].
  - rewrite run_lift. destruct (JSON_parse (body r1)) as [e|data];
      [reflexivity|].
    rewrite run_lift. destruct (get_prop data "serverTime"); reflexivity.
  - destruct (run_fail_with remote "message" r1 [time_request])
      as [e [He Hrun]].
    rewrite Hrun. rewrite He. reflexivity.
Qed.

Lemma getServerTime_returns (remote : Remote) (t : JSValue)
      (log : list Request) :
  run remote (getServerTime JSON_parse) [] = (Returned t, log) ->
  log = [time_request]
  /\ exists r1 data,
      remote [] time_request = inr r1 /\ ok r1 = true
      /\ JSON_parse (body r1) = inr data
      /\ get_prop data "serverTime" = inr t.
Proof.
  rewrite getServerTime_run.
  destruct (remote [] time_request) as [e|r1]; [discriminate|].
  destruct (ok r1) eqn:Hok.
  - destruct (JSON_parse (body r1)) as [e|data] eqn:Hp; [discriminate|].
    destruct (get_prop data "serverTime") as [e|t'] eqn:Hg; [discriminate|].
    intros H. inversion H; subst. split; [reflexivity|].
    exists r1, data. repeat split; assumption.
  - destruct (run_fail_with remote "message" r1 []) as [e [_ Hrun]].
    rewrite Hrun. discriminate.
Qed.

Lemma getServerTime_log (remote : Remote) :
  snd (run remote (getServerTime JSON_parse) []) = [time_request].
Proof.
  rewrite getServerTime_run.
  destruct (remote [] time_request) as [e|r1]; [reflexivity|].
  destruct (ok r1); [|reflexivity].
  destruct (JSON_parse (body r1)); [reflexivity|].
  destruct (get_prop _ _); reflexivity.
Qed.

(** *** The signed call, step by step *)

Lemma signedRequest_run (remote : Remote) (method endpoint : string)
      (params : option JSObject) :
  run remote (signedRequest JSON_parse config method endpoint params) []
  = match run remote (getServerTime JSON_parse) [] with
    | (Thrown e, log) => (Thrown e, log)
    | (Returned t, log) =>
        let queryString := buildQueryString (allParams params t) in
        match hmacSha256Hex (secretKey config) queryString with
        | inl e => (Thrown e, log)
        | inr signature =>
            let rq :=
              signed_fetch config method endpoint
                (queryString ++ "&signature=" ++ signature) in
            match remote log rq with
            | inl e => (Thrown e, (log ++ [rq])%list)
            | inr response =>
                run remote
                  (if negb (ok response)
                   then fail_with JSON_parse "code" response
                   else text_or_empty JSON_parse response)
                  (log ++ [rq])%list
            end
        end
    end.
Proof.
  unfold signedRequest. rewrite run_bind.
  destruct (run remote (getServerTime JSON_parse) []) as [[t|e] log];
    [|reflexivity].
  rewrite run_bind, run_lift. cbv zeta.
  destruct (hmacSha256Hex _ _); [reflexivity | apply run_fetch].
Qed.

(** Every run of a signed call that makes two requests went through the
    server-time call, the envelope and the signature. *)
Lemma signedRequest_two (remote : Remote) (method endpoint : string)
      (params : option JSObject) (out : Outcome JSValue) (rq1 rq2 : Request) :
  run remote (signedRequest JSON_parse config method endpoint params) []
  = (out, [rq1; rq2]) ->
  exists r1 data t sig,
    rq1 = time_request
    /\ remote [] rq1 = inr r1 /\ ok r1 = true
    /\ JSON_parse (body r1) = inr data
    /\ get_prop data "serverTime" = inr t
    /\ hmacSha256Hex (secretKey config) (buildQueryString (allParams params t))
       = inr sig
    /\ rq2 = signed_fetch config method endpoint
               (buildQueryString (allParams params t) ++ "&signature=" ++ sig)
    /\ match remote [rq1] rq2 with
       | inl e => out = Thrown e
       | inr response =>
           (out, [rq1; rq2])
           = run remote
               (if negb (ok response)
                then fail_with JSON_parse "code" response
                else text_or_empty JSON_parse response)
               [rq1; rq2]
       end.
Proof.
  rewrite signedRequest_run.
  destruct (run remote (getServerTime JSON_parse) []) as [[t|e] log] eqn:Ht.
  - apply getServerTime_returns in Ht as [-> [r1 [data [H1 [H2 [H3 H4]]]]]].
    cbv zeta.
    destruct (hmacSha256Hex _ _) as [e|sig] eqn:Hsig; [discriminate|].
    set (rq := signed_fetch _ _ _ _).
    change ([time_request] ++ [rq])%list with [time_request; rq].
    destruct (remote [time_request] rq) as [e|response] eqn:Hr.
    + intros H. inversion H; subst. exists r1, data, t, sig.
      rewrite Hr. repeat split; assumption.
    + intros H.
      assert (rq2 = rq /\ rq1 = time_request) as [-> ->].
      { destruct (ok response); cbn [negb] in H.
        - unfold text_or_empty in H.
          destruct (body response =? "")%string;
            [|rewrite run_lift in H]; inversion H; now split.
        - destruct (run_fail_with remote "code" response [time_request; rq])
            as [e [_ Hrun]].
          rewrite Hrun in H. inversion H; now split. }
      exists r1, data, t, sig. rewrite Hr, H. repeat split; assumption.
  - pose proof (getServerTime_log remote) as Hl. rewrite Ht in Hl. simpl in Hl.
    subst log. discriminate.
Qed.

Lemma signedRequest_first (remote : Remote) (method endpoint : string)
      (params : option JSObject) :
  exists rest,
    snd (run remote (signedRequest JSON_parse config method endpoint params) [])
    = time_request :: rest.
Proof.
  rewrite signedRequest_run.
  pose proof (getServerTime_log remote) as Hl.
  destruct (run remote (getServerTime JSON_parse) []) as [[t|e] log].
  - simpl in Hl. subst log. cbv zeta.
    destruct (hmacSha256Hex _ _) as [e|sig]; [now exists []|].
    set (rq := signed_fetch _ _ _ _).
    change ([time_request] ++ [rq])%list with [time_request; rq].
    destruct (remote [time_request] rq) as [e|response]; [now exists [rq]|].
    exists [rq]. destruct (ok response); cbn [negb].
    + unfold text_or_empty. destruct (body response =? "")%string;
        [reflexivity | now rewrite run_lift].
    + destruct (run_fail_with remote "code" response [time_request; rq])
        as [e [_ Hrun]].
      now rewrite Hrun.
  - simpl in Hl. subst log. now exists [].
Qed.

End ClientProperties.

(** ** Auxiliary facts for the signed envelope *)

Lemma string_forallb_impl (f g : ascii -> bool) (s : string) :
  (forall c, f c = true -> g c = true) ->
  string_forallb f s = true -> string_forallb g s = true.
Proof.
  intros Hfg. induction s as [|c s IH]; simpl; [reflexivity|].
  intros H. apply andb_prop in H as [Hc Hs]. now rewrite (Hfg c Hc), IH.
Qed.

Lemma lower_hex_not_amp (c : ascii) :
  is_lower_hex c = true -> negb (c =? "&")%char = true.
Proof.
  destruct c as [[] [] [] [] [] [] [] []]; cbv; intros H;
    (reflexivity || discriminate H).
Qed.

Lemma lower_hex_free (s : string) :
  string_forallb is_lower_hex s = true -> free_of "&" s = true.
Proof. apply string_forallb_impl, lower_hex_not_amp. Qed.

Lemma signature_last (q sig : string) :
  free_of "&" sig = true ->
  last (query_components (q ++ "&signature=" ++ sig)) ""
  = "signature=" ++ sig.
Proof.
  intros Hsig. unfold query_components.
  change (q ++ "&signature=" ++ sig) with (q ++ String "&" ("signature=" ++ sig)).
  rewrite split_on_app_sep, (split_on_free "&" ("signature=" ++ sig)).
  - apply last_last.
  - rewrite free_of_append, Hsig. reflexivity.
Qed.

Lemma existsb_key_filter (f : string * JSValue -> bool) (E : JSObject)
      (k : string) :
  has_key E k = false ->
  existsb (fun e => (fst e =? k)%string) (filter f E) = false.
Proof.
  induction E as [|[k0 v0] E IH]; simpl; [reflexivity|].
  intros H. apply orb_false_iff in H as [H1 H2].
  destruct (f (k0, v0)); simpl; [rewrite H1|]; now apply IH.
Qed.

Lemma buildQueryString_no_field (O : JSObject) (k : string) :
  k <> "" -> has_key O k = false ->
  has_field (buildQueryString O) (form_encode k) = false.
Proof.
  intros Hk Hno. rewrite buildQueryString_concat, has_field_pairs by exact Hk.
  apply existsb_key_filter.
  now rewrite (has_key_perm _ _ k (Object_entries_perm O)).
Qed.

Lemma allParams_has_key (params : option JSObject) (t : JSValue) (k : string) :
  k <> "timestamp" -> k <> "recvWindow" ->
  has_key (allParams params t) k = opt_has_key params k.
Proof.
  intros H1 H2. unfold allParams. rewrite !has_key_set.
  assert (("timestamp" =? k)%string = false) as ->
      by (apply String.eqb_neq; congruence).
  assert (("recvWindow" =? k)%string = false) as ->
      by (apply String.eqb_neq; congruence).
  rewrite !orb_false_r. destruct params as [p|]; simpl; [|reflexivity].
  apply obj_copy_has_key.
Qed.

Lemma allParams_timestamp (params : option JSObject) (t : JSValue) :
  obj_get (allParams params t) "timestamp" = t.
Proof.
  unfold allParams. rewrite obj_get_set_other by discriminate.
  apply obj_get_set_same.
Qed.

Lemma allParams_recvWindow (params : option JSObject) (t : JSValue) :
  obj_get (allParams params t) "recvWindow"
  = if truthy (opt_get params "recvWindow")
    then opt_get params "recvWindow" else VNum 5000.
Proof. unfold allParams. now rewrite obj_get_set_same. Qed.

Lemma invoke_signed (JSON_parse : string -> JSError + JSValue)
      (cfg : BinanceConfig) (c : FacadeCall) (method endpoint : string)
      (params : option JSObject) :
  signed_call c = Some (method, endpoint, params) ->
  invoke JSON_parse cfg c = signedRequest JSON_parse cfg method endpoint params.
Proof. destruct c; simpl; intros H; inversion H; reflexivity. Qed.

Lemma signed_call_mode (c : FacadeCall) :
  mode_of c = SIGNED <-> exists x, signed_call c = Some x.
Proof.
  destruct c; simpl; split; intros H;
    try discriminate; try reflexivity; try (eexists; reflexivity);
    destruct H as [x H]; discriminate.
Qed.

(** The shape of the request of each signed operation. *)
Lemma signed_fetch_shape (cfg : BinanceConfig) (c : FacadeCall)
      (method endpoint : string) (params : option JSObject) (signedQs : string) :
  signed_call c = Some (method, endpoint, params) ->
  let rq := signed_fetch cfg method endpoint signedQs in
  req_method rq = method
  /\ In ("X-MBX-APIKEY", apiKey cfg) (req_headers rq)
  /\ wire_query rq = Some signedQs
  /\ (method = "GET" \/ method = "DELETE" \/ method = "POST")
  /\ (method = "GET" \/ method = "DELETE" ->
      req_url rq = baseUrl ++ endpoint ++ "?" ++ signedQs
      /\ url_query (req_url rq) = Some signedQs
      /\ req_body rq = None)
  /\ (method = "POST" ->
      req_url rq = baseUrl ++ endpoint
      /\ url_query (req_url rq) = None
      /\ req_body rq = Some signedQs
      /\ In ("Content-Type", "application/x-www-form-urlencoded")
            (req_headers rq)).
Proof.
  destruct c; simpl; intros H; inversion H; subst; clear H;
    (split; [reflexivity|]); (split; [now left|]); (split; [reflexivity|]);
    (split; [tauto|]);
    (split;
     [ intros [H|H];
       first [discriminate H | repeat split; reflexivity]
     | intros H;
       first [discriminate H
             | repeat split; first [reflexivity | simpl; tauto]] ]).
Qed.

(** ** The public and user-stream calls *)

Lemma publicGet_run (JSON_parse : string -> JSError + JSValue)
      (remote : Remote) (endpoint : string) (params : option JSObject) :
  let rq := mkRequest (with_query (baseUrl ++ endpoint) params) "GET" [] None in
  run remote (publicGet JSON_parse endpoint params) []
  = match remote [] rq with
    | inl e => (Thrown e, [rq])
    | inr response =>
        run remote
          (if negb (ok response)
           then fail_with JSON_parse "message" response
           else lift (JSON_parse (body response)))
          [rq]
    end.
Proof. intros rq. unfold publicGet. apply run_fetch. Qed.

Lemma userStreamRequest_run (JSON_parse : string -> JSError + JSValue)
      (cfg : BinanceConfig) (remote : Remote) (method endpoint : string)
      (params : option JSObject) :
  let rq := mkRequest (with_query (baseUrl ++ endpoint) params) method
                      [("X-MBX-APIKEY", apiKey cfg)] None in
  run remote (userStreamRequest JSON_parse cfg method endpoint params) []
  = match remote [] rq with
    | inl e => (Thrown e, [rq])
    | inr response =>
        run remote
          (if negb (ok response)
           then fail_with JSON_parse "code" response
           else text_or_empty JSON_parse response)
          [rq]
    end.
Proof. intros rq. unfold userStreamRequest. apply run_fetch. Qed.

(** What a run of the failure branch yields. *)
Lemma fail_with_exchange_error (JSON_parse : string -> JSError + JSValue)
      (remote : Remote) (alt : string) (response : Response)
      (log log' : list Request) (out : Outcome JSValue) :
  run remote (fail_with JSON_parse alt response) log = (out, log') ->
  log' = log /\ exchange_error JSON_parse alt response out.
Proof.
  intros Hrun.
  destruct (run_fail_with JSON_parse remote alt response log) as [e [He Hr]].
  rewrite Hr in Hrun. inversion Hrun; subst. split; [reflexivity|].
  repeat split.
  - now exists e.
  - intros msg other Hm Ho.
    rewrite (fail_with_detail JSON_parse alt response msg other Hm Ho) in He.
    now inversion He.
  - intros e' Hp.
    rewrite (fail_with_unparseable JSON_parse alt response e' Hp) in He.
    now inversion He.
Qed.

(** What a run of the success branch yields. *)
Lemma text_or_empty_decoded (JSON_parse : string -> JSError + JSValue)
      (remote : Remote) (response : Response)
      (log log' : list Request) (out : Outcome JSValue) :
  run remote (text_or_empty JSON_parse response) log = (out, log') ->
  log' = log /\ decoded_or_empty JSON_parse response out.
Proof.
  unfold text_or_empty, decoded_or_empty.
  destruct (body response =? "")%string eqn:E.
  - apply String.eqb_eq in E. simpl. intros H. inversion H; subst.
    split; [reflexivity|]. repeat split; congruence.
  - apply String.eqb_neq in E. rewrite run_lift. intros H.
    inversion H; subst. split; [reflexivity|].
    repeat split; [congruence | |]; intros _ x Hx; now rewrite Hx.
Qed.

(** What a run of the two branches after a response yields. *)
Lemma settle_response (JSON_parse : string -> JSError + JSValue)
      (remote : Remote) (alt : string) (response : Response)
      (log log' : list Request) (out : Outcome JSValue) :
  run remote
      (if negb (ok response) then fail_with JSON_parse alt response
       else text_or_empty JSON_parse response) log
  = (out, log') ->
  log' = log
  /\ (ok response = true -> decoded_or_empty JSON_parse response out)
  /\ (ok response = false -> exchange_error JSON_parse alt response out).
Proof.
  destruct (ok response); cbn [negb]; intros H.
  - apply text_or_empty_decoded in H as [Hl Hd].
    split; [exact Hl|]. split; [trivial | discriminate].
  - apply fail_with_exchange_error in H as [Hl He].
    split; [exact Hl|]. split; [discriminate | trivial].
Qed.

Lemma signedRequest_second (JSON_parse : string -> JSError + JSValue)
      (cfg : BinanceConfig) (remote : Remote) (method endpoint : string)
      (params : option JSObject) (out : Outcome JSValue) (rq1 rq2 : Request)
      (response : Response) :
  run remote (signedRequest JSON_parse cfg method endpoint params) []
  = (out, [rq1; rq2]) ->
  remote [rq1] rq2 = inr response ->
  (ok response = true -> decoded_or_empty JSON_parse response out)
  /\ (ok response = false -> exchange_error JSON_parse "code" response out).
Proof.
  intros Hrun Hresp.
  apply signedRequest_two in Hrun
    as (r1 & data & t & sig & _ & _ & _ & _ & _ & _ & _ & H).
  rewrite Hresp in H. symmetry in H.
  now apply settle_response in H as [_ H].
Qed.

Lemma signedRequest_time_failure (JSON_parse : string -> JSError + JSValue)
      (cfg : BinanceConfig) (remote : Remote) (method endpoint : string)
      (params : option JSObject) (out : Outcome JSValue) (log : list Request)
      (response : Response) :
  run remote (signedRequest JSON_parse cfg method endpoint params) []
  = (out, log) ->
  remote [] time_request = inr response ->
  ok response = false ->
  log = [time_request] /\ exchange_error JSON_parse "message" response out.
Proof.
  intros Hrun Hresp Hok. rewrite signedRequest_run in Hrun.
  rewrite getServerTime_run, Hresp, Hok in Hrun.
  destruct (run remote (fail_with JSON_parse "message" response) [])
    as [o l] eqn:Hf.
  apply fail_with_exchange_error in Hf as [_ He].
  destruct He as [[e He] Hrest]. subst o. simpl in Hrun.
  inversion Hrun; subst. split; [reflexivity|].
  split; [now exists e | exact Hrest].
Qed.

Lemma userStreamRequest_one (JSON_parse : string -> JSError + JSValue)
      (cfg : BinanceConfig) (remote : Remote) (method endpoint : string)
      (params : option JSObject) (out : Outcome JSValue) (rq : Request)
      (response : Response) :
  run remote (userStreamRequest JSON_parse cfg method endpoint params) []
  = (out, [rq]) ->
  remote [] rq = inr response ->
  rq = mkRequest (with_query (baseUrl ++ endpoint) params) method
                 [("X-MBX-APIKEY", apiKey cfg)] None
  /\ (ok response = true -> decoded_or_empty JSON_parse response out)
  /\ (ok response = false -> exchange_error JSON_parse "code" response out).
Proof.
  rewrite userStreamRequest_run. cbv zeta.
  set (rq0 := mkRequest _ _ _ _).
  destruct (remote [] rq0) as [e|r0] eqn:E; intros Hrun Hresp.
  - inversion Hrun; subst. rewrite Hresp in E. discriminate.
  - apply settle_response in Hrun as [Hl H]. inversion Hl; subst.
    rewrite Hresp in E. inversion E; subst. now split.
Qed.

Lemma publicGet_one (JSON_parse : string -> JSError + JSValue)
      (remote : Remote) (endpoint : string) (params : option JSObject)
      (out : Outcome JSValue) (rq : Request) (response : Response) :
  run remote (publicGet JSON_parse endpoint params) [] = (out, [rq]) ->
  remote [] rq = inr response ->
  rq = mkRequest (with_query (baseUrl ++ endpoint) params) "GET" [] None
  /\ (ok response = true ->
      out = match JSON_parse (body response) with
            | inl e => Thrown e
            | inr v => Returned v
            end)
  /\ (ok response = false -> exchange_error JSON_parse "message" response out).
Proof.
  rewrite publicGet_run. cbv zeta.
  set (rq0 := mkRequest _ _ _ _).
  destruct (remote [] rq0) as [e|r0] eqn:E; intros Hrun Hresp.
  - inversion Hrun; subst. rewrite Hresp in E. discriminate.
  - destruct (ok r0) eqn:Hok; cbn [negb] in Hrun.
    + rewrite run_lift in Hrun. inversion Hrun; subst.
      rewrite Hresp in E. inversion E; subst.
      split; [reflexivity|]. split; [reflexivity | congruence].
    + apply fail_with_exchange_error in Hrun as [Hl He]. inversion Hl; subst.
      rewrite Hresp in E. inversion E; subst.
      split; [reflexivity|]. split; [congruence | trivial].
Qed.

(** ** The arguments without [_fields] *)

Lemma keys_filter_NoDup (f : string * JSValue -> bool) (E : JSObject) :
  NoDup (keys E) -> NoDup (keys (filter f E)).
Proof.
  unfold keys. induction E as [|[k v] E IH]; simpl; [trivial|].
  intros H. inversion H as [|? ? Hk Hnd]; subst.
  destruct (f (k, v)); simpl; [|now apply IH].
  constructor; [|now apply IH].
  intros Hin. apply Hk. apply in_map_iff in Hin as [e [He Hin]].
  apply filter_In in Hin as [Hin _]. rewrite <- He. now apply in_map.
Qed.

Lemma strip_fields_no_fields (args : JSObject) :
  has_key (strip_fields args) "_fields" = false.
Proof.
  unfold strip_fields. rewrite strip_fold_filter, copy_fold_keys. simpl.
  apply has_key_filter_same.
Qed.

Lemma strip_fields_has_key (args : JSObject) (k : string) :
  k <> "_fields" -> has_key (strip_fields args) k = has_key args k.
Proof.
  intros Hk. unfold strip_fields. rewrite strip_fold_filter, copy_fold_keys.
  simpl. rewrite has_key_filter_other by exact Hk.
  apply has_key_perm, Object_entries_perm.
Qed.

Lemma strip_fields_entries (args : JSObject) :
  NoDup (keys args) ->
  strip_fields args
  = filter (fun e => negb (fst e =? "_fields")%string) (Object_entries args).
Proof.
  intros H. unfold strip_fields. rewrite strip_fold_filter, copy_fold_nodup;
    [reflexivity|].
  simpl. apply keys_filter_NoDup. apply (keys_perm_NoDup args); [|exact H].
  apply Permutation_sym, Object_entries_perm.
Qed.

Lemma strip_fields_get (args : JSObject) (k : string) :
  NoDup (keys args) -> k <> "_fields" ->
  obj_get (strip_fields args) k = obj_get args k.
Proof.
  intros Hnd Hk. rewrite strip_fields_entries by exact Hnd.
  rewrite obj_get_filter_other by exact Hk.
  apply obj_get_perm; [exact Hnd | apply Object_entries_perm].
Qed.

(** ** Overwriting a named property commutes with enumeration *)

Lemma index_entries_set (o : JSObject) (k : string) (v : JSValue) :
  array_index k = None -> index_entries (obj_set o k v) = index_entries o.
Proof.
  intros Hk. induction o as [|[k0 v0] o IH]; simpl.
  - now rewrite Hk.
  - destruct (k0 =? k)%string eqn:E; simpl.
    + apply String.eqb_eq in E; subst k0. now rewrite Hk.
    + now rewrite IH.
Qed.

Lemma named_entries_set (o : JSObject) (k : string) (v : JSValue) :
  array_index k = None ->
  named_entries (obj_set o k v) = obj_set (named_entries o) k v.
Proof.
  intros Hk.
  assert (is_array_index k = false) as Hi
      by (unfold is_array_index; now rewrite Hk).
  unfold named_entries. induction o as [|[k0 v0] o IH]; simpl.
  - now rewrite Hi.
  - destruct (k0 =? k)%string eqn:E; simpl.
    + apply String.eqb_eq in E; subst k0. rewrite Hi. simpl.
      now rewrite String.eqb_refl.
    + rewrite IH. destruct (is_array_index k0); simpl; [reflexivity|].
      now rewrite E.
Qed.

Lemma obj_set_app_r (a b : JSObject) (k : string) (v : JSValue) :
  has_key a k = false -> obj_set (a ++ b)%list k v = (a ++ obj_set b k v)%list.
Proof.
  induction a as [|[k0 v0] a IH]; simpl; [reflexivity|].
  intros H. apply orb_false_iff in H as [H1 H2]. now rewrite H1, IH.
Qed.

Lemma index_part_keys (o : JSObject) (k : string) :
  array_index k = None -> has_key (map snd (index_entries o)) k = false.
Proof.
  intros Hk. pose proof (index_entries_indexed o) as H.
  induction H as [|[n [k0 v0]] l Hx Hl IH]; simpl; [reflexivity|].
  rewrite IH, orb_false_r. apply String.eqb_neq. intros ->.
  simpl in Hx. congruence.
Qed.

Lemma Object_entries_set (o : JSObject) (k : string) (v : JSValue) :
  array_index k = None ->
  Object_entries (obj_set o k v) = obj_set (Object_entries o) k v.
Proof.
  intros Hk. unfold Object_entries.
  rewrite index_entries_set, named_entries_set by exact Hk.
  symmetry. now apply obj_set_app_r, index_part_keys.
Qed.

Lemma obj_set_NoDup (o : JSObject) (k : string) (v : JSValue) :
  NoDup (keys o) -> NoDup (keys (obj_set o k v)).
Proof.
  induction o as [|[k0 v0] o IH]; simpl; intros H.
  - repeat constructor. tauto.
  - inversion H as [|? ? Hk Hnd]; subst.
    destruct (k0 =? k)%string eqn:E; simpl.
    + apply String.eqb_eq in E; subst k0. constructor; assumption.
    + constructor; [|now apply IH].
      intros Hin. apply has_key_In in Hin. rewrite has_key_set in Hin.
      apply orb_true_iff in Hin as [Hin|Hin].
      * apply Hk. now apply has_key_In.
      * rewrite String.eqb_sym in Hin. congruence.
Qed.

(** The envelope of parameters whose [timestamp] was set by the caller. *)
Lemma allParams_caller_timestamp (P : JSObject) (v t : JSValue) :
  NoDup (keys P) ->
  allParams (Some (obj_set P "timestamp" v)) t
  = obj_set (obj_set (Object_entries P) "timestamp" t)
            "recvWindow" (js_or (obj_get P "recvWindow") (VNum 5000)).
Proof.
  intros Hnd. unfold allParams, opt_get.
  rewrite obj_copy_nodup by now apply obj_set_NoDup.
  rewrite Object_entries_set by reflexivity.
  rewrite obj_set_set, obj_get_set_other by discriminate. reflexivity.
Qed.

(** ** The fields of the signed string *)

Lemma allParams_NoDup (P : JSObject) (t : JSValue) :
  NoDup (keys P) -> NoDup (keys (allParams (Some P) t)).
Proof.
  intros H. unfold allParams. do 2 apply obj_set_NoDup.
  rewrite obj_copy_nodup by exact H.
  apply (keys_perm_NoDup P); [|exact H].
  apply Permutation_sym, Object_entries_perm.
Qed.

(** Every field of the canonical string is an entry of the mapping. *)
Lemma parse_query_entry (O : JSObject) (k v : string) :
  NoDup (keys O) ->
  In (k, v) (parse_query (buildQueryString O)) ->
  v = ToString (obj_get O k).
Proof.
  intros Hnd Hin. rewrite buildQueryString_concat, parse_query_pairs in Hin.
  apply in_map_iff in Hin as [[k0 v0] [Heq Hin]]. simpl in Heq.
  inversion Heq; subst. apply filter_In in Hin as [Hin _].
  apply (Permutation_in _ (Object_entries_perm O)) in Hin.
  now rewrite (obj_get_In O k v0 Hnd Hin).
Qed.

(** ** The signed query string, field by field *)

Lemma copy_fold_NoDup (E acc : JSObject) :
  NoDup (keys acc) ->
  NoDup (keys (fold_left (fun a e => obj_set a (fst e) (snd e)) E acc)).
Proof.
  revert acc. induction E as [|[k v] E IH]; intros acc H; simpl; [exact H|].
  now apply IH, obj_set_NoDup.
Qed.

Lemma allParams_keys_distinct (params : option JSObject) (t : JSValue) :
  NoDup (keys (allParams params t)).
Proof.
  unfold allParams. do 2 apply obj_set_NoDup.
  destruct params as [p|]; [|constructor].
  unfold obj_copy. apply copy_fold_NoDup. constructor.
Qed.

Lemma signature_component_free (sig : string) :
  string_forallb is_lower_hex sig = true ->
  free_of "&" ("signature=" ++ sig) = true.
Proof.
  intros H. rewrite free_of_append, (lower_hex_free sig H). reflexivity.
Qed.

Lemma signed_components (q sig : string) :
  string_forallb is_lower_hex sig = true ->
  query_components (q ++ "&signature=" ++ sig)
  = (query_components q ++ [("signature=" ++ sig)%string])%list.
Proof.
  intros H. unfold query_components.
  change (q ++ "&signature=" ++ sig)
    with (q ++ String "&" ("signature=" ++ sig)).
  rewrite split_on_app_sep.
  now rewrite (split_on_free "&" _ (signature_component_free sig H)).
Qed.

Lemma lower_hex_plain (c : ascii) :
  is_lower_hex c = true -> (c =? "+")%char = false /\ (c =? "%")%char = false.
Proof.
  destruct c as [[] [] [] [] [] [] [] []]; cbv; intros H;
    (split; reflexivity) || discriminate H.
Qed.

Lemma form_decode_hex (s : string) :
  string_forallb is_lower_hex s = true -> form_decode s = s.
Proof.
  induction s as [|c s IH]; [reflexivity|]. simpl. intros H.
  apply andb_prop in H as [Hc Hs].
  destruct (lower_hex_plain c Hc) as [-> ->]. now rewrite IH.
Qed.

Lemma parse_query_signed (q sig : string) :
  string_forallb is_lower_hex sig = true ->
  parse_query (q ++ "&signature=" ++ sig)
  = (parse_query q ++ [("signature", sig)])%list.
Proof.
  intros H. unfold parse_query.
  rewrite (signed_components q sig H), filter_app, map_app. f_equal.
  replace (filter (fun c => negb (c =? "")%string)
                  [("signature=" ++ sig)%string])
    with [("signature=" ++ sig)%string] by reflexivity.
  cbn [map]. unfold parse_component.
  change ("signature=" ++ sig) with ("signature" ++ String "=" sig).
  rewrite cut_app by reflexivity.
  now rewrite (form_decode_hex sig H).
Qed.

(** ** Runs from the answers of the remote *)

(** A signed call whose server-time call is answered with a success
    status and a readable [serverTime], and whose secret the key import
    accepts, makes its second request. *)
Lemma signedRequest_forward (JSON_parse : string -> JSError + JSValue)
      (cfg : BinanceConfig) (remote : Remote) (method endpoint : string)
      (params : option JSObject) (r1 : Response) (data t : JSValue)
      (sig : string) :
  remote [] time_request = inr r1 ->
  ok r1 = true ->
  JSON_parse (body r1) = inr data ->
  get_prop data "serverTime" = inr t ->
  hmacSha256Hex (secretKey cfg) (buildQueryString (allParams params t))
  = inr sig ->
  run remote (signedRequest JSON_parse cfg method endpoint params) []
  = match remote [time_request]
            (signed_fetch cfg method endpoint
               (buildQueryString (allParams params t)
                  ++ "&signature=" ++ sig)) with
    | inl e =>
        (Thrown e,
         [time_request;
          signed_fetch cfg method endpoint
            (buildQueryString (allParams params t) ++ "&signature=" ++ sig)])
    | inr response =>
        run remote
          (if negb (ok response)
           then fail_with JSON_parse "code" response
           else text_or_empty JSON_parse response)
          [time_request;
           signed_fetch cfg method endpoint
             (buildQueryString (allParams params t) ++ "&signature=" ++ sig)]
    end.
Proof.
  intros H1 H2 H3 H4 H5.
  rewrite signedRequest_run, getServerTime_run, H1, H2, H3, H4.
  cbv zeta. now rewrite H5.
Qed.

Lemma signedRequest_forward_log (JSON_parse : string -> JSError + JSValue)
      (cfg : BinanceConfig) (remote : Remote) (method endpoint : string)
      (params : option JSObject) (r1 : Response) (data t : JSValue)
      (sig : string) :
  remote [] time_request = inr r1 ->
  ok r1 = true ->
  JSON_parse (body r1) = inr data ->
  get_prop data "serverTime" = inr t ->
  hmacSha256Hex (secretKey cfg) (buildQueryString (allParams params t))
  = inr sig ->
  snd (run remote (signedRequest JSON_parse cfg method endpoint params) [])
  = [time_request;
     signed_fetch cfg method endpoint
       (buildQueryString (allParams params t) ++ "&signature=" ++ sig)].
Proof.
  intros H1 H2 H3 H4 H5.
  rewrite (signedRequest_forward _ _ _ _ _ _ _ _ _ _ H1 H2 H3 H4 H5).
  destruct (remote [time_request] _) as [e|response]; [reflexivity|].
  destruct (run remote _ _) as [out log] eqn:Hrun.
  now apply settle_response in Hrun as [-> _].
Qed.

(** A signed call whose second request is answered with a success
    status. *)
Lemma signedRequest_forward_success
      (JSON_parse : string -> JSError + JSValue)
      (cfg : BinanceConfig) (remote : Remote) (method endpoint : string)
      (params : option JSObject) (r1 : Response) (data t : JSValue)
      (sig : string) (response : Response) :
  remote [] time_request = inr r1 ->
  ok r1 = true ->
  JSON_parse (body r1) = inr data ->
  get_prop data "serverTime" = inr t ->
  hmacSha256Hex (secretKey cfg) (buildQueryString (allParams params t))
  = inr sig ->
  remote [time_request]
         (signed_fetch cfg method endpoint
            (buildQueryString (allParams params t) ++ "&signature=" ++ sig))
  = inr response ->
  ok response = true ->
  exists out,
    run remote (signedRequest JSON_parse cfg method endpoint params) []
    = (out,
       [time_request;
        signed_fetch cfg method endpoint
          (buildQueryString (allParams params t) ++ "&signature=" ++ sig)])
    /\ decoded_or_empty JSON_parse response out.
Proof.
  intros H1 H2 H3 H4 H5 Hresp Hok.
  rewrite (signedRequest_forward _ _ _ _ _ _ _ _ _ _ H1 H2 H3 H4 H5), Hresp.
  destruct (run remote _ _) as [out log] eqn:Hrun. exists out.
  apply settle_response in Hrun as (-> & Hd & _). now split; [|apply Hd].
Qed.

(** A user-stream call whose request is answered with a success status. *)
Lemma userStreamRequest_forward_success
      (JSON_parse : string -> JSError + JSValue)
      (cfg : BinanceConfig) (remote : Remote) (method endpoint : string)
      (params : option JSObject) (response : Response) :
  remote [] (user_request cfg method endpoint params) = inr response ->
  ok response = true ->
  exists out,
    run remote (userStreamRequest JSON_parse cfg method endpoint params) []
    = (out, [user_request cfg method endpoint params])
    /\ decoded_or_empty JSON_parse response out.
Proof.
  intros Hresp Hok. rewrite userStreamRequest_run. cbv zeta.
  fold (user_request cfg method endpoint params). rewrite Hresp.
  destruct (run remote _ _) as [out log] eqn:Hrun. exists out.
  apply settle_response in Hrun as (-> & Hd & _). now split; [|apply Hd].
Qed.

(** ** The handler against a remote *)

(** The [try]/[catch] of the handler turns every failure of the awaited
    call, a rejected [fetch] included, into an error result. *)
Lemma run_catch_result (JSON_stringify : JSValue -> string) (remote : Remote)
      (p : Prog JSValue) (log : list Request) :
  run remote (catch_result JSON_stringify p) log
  = (Returned
       match fst (run remote p log) with
       | Returned result => mkResult (JSON_stringify result) false
       | Thrown error => mkResult ("Error: " ++ emessage error) true
       end,
     snd (run remote p log)).
Proof.
  revert log. induction p as [a|e|rq k IH]; intros log; simpl;
    [reflexivity | reflexivity | apply IH].
Qed.

(** [serve] is the run of [handler]. *)
Lemma handler_serve (JSON_parse : string -> JSError + JSValue)
      (JSON_stringify : JSValue -> string) (config : option BinanceConfig)
      (remote : Remote) (toolName : string) (client : option BinanceConfig)
      (args : JSObject) (log : list Request) :
  run remote (handler JSON_parse JSON_stringify config toolName client args)
      log
  = (Returned
       (fst (serve JSON_parse JSON_stringify config remote toolName client
               args log)),
     snd (serve JSON_parse JSON_stringify config remote toolName client args
            log)).
Proof.
  unfold handler, serve, gate_blocks, next_client.
  destruct (negb (includes publicTools toolName)
            && (negb (truthy (effective_apiKey config args))
                || negb (truthy (effective_secretKey config args))));
    [reflexivity|].
  cbv zeta. rewrite run_bind, run_catch_result.
  now destruct (run remote _ log) as [[v|e] l].
Qed.

(* ================================================================== *)
(** * The statements of the specification *)

(** ** Query canonicalizer *)

(** C1 (as amended).  For every parameter mapping [P], [buildQueryString]
    keeps exactly the entries whose value is neither null nor undefined
    (an empty string is kept), turns each value into a string,
    form-urlencodes name and value and joins the pairs as [name=value]
    with [&], in the enumeration order of the mapping: array-index keys
    first, in ascending numeric order, then the other keys in insertion
    order, so that a mapping without array-index keys is serialized in
    insertion order.  Parsing the result gives back exactly the kept
    entries, in that order.  [{symbol: "BTCUSDT", limit: 100}] yields
    [symbol=BTCUSDT&limit=100], and the result is a function of the
    mapping. *)
Theorem buildQueryString_canonical :
  forall P : JSObject,
    let kept := filter (fun e => present (snd e)) (Object_entries P) in
    buildQueryString P = String.concat "&" (map pair_string kept)
    /\ parse_query (buildQueryString P)
       = map (fun e => (fst e, ToString (snd e))) kept
    /\ Permutation (Object_entries P) P
    /\ Object_entries P = (map snd (index_entries P) ++ named_entries P)%list
    /\ Sorted index_le (index_entries P)
    /\ (no_index_keys P = true ->
        buildQueryString P = canonical_insertion_order P)
    /\ buildQueryString [("symbol", VStr "BTCUSDT"); ("limit", VNum 100)]
       = "symbol=BTCUSDT&limit=100"
    /\ url_query
         (req_url
            (hd time_request
                (snd (run (always empty_success)
                          (getOrderBook JSONReader.parse
                             [("symbol", VStr "BTCUSDT"); ("limit", VNum 100)])
                          []))))
       = Some "symbol=BTCUSDT&limit=100"
    /\ buildQueryString [("symbol", VStr ""); ("limit", VNull);
                         ("side", VUndefined)]
       = "symbol="
    /\ (forall Q : JSObject, Q = P -> buildQueryString Q = buildQueryString P).
Proof.
  intros P kept. repeat split.
  - apply buildQueryString_concat.
  - rewrite buildQueryString_concat. apply parse_query_pairs.
  - apply Object_entries_perm.
  - apply index_entries_sorted.
  - intros H. rewrite buildQueryString_concat.
    unfold canonical_insertion_order. now rewrite Object_entries_named.
  - intros Q ->. reflexivity.
Qed.

Lemma buildQueryString_canonical_witness :
  no_index_keys [("symbol", VStr "BTCUSDT"); ("limit", VNum 100)] = true
  /\ buildQueryString [("symbol", VStr "BTCUSDT"); ("limit", VNum 100)]
     = canonical_insertion_order
         [("symbol", VStr "BTCUSDT"); ("limit", VNum 100)].
Proof.
  split; [reflexivity|].
  destruct (buildQueryString_canonical
              [("symbol", VStr "BTCUSDT"); ("limit", VNum 100)])
    as (_ & _ & _ & _ & _ & H & _).
  apply H. reflexivity.
Defined.

(** C1 as stated fails: a key that is an array index is serialized before
    the keys inserted ahead of it. *)
Lemma buildQueryString_not_insertion_order :
  buildQueryString [("b", VStr "x"); ("1", VStr "y")] = "1=y&b=x"
  /\ canonical_insertion_order [("b", VStr "x"); ("1", VStr "y")] = "b=x&1=y"
  /\ buildQueryString [("b", VStr "x"); ("1", VStr "y")]
     <> canonical_insertion_order [("b", VStr "x"); ("1", VStr "y")].
Proof.
  split; [reflexivity|]. split; [reflexivity|].
  intros H. vm_compute in H. discriminate H.
Qed.

(** ** Signing primitive *)

(** C2 (as amended).  For every non-empty secret and every message,
    [hmacSha256Hex] fulfils with the HMAC-SHA256 of the message keyed by
    the secret, written as two lowercase hexadecimal digits per byte: 64
    characters, all in [0-9a-f], the same for the same pair.  It agrees
    with the test vectors of RFC 4231 (case 2) and of the exchange's
    documentation. *)
Theorem hmacSha256Hex_hmac_sha256 :
  (forall key data : string,
      key <> "" ->
      exists sig,
        hmacSha256Hex key data = inr sig
        /\ sig = String.concat ""
                   (map two_hex
                      (SHA256.hmac (TextEncoder_encode key)
                                   (TextEncoder_encode data)))
        /\ String.length sig = 64%nat
        /\ string_forallb is_lower_hex sig = true)
  /\ hmacSha256Hex "Jefe" "what do ya want for nothing?"
     = inr "5bdcc146bf60754e6a042426089575c75a003f089d2739839dec58b964ec3843"
  /\ hmacSha256Hex
       "NhqPtmdSJYdKjVHjA7PZj4Mge3R5YNiP1e3UZjInClVN65XAbvqqM6A7H5fATj0j"
       "symbol=LTCBTC&side=BUY&type=LIMIT&timeInForce=GTC&quantity=1&price=0.1&recvWindow=5000&timestamp=1499827319559"
     = inr "c8db56825ae71d6d79447849e617115f4a920fa2acdcab2b053c4b2838bd6b71".
Proof.
  split; [|split; vm_compute; reflexivity].
  intros key data Hkey.
  pose proof (hmacSha256Hex_value key data Hkey) as H.
  eexists. split; [exact H|]. split; [reflexivity|].
  now apply (hmacSha256Hex_shape key data).
Qed.

Lemma hmacSha256Hex_hmac_sha256_witness :
  "key" <> ""
  /\ exists sig,
      hmacSha256Hex "key" "The quick brown fox jumps over the lazy dog"
      = inr sig
      /\ String.length sig = 64%nat
      /\ string_forallb is_lower_hex sig = true.
Proof.
  split; [discriminate|].
  destruct (proj1 hmacSha256Hex_hmac_sha256 "key"
              "The quick brown fox jumps over the lazy dog")
    as (sig & H1 & _ & H2 & H3); [discriminate|].
  exists sig. now repeat split.
Defined.

(** C2 as stated fails on the empty secret: the key import rejects, and
    no digest is produced. *)
Lemma hmacSha256Hex_empty_secret :
  hmacSha256Hex "" "symbol=BTCUSDT"
  = inl (mkError "DataError" "Zero-length key is not supported")
  /\ ~ (exists sig, hmacSha256Hex "" "symbol=BTCUSDT" = inr sig
                    /\ String.length sig = 64%nat).
Proof.
  split; [reflexivity|]. intros (sig & H & _). discriminate H.
Qed.

(** ** Signed requests *)

(** C3 (as amended).  For every signed operation with caller parameters
    [params] whose run reaches its second request, that request carries
    the query string [canonical ++ "&signature=" ++ sig] where [canonical]
    is the canonical string of the parameters merged with [timestamp] and
    [recvWindow], and [sig] is the signature of [canonical] under the
    secret key; the signature is the last component of the query string,
    and the signed string has no [signature] field unless the caller's
    parameters carry one. *)
Theorem signed_query_signature :
  forall (JSON_parse : string -> JSError + JSValue) (cfg : BinanceConfig)
         (remote : Remote) (c : FacadeCall) (method endpoint : string)
         (params : option JSObject) (out : Outcome JSValue)
         (rq1 rq2 : Request),
    signed_call c = Some (method, endpoint, params) ->
    run remote (invoke JSON_parse cfg c) [] = (out, [rq1; rq2]) ->
    exists t sig,
      hmacSha256Hex (secretKey cfg) (buildQueryString (allParams params t))
      = inr sig
      /\ wire_query rq2
         = Some (buildQueryString (allParams params t) ++ "&signature=" ++ sig)
      /\ last (query_components
                 (buildQueryString (allParams params t)
                    ++ "&signature=" ++ sig)) ""
         = "signature=" ++ sig
      /\ (opt_has_key params "signature" = false ->
          has_field (buildQueryString (allParams params t)) "signature"
          = false).
Proof.
  intros JSON_parse cfg remote c method endpoint params out rq1 rq2 Hc Hrun.
  rewrite (invoke_signed _ _ _ _ _ _ Hc) in Hrun.
  apply signedRequest_two in Hrun
    as (r1 & data & t & sig & _ & _ & _ & _ & _ & Hsig & Hrq & _).
  exists t, sig. split; [exact Hsig|]. split; [|split].
  - subst rq2. apply (signed_fetch_shape cfg c method endpoint params _ Hc).
  - apply signature_last, lower_hex_free.
    apply (hmacSha256Hex_shape _ _ _ Hsig).
  - intros Hno.
    apply (buildQueryString_no_field (allParams params t) "signature");
      [discriminate|].
    rewrite allParams_has_key; [exact Hno | discriminate | discriminate].
Qed.

Lemma signed_query_signature_witness :
  signed_call (call_queryOrder demo_order)
  = Some ("GET", "/api/v3/order", Some demo_order)
  /\ run (exchange empty_success)
         (invoke JSONReader.parse demo_config (call_queryOrder demo_order)) []
     = (Returned (VObj []),
        [time_request;
         second (snd (run (exchange empty_success)
                          (invoke JSONReader.parse demo_config
                                  (call_queryOrder demo_order)) []))])
  /\ exists t sig,
      hmacSha256Hex (secretKey demo_config)
                    (buildQueryString (allParams (Some demo_order) t))
      = inr sig
      /\ wire_query
           (second (snd (run (exchange empty_success)
                             (invoke JSONReader.parse demo_config
                                     (call_queryOrder demo_order)) [])))
         = Some (buildQueryString (allParams (Some demo_order) t)
                   ++ "&signature=" ++ sig).
Proof.
  split; [reflexivity|]. split; [vm_compute; reflexivity|].
  destruct (signed_query_signature JSONReader.parse demo_config
              (exchange empty_success) (call_queryOrder demo_order)
              "GET" "/api/v3/order" (Some demo_order) (Returned (VObj []))
              time_request
              (second (snd (run (exchange empty_success)
                                (invoke JSONReader.parse demo_config
                                        (call_queryOrder demo_order)) []))))
    as (t & sig & H1 & H2 & _);
    [reflexivity | vm_compute; reflexivity |].
  exists t, sig. now split.
Defined.

(** C3 as stated fails: a [signature] entry among the caller's parameters
    is part of the signed string. *)
Lemma signed_string_holds_caller_signature :
  buildQueryString
    (allParams (Some [("symbol", VStr "LTCBTC"); ("signature", VStr "x")])
               (VNum 1499827319559))
  = "symbol=LTCBTC&signature=x&timestamp=1499827319559&recvWindow=5000"
  /\ has_field
       (buildQueryString
          (allParams (Some [("symbol", VStr "LTCBTC"); ("signature", VStr "x")])
                     (VNum 1499827319559)))
       "signature"
     = true
  /\ wire_query
       (second (snd (run (exchange empty_success)
                         (queryOrder JSONReader.parse demo_config
                            [("symbol", VStr "LTCBTC");
                             ("signature", VStr "x")]) [])))
     = Some "symbol=LTCBTC&signature=x&timestamp=1499827319559&recvWindow=5000&signature=097838069a532e4718f1910737811034c07b313e5234d7fd440cccffc3e60b7d".
Proof. repeat split; vm_compute; reflexivity. Qed.

(** C4 (as amended).  A signed request first fetches the server time with
    an unauthenticated GET of [/api/v3/time]; when it goes on to its
    second request, the envelope's [timestamp] is the [serverTime] of that
    answer, and its [recvWindow] is the caller's [recvWindow] when that
    value is truthy and 5000 otherwise (so for an absent, null, zero,
    empty or false value). *)
Theorem signed_envelope_time_and_window :
  forall (JSON_parse : string -> JSError + JSValue) (cfg : BinanceConfig)
         (remote : Remote) (method endpoint : string)
         (params : option JSObject),
    (exists rest,
        snd (run remote
                 (signedRequest JSON_parse cfg method endpoint params) [])
        = time_request :: rest)
    /\ time_request
       = mkRequest "https://api.binance.com/api/v3/time" "GET" [] None
    /\ (forall (out : Outcome JSValue) (rq1 rq2 : Request),
           run remote (signedRequest JSON_parse cfg method endpoint params) []
           = (out, [rq1; rq2]) ->
           exists r1 data t sig,
             rq1 = time_request
             /\ remote [] time_request = inr r1
             /\ JSON_parse (body r1) = inr data
             /\ get_prop data "serverTime" = inr t
             /\ obj_get (allParams params t) "timestamp" = t
             /\ obj_get (allParams params t) "recvWindow"
                = (if truthy (opt_get params "recvWindow")
                   then opt_get params "recvWindow" else VNum 5000)
             /\ hmacSha256Hex (secretKey cfg)
                              (buildQueryString (allParams params t))
                = inr sig
             /\ rq2 = signed_fetch cfg method endpoint
                        (buildQueryString (allParams params t)
                           ++ "&signature=" ++ sig)).
Proof.
  intros JSON_parse cfg remote method endpoint params.
  split; [apply signedRequest_first|]. split; [reflexivity|].
  intros out rq1 rq2 Hrun.
  apply signedRequest_two in Hrun
    as (r1 & data & t & sig & H1 & H2 & _ & H3 & H4 & H5 & H6 & _).
  exists r1, data, t, sig. subst rq1.
  repeat split; try assumption.
  - apply allParams_timestamp.
  - apply allParams_recvWindow.
Qed.

Lemma signed_envelope_time_and_window_witness :
  run (exchange empty_success)
      (signedRequest JSONReader.parse demo_config "POST" "/api/v3/order"
                     (Some demo_order)) []
  = (Returned (VObj []),
     [time_request;
      second (snd (run (exchange empty_success)
                       (signedRequest JSONReader.parse demo_config "POST"
                                      "/api/v3/order" (Some demo_order)) []))])
  /\ exists t,
      obj_get (allParams (Some demo_order) t) "timestamp" = t
      /\ obj_get (allParams (Some demo_order) t) "recvWindow" = VNum 5000.
Proof.
  split; [vm_compute; reflexivity|].
  destruct (signed_envelope_time_and_window JSONReader.parse demo_config
              (exchange empty_success) "POST" "/api/v3/order"
              (Some demo_order))
    as (_ & _ & H).
  destruct (H (Returned (VObj [])) time_request
              (second (snd (run (exchange empty_success)
                                (signedRequest JSONReader.parse demo_config
                                   "POST" "/api/v3/order"
                                   (Some demo_order)) []))))
    as (r1 & data & t & sig & _ & _ & _ & _ & Ht & Hw & _);
    [vm_compute; reflexivity|].
  exists t. split; [exact Ht | exact Hw].
Defined.

(** C4 as stated fails: a caller-supplied [recvWindow] of 0 is replaced by
    5000. *)
Lemma recvWindow_zero_becomes_default :
  obj_get (allParams (Some [("symbol", VStr "LTCBTC"); ("recvWindow", VNum 0)])
                     (VNum 1499827319559))
          "recvWindow"
  = VNum 5000
  /\ buildQueryString
       (allParams (Some [("symbol", VStr "LTCBTC"); ("recvWindow", VNum 0)])
                  (VNum 1499827319559))
     = "symbol=LTCBTC&recvWindow=5000&timestamp=1499827319559"
  /\ obj_get (allParams (Some [("symbol", VStr "LTCBTC");
                               ("recvWindow", VNum 0)])
                        (VNum 1499827319559))
             "recvWindow"
     <> VNum 0.
Proof.
  split; [reflexivity|]. split; [reflexivity|]. discriminate.
Qed.



(** ** Responses *)

(** C6.  For every signed or user-stream request whose response has a
    success status: an empty body yields the empty object, whatever the
    JSON parser would make of the empty string; a non-empty body that does
    not parse raises the parser's error; a non-empty body that parses
    yields its value.  This is so of every run that made the request, and
    the request is made: a user-stream call sends it at once, a signed
    call as soon as the server-time call is answered with a success
    status and a readable [serverTime] and the key import accepts the
    secret.  So the test-order call returns the empty object when the
    remote answers 200 with an empty body. *)
Theorem empty_body_is_empty_object :
  forall (JSON_parse : string -> JSError + JSValue) (cfg : BinanceConfig)
         (remote : Remote),
    (forall (method endpoint : string) (params : option JSObject)
            (out : Outcome JSValue) (rq1 rq2 : Request) (response : Response),
        run remote (signedRequest JSON_parse cfg method endpoint params) []
        = (out, [rq1; rq2]) ->
        remote [rq1] rq2 = inr response ->
        ok response = true ->
        decoded_or_empty JSON_parse response out)
    /\ (forall (method endpoint : string) (params : option JSObject)
               (out : Outcome JSValue) (rq : Request) (response : Response),
           run remote (userStreamRequest JSON_parse cfg method endpoint params)
               []
           = (out, [rq]) ->
           remote [] rq = inr response ->
           ok response = true ->
           decoded_or_empty JSON_parse response out)
    /\ (forall (params : JSObject) (out : Outcome JSValue)
               (rq1 rq2 : Request) (response : Response),
           run remote (testOrder JSON_parse cfg params) [] = (out, [rq1; rq2]) ->
           remote [rq1] rq2 = inr response ->
           status response = 200 ->
           body response = "" ->
           out = Returned (VObj []))
    /\ (forall (method endpoint : string) (params : option JSObject)
               (r1 : Response) (data t : JSValue) (sig : string)
               (response : Response),
           remote [] time_request = inr r1 ->
           ok r1 = true ->
           JSON_parse (body r1) = inr data ->
           get_prop data "serverTime" = inr t ->
           hmacSha256Hex (secretKey cfg)
                         (buildQueryString (allParams params t))
           = inr sig ->
           remote [time_request]
                  (signed_fetch cfg method endpoint
                     (buildQueryString (allParams params t)
                        ++ "&signature=" ++ sig))
           = inr response ->
           ok response = true ->
           exists out,
             run remote (signedRequest JSON_parse cfg method endpoint params)
                 []
             = (out,
                [time_request;
                 signed_fetch cfg method endpoint
                   (buildQueryString (allParams params t)
                      ++ "&signature=" ++ sig)])
             /\ decoded_or_empty JSON_parse response out)
    /\ (forall (method endpoint : string) (params : option JSObject)
               (response : Response),
           remote [] (user_request cfg method endpoint params)
           = inr response ->
           ok response = true ->
           exists out,
             run remote
                 (userStreamRequest JSON_parse cfg method endpoint params) []
             = (out, [user_request cfg method endpoint params])
             /\ decoded_or_empty JSON_parse response out)
    /\ (forall (params : JSObject) (r1 : Response) (data t : JSValue)
               (sig : string) (response : Response),
           remote [] time_request = inr r1 ->
           ok r1 = true ->
           JSON_parse (body r1) = inr data ->
           get_prop data "serverTime" = inr t ->
           hmacSha256Hex (secretKey cfg)
                         (buildQueryString (allParams (Some params) t))
           = inr sig ->
           remote [time_request]
                  (signed_fetch cfg "POST" "/api/v3/order/test"
                     (buildQueryString (allParams (Some params) t)
                        ++ "&signature=" ++ sig))
           = inr response ->
           status response = 200 ->
           body response = "" ->
           run remote (testOrder JSON_parse cfg params) []
           = (Returned (VObj []),
              [time_request;
               signed_fetch cfg "POST" "/api/v3/order/test"
                 (buildQueryString (allParams (Some params) t)
                    ++ "&signature=" ++ sig)])).
Proof.
  intros JSON_parse cfg remote.
  split; [|split; [|split; [|split; [|split]]]].
  - intros method endpoint params out rq1 rq2 response Hrun Hresp Hok.
    now apply (signedRequest_second _ _ _ _ _ _ _ _ _ _ Hrun Hresp).
  - intros method endpoint params out rq response Hrun Hresp Hok.
    now apply (userStreamRequest_one _ _ _ _ _ _ _ _ _ Hrun Hresp).
  - intros params out rq1 rq2 response Hrun Hresp Hst Hbody.
    unfold testOrder in Hrun.
    destruct (signedRequest_second _ _ _ _ _ _ _ _ _ _ Hrun Hresp) as [H _].
    assert (ok response = true) as Hok by (unfold ok; now rewrite Hst).
    destruct (H Hok) as [Hempty _]. now apply Hempty.
  - intros method endpoint params r1 data t sig response.
    apply signedRequest_forward_success.
  - intros method endpoint params response.
    apply userStreamRequest_forward_success.
  - intros params r1 data t sig response H1 H2 H3 H4 H5 Hresp Hst Hbody.
    assert (ok response = true) as Hok by (unfold ok; now rewrite Hst).
    unfold testOrder.
    destruct (signedRequest_forward_success JSON_parse cfg remote "POST"
                "/api/v3/order/test" (Some params) r1 data t sig response
                H1 H2 H3 H4 H5 Hresp Hok) as (out & Hrun & Hempty & _).
    now rewrite Hrun, (Hempty Hbody).
Qed.

Lemma empty_body_is_empty_object_witness :
  run (exchange empty_success)
      (testOrder JSONReader.parse demo_config demo_order) []
  = (Returned (VObj []),
     [time_request;
      signed_fetch demo_config "POST" "/api/v3/order/test"
        (buildQueryString
           (allParams (Some demo_order) (VNum 1499827319559))
           ++ "&signature="
           ++ signature_of demo_config
                (buildQueryString
                   (allParams (Some demo_order) (VNum 1499827319559))))])
  /\ run (always empty_success)
         (userStreamRequest JSONReader.parse demo_config "POST"
            "/api/v3/userDataStream" None) []
     = (Returned (VObj []),
        [user_request demo_config "POST" "/api/v3/userDataStream" None])
  /\ run (always html_success)
         (userStreamRequest JSONReader.parse demo_config "PUT"
            "/api/v3/userDataStream" None) []
     = (Thrown (mkError "SyntaxError" "Unexpected token in JSON"),
        [user_request demo_config "PUT" "/api/v3/userDataStream" None]).
Proof.
  split; [|split].
  - destruct (empty_body_is_empty_object JSONReader.parse demo_config
                (exchange empty_success)) as (_ & _ & _ & _ & _ & H).
    apply (H demo_order time_answer
             (VObj [("serverTime", VNum 1499827319559)])
             (VNum 1499827319559) _ empty_success);
      [ reflexivity | reflexivity | vm_compute; reflexivity | reflexivity
      | vm_compute; reflexivity | vm_compute; reflexivity | reflexivity
      | reflexivity ].
  - destruct (empty_body_is_empty_object JSONReader.parse demo_config
                (always empty_success)) as (_ & _ & _ & _ & H & _).
    destruct (H "POST" "/api/v3/userDataStream" None empty_success
                eq_refl eq_refl) as (out & Hrun & Hempty & _).
    now rewrite Hrun, (Hempty eq_refl).
  - destruct (empty_body_is_empty_object JSONReader.parse demo_config
                (always html_success)) as (_ & _ & _ & _ & H & _).
    destruct (H "PUT" "/api/v3/userDataStream" None html_success
                eq_refl eq_refl) as (out & Hrun & _ & Hbad & _).
    rewrite Hrun. f_equal. apply Hbad; [discriminate | reflexivity].
Defined.

(** The failure branch of the three request modes.  For every public,
    signed or user-stream request whose response has a non-success
    status, the operation raises an error; unless the body decodes to
    null, its message is [Binance API Error <status>: <detail>], where
    the detail is the [msg] of the decoded body when that is truthy, else
    its [code] (signed and user-stream requests) or its [message] (public
    requests, and the server-time call of a signed request) when that is
    truthy, else the HTTP status text, which is also the detail when the
    body does not parse.  An HTTP 400 with body
    [{"code":-1121,"msg":"Invalid symbol."}] raises the error
    "Binance API Error 400: Invalid symbol.". *)
Theorem non_success_raises :
  forall (JSON_parse : string -> JSError + JSValue) (cfg : BinanceConfig)
         (remote : Remote),
    (forall (endpoint : string) (params : option JSObject)
            (out : Outcome JSValue) (rq : Request) (response : Response),
        run remote (publicGet JSON_parse endpoint params) [] = (out, [rq]) ->
        remote [] rq = inr response ->
        ok response = false ->
        exchange_error JSON_parse "message" response out)
    /\ (forall (method endpoint : string) (params : option JSObject)
               (out : Outcome JSValue) (rq1 rq2 : Request)
               (response : Response),
           run remote (signedRequest JSON_parse cfg method endpoint params) []
           = (out, [rq1; rq2]) ->
           remote [rq1] rq2 = inr response ->
           ok response = false ->
           exchange_error JSON_parse "code" response out)
    /\ (forall (method endpoint : string) (params : option JSObject)
               (out : Outcome JSValue) (log : list Request)
               (response : Response),
           run remote (signedRequest JSON_parse cfg method endpoint params) []
           = (out, log) ->
           remote [] time_request = inr response ->
           ok response = false ->
           exchange_error JSON_parse "message" response out)
    /\ (forall (method endpoint : string) (params : option JSObject)
               (out : Outcome JSValue) (rq : Request) (response : Response),
           run remote (userStreamRequest JSON_parse cfg method endpoint params)
               []
           = (out, [rq]) ->
           remote [] rq = inr response ->
           ok response = false ->
           exchange_error JSON_parse "code" response out)
    /\ (forall (alt : string) (response : Response) (out : Outcome JSValue),
           status response = 400 ->
           JSON_parse (body response)
           = inr (VObj [("code", VNum (-1121));
                        ("msg", VStr "Invalid symbol.")]) ->
           exchange_error JSON_parse alt response out ->
           out = Thrown (mkError "Error"
                           "Binance API Error 400: Invalid symbol."))
    /\ fst (run (always invalid_symbol)
                (getOrderBook JSONReader.parse [("symbol", VStr "BTCUSD")]) [])
       = Thrown (mkError "Error" "Binance API Error 400: Invalid symbol.")
    /\ fst (run (exchange invalid_symbol)
                (newOrder JSONReader.parse demo_config demo_order) [])
       = Thrown (mkError "Error" "Binance API Error 400: Invalid symbol.").
Proof.
  intros JSON_parse cfg remote.
  split; [|split; [|split; [|split; [|split; [|split]]]]].
  - intros endpoint params out rq response Hrun Hresp Hok.
    now apply (publicGet_one _ _ _ _ _ _ _ Hrun Hresp).
  - intros method endpoint params out rq1 rq2 response Hrun Hresp Hok.
    now apply (signedRequest_second _ _ _ _ _ _ _ _ _ _ Hrun Hresp).
  - intros method endpoint params out log response Hrun Hresp Hok.
    now apply (signedRequest_time_failure _ _ _ _ _ _ _ _ _ Hrun Hresp Hok).
  - intros method endpoint params out rq response Hrun Hresp Hok.
    now apply (userStreamRequest_one _ _ _ _ _ _ _ _ _ Hrun Hresp).
  - intros alt response out Hst Hbody (_ & H & _).
    rewrite (H (VStr "Invalid symbol.") (obj_get [("code", VNum (-1121));
                        ("msg", VStr "Invalid symbol.")] alt)).
    + unfold api_error. rewrite Hst. reflexivity.
    + unfold json_or_empty. rewrite Hbody. reflexivity.
    + unfold json_or_empty. rewrite Hbody. reflexivity.
  - vm_compute. reflexivity.
  - vm_compute. reflexivity.
Qed.

Lemma non_success_raises_witness :
  run (always invalid_symbol)
      (publicGet JSONReader.parse "/api/v3/depth"
                 (Some [("symbol", VStr "BTCUSD")])) []
  = (fst (run (always invalid_symbol)
              (publicGet JSONReader.parse "/api/v3/depth"
                         (Some [("symbol", VStr "BTCUSD")])) []),
     [mkRequest "https://api.binance.com/api/v3/depth?symbol=BTCUSD" "GET"
                [] None])
  /\ ok invalid_symbol = false
  /\ exchange_error JSONReader.parse "message" invalid_symbol
       (fst (run (always invalid_symbol)
                 (publicGet JSONReader.parse "/api/v3/depth"
                            (Some [("symbol", VStr "BTCUSD")])) [])).
Proof.
  split; [vm_compute; reflexivity|]. split; [reflexivity|].
  destruct (non_success_raises JSONReader.parse demo_config
              (always invalid_symbol)) as (H & _).
  apply (H "/api/v3/depth" (Some [("symbol", VStr "BTCUSD")]) _
           (mkRequest "https://api.binance.com/api/v3/depth?symbol=BTCUSD"
                      "GET" [] None));
    [vm_compute; reflexivity | reflexivity | reflexivity].
Defined.

(** C7.  The code breaks the statement at two places.  A failure whose
    body decodes to null makes the failure branch read a property of null:
    the error raised is a TypeError that carries neither the HTTP status
    nor a message of the exchange.  And a public request does not carry
    the [code] of the exchange, which the signed and user-stream requests
    do: with a body that has a [code] and no [msg] its message falls back
    to the status text. *)
Theorem exchange_error_gaps :
  fst (run (exchange (mkResponse 400 "Bad Request" "null"))
           (newOrder JSONReader.parse demo_config demo_order) [])
  = Thrown (mkError "TypeError"
              "Cannot read properties of null (reading 'msg')")
  /\ fst (run (always (mkResponse 400 "Bad Request" "null"))
              (getOrderBook JSONReader.parse [("symbol", VStr "BTCUSD")]) [])
     = Thrown (mkError "TypeError"
                 "Cannot read properties of null (reading 'msg')")
  /\ fst (run (always (mkResponse 400 "Bad Request"
                         ("{" ++ JSONReader.quoted "code" ++ ":-1121}")))
              (getOrderBook JSONReader.parse [("symbol", VStr "BTCUSD")]) [])
     = Thrown (mkError "Error" "Binance API Error 400: Bad Request")
  /\ fst (run (exchange (mkResponse 400 "Bad Request"
                           ("{" ++ JSONReader.quoted "code" ++ ":-1121}")))
              (newOrder JSONReader.parse demo_config demo_order) [])
     = Thrown (mkError "Error" "Binance API Error 400: -1121").
Proof. repeat split; vm_compute; reflexivity. Qed.

(** ** Dispatch layer *)

(** C8 (as amended).  For every tool invocation through the handler of
    the dispatch layer, of a tool that is not one of the public tools (the
    twelve signed and user-stream tools of the catalog), without a truthy
    API key or without a truthy secret key, from the configuration or
    else from the arguments: the handler returns the error result that
    names the two credentials, leaves the cached client as it was, and
    makes no network call, the log of requests stays empty. *)
Theorem credentials_gate :
  (forall (JSON_parse : string -> JSError + JSValue)
          (JSON_stringify : JSValue -> string)
          (config : option BinanceConfig) (toolName : string)
          (client : option BinanceConfig) (args : JSObject),
      includes publicTools toolName = false ->
      truthy (effective_apiKey config args) = false
      \/ truthy (effective_secretKey config args) = false ->
      handler JSON_parse JSON_stringify config toolName client args
      = Ret (mkResult credentials_required true, client)
      /\ forall remote : Remote,
          run remote
              (handler JSON_parse JSON_stringify config toolName client args)
              []
          = (Returned (mkResult credentials_required true, client), []))
  /\ filter (fun t => negb (includes publicTools t)) TOOLS
     = [ "bn_new_order"; "bn_test_order"; "bn_query_order"; "bn_cancel_order";
         "bn_cancel_all_orders"; "bn_open_orders"; "bn_all_orders";
         "bn_account_info"; "bn_my_trades"; "bn_create_listen_key";
         "bn_keepalive_listen_key"; "bn_close_listen_key" ]
  /\ (forall (toolName : string) (args : JSObject) (c : FacadeCall),
         In toolName TOOLS ->
         dispatch toolName args = inr c ->
         (includes publicTools toolName = false <-> mode_of c <> PUBLIC)).
Proof.
  split; [|split; [reflexivity|]].
  - intros JSON_parse JSON_stringify config toolName client args Hpub Hmiss.
    assert (handler JSON_parse JSON_stringify config toolName client args
            = Ret (mkResult credentials_required true, client)) as H.
    { unfold handler. rewrite Hpub. destruct Hmiss as [-> | ->]; simpl;
        [reflexivity | now rewrite orb_true_r]. }
    split; [exact H|]. intros remote. now rewrite H.
  - intros toolName args c Hin Hd.
    each_tool Hin Hd
      ltac:(simpl; split;
            [ intros H; first [discriminate H | discriminate]
            | intros H; first [reflexivity | now contradiction H] ]).
Qed.

Lemma credentials_gate_witness :
  includes publicTools "bn_new_order" = false
  /\ truthy (effective_secretKey None
               [("BINANCE_API_KEY", VStr "key"); ("symbol", VStr "LTCBTC")])
     = false
  /\ run (exchange empty_success)
         (handler JSONReader.parse (fun _ => "{}") None "bn_new_order" None
                  [("BINANCE_API_KEY", VStr "key"); ("symbol", VStr "LTCBTC")])
         []
     = (Returned (mkResult credentials_required true, None), []).
Proof.
  split; [reflexivity|]. split; [reflexivity|].
  apply (proj1 credentials_gate JSONReader.parse (fun _ => "{}") None
               "bn_new_order" None
               [("BINANCE_API_KEY", VStr "key"); ("symbol", VStr "LTCBTC")]);
    [reflexivity | right; reflexivity].
Defined.

(** C8 as stated fails below the dispatch layer: the client does not
    check its credentials.  A signed operation on a client without secret
    key fetches the server time before the key import fails, and a
    user-stream operation on a client without API key sends its request. *)
Lemma client_calls_without_credentials :
  run (exchange empty_success)
      (newOrder JSONReader.parse (mkConfig "key" "") demo_order) []
  = (Thrown (mkError "DataError" "Zero-length key is not supported"),
     [time_request])
  /\ List.length
       (snd (run (exchange empty_success)
                 (newOrder JSONReader.parse (mkConfig "key" "") demo_order)
                 []))
     = 1%nat
  /\ run (always empty_success)
         (createListenKey JSONReader.parse (mkConfig "" "")) []
     = (Returned (VObj []),
        [mkRequest "https://api.binance.com/api/v3/userDataStream" "POST"
                   [("X-MBX-APIKEY", "")] None]).
Proof. repeat split; vm_compute; reflexivity. Qed.

(** C9 (as amended).  For every tool invocation the dispatch layer takes
    the caller's arguments without [_fields]: every other key is kept with
    its value, and [_fields] is gone.  The twelve tools that take a
    mapping hand exactly that mapping to the client; the six tools with
    optional parameters hand it on when it has a key and hand on undefined
    when it has none; the two listen-key tools hand on its [listenKey]
    value alone; [bn_ping], [bn_server_time] and [bn_create_listen_key]
    hand on nothing.  These four groups are the whole catalog. *)
Theorem dispatch_forwards_arguments :
  forall (toolName : string) (args : JSObject) (c : FacadeCall),
    dispatch toolName args = inr c ->
    (In toolName mapping_tools ->
     forwarded c = Some (Some (strip_fields args)))
    /\ (In toolName optional_mapping_tools ->
        forwarded c = Some (if_nonempty (strip_fields args)))
    /\ (In toolName listen_key_tools ->
        forwarded c = None
        /\ forwarded_key c = Some (obj_get (strip_fields args) "listenKey"))
    /\ (In toolName bare_tools ->
        forwarded c = None /\ forwarded_key c = None)
    /\ has_key (strip_fields args) "_fields" = false
    /\ (forall k : string,
           k <> "_fields" ->
           has_key (strip_fields args) k = has_key args k)
    /\ (NoDup (keys args) ->
        strip_fields args
        = filter (fun e => negb (fst e =? "_fields")%string)
                 (Object_entries args)
        /\ forall k : string,
            k <> "_fields" ->
            obj_get (strip_fields args) k = obj_get args k)
    /\ forallb
         (includes (mapping_tools ++ optional_mapping_tools
                      ++ listen_key_tools ++ bare_tools)%list)
         TOOLS
       = true
    /\ List.length TOOLS
       = List.length (mapping_tools ++ optional_mapping_tools
                        ++ listen_key_tools ++ bare_tools)%list.
Proof.
  intros toolName args c Hd.
  split; [|split; [|split; [|split; [|split; [|split; [|split; [|split]]]]]]];
    try reflexivity.
  - intros Hin. each_tool Hin Hd ltac:(reflexivity).
  - intros Hin. each_tool Hin Hd ltac:(reflexivity).
  - intros Hin. each_tool Hin Hd ltac:(now split).
  - intros Hin. each_tool Hin Hd ltac:(now split).
  - apply strip_fields_no_fields.
  - intros k Hk. now apply strip_fields_has_key.
  - intros Hnd. split; [now apply strip_fields_entries|].
    intros k Hk. now apply strip_fields_get.
Qed.

Lemma dispatch_forwards_arguments_witness :
  dispatch "bn_order_book"
           [("symbol", VStr "LTCBTC"); ("_fields", VStr "bids");
            ("limit", VNum 5)]
  = inr (call_getOrderBook [("symbol", VStr "LTCBTC"); ("limit", VNum 5)])
  /\ In "bn_order_book" mapping_tools
  /\ forwarded (call_getOrderBook [("symbol", VStr "LTCBTC");
                                   ("limit", VNum 5)])
     = Some (Some (strip_fields [("symbol", VStr "LTCBTC");
                                 ("_fields", VStr "bids");
                                 ("limit", VNum 5)]))
  /\ NoDup (keys [("symbol", VStr "LTCBTC"); ("_fields", VStr "bids");
                  ("limit", VNum 5)])
  /\ obj_get (strip_fields [("symbol", VStr "LTCBTC");
                            ("_fields", VStr "bids"); ("limit", VNum 5)])
             "limit"
     = VNum 5.
Proof.
  assert (NoDup (keys [("symbol", VStr "LTCBTC"); ("_fields", VStr "bids");
                       ("limit", VNum 5)])) as Hnd.
  { repeat (constructor; [simpl; intuition discriminate|]). constructor. }
  destruct (dispatch_forwards_arguments "bn_order_book"
              [("symbol", VStr "LTCBTC"); ("_fields", VStr "bids");
               ("limit", VNum 5)]
              (call_getOrderBook [("symbol", VStr "LTCBTC");
                                  ("limit", VNum 5)]))
    as (H1 & _ & _ & _ & _ & _ & H2 & _); [reflexivity|].
  split; [reflexivity|]. split; [simpl; tauto|].
  split; [apply H1; simpl; tauto|]. split; [exact Hnd|].
  destruct (H2 Hnd) as [_ H3]. rewrite H3 by discriminate. reflexivity.
Defined.

(** C9 as stated fails: a listen-key tool hands on the [listenKey] value
    and drops the caller's other arguments, and [bn_ping] hands on
    nothing. *)
Lemma dispatch_drops_arguments :
  dispatch "bn_keepalive_listen_key"
           [("listenKey", VStr "k"); ("symbol", VStr "LTCBTC")]
  = inr (call_keepaliveListenKey (VStr "k"))
  /\ forwarded (call_keepaliveListenKey (VStr "k")) = None
  /\ strip_fields [("listenKey", VStr "k"); ("symbol", VStr "LTCBTC")]
     = [("listenKey", VStr "k"); ("symbol", VStr "LTCBTC")]
  /\ req_url
       (hd time_request
           (snd (run (always empty_success)
                     (handleToolCall JSONReader.parse
                        "bn_keepalive_listen_key"
                        [("listenKey", VStr "k"); ("symbol", VStr "LTCBTC")]
                        demo_config) [])))
     = "https://api.binance.com/api/v3/userDataStream?listenKey=k"
  /\ dispatch "bn_ping" [("symbol", VStr "LTCBTC")] = inr call_ping.
Proof. repeat split; vm_compute; reflexivity. Qed.

(** ** The caller cannot set the timestamp *)

(** C10.  For every signed request the envelope's [timestamp] is the
    server time just fetched, whatever the caller's parameters hold, and
    every [timestamp] field of the signed string carries that value; two
    calls whose parameters differ only in the value of a caller-supplied
    [timestamp] behave alike against every remote: same requests on the
    wire, same outcome.  On the wire: whenever the remote answers the
    server-time call with a success status and a body whose [serverTime]
    is [t], and the key import accepts the secret, a signed operation
    makes its second request, and every [timestamp] field of the query
    string of that request carries the string of [t]; there is such a
    field when [t] is neither null nor undefined. *)
Theorem caller_timestamp_is_overwritten :
  forall (JSON_parse : string -> JSError + JSValue) (cfg : BinanceConfig)
         (remote : Remote) (method endpoint : string),
    (forall (params : option JSObject) (t : JSValue),
        obj_get (allParams params t) "timestamp" = t)
    /\ (forall (P : JSObject) (t : JSValue) (v : string),
           NoDup (keys P) ->
           In ("timestamp", v)
              (parse_query (buildQueryString (allParams (Some P) t))) ->
           v = ToString t)
    /\ (forall (P : JSObject) (v1 v2 : JSValue),
           NoDup (keys P) ->
           run remote
               (signedRequest JSON_parse cfg method endpoint
                              (Some (obj_set P "timestamp" v1))) []
           = run remote
                 (signedRequest JSON_parse cfg method endpoint
                                (Some (obj_set P "timestamp" v2))) [])
    /\ (forall (c : FacadeCall) (params : option JSObject) (r1 : Response)
               (data t : JSValue) (sig : string),
           signed_call c = Some (method, endpoint, params) ->
           remote [] time_request = inr r1 ->
           ok r1 = true ->
           JSON_parse (body r1) = inr data ->
           get_prop data "serverTime" = inr t ->
           hmacSha256Hex (secretKey cfg)
                         (buildQueryString (allParams params t))
           = inr sig ->
           exists (rq2 : Request) (wire : string),
             snd (run remote (invoke JSON_parse cfg c) [])
             = [time_request; rq2]
             /\ wire_query rq2 = Some wire
             /\ wire = buildQueryString (allParams params t)
                         ++ "&signature=" ++ sig
             /\ (present t = true ->
                 In ("timestamp", ToString t) (parse_query wire))
             /\ (forall v,
                    In ("timestamp", v) (parse_query wire) ->
                    v = ToString t)).
Proof.
  intros JSON_parse cfg remote method endpoint.
  split; [apply allParams_timestamp|]. split; [|split].
  - intros P t v Hnd Hin.
    apply parse_query_entry in Hin; [|now apply allParams_NoDup].
    now rewrite allParams_timestamp in Hin.
  - intros P v1 v2 Hnd. rewrite !signedRequest_run.
    destruct (run remote (getServerTime JSON_parse) []) as [[t|e] log];
      [|reflexivity].
    cbv zeta. rewrite !allParams_caller_timestamp by exact Hnd. reflexivity.
  - intros c params r1 data t sig Hc H1 H2 H3 H4 Hsig.
    exists (signed_fetch cfg method endpoint
              (buildQueryString (allParams params t)
                 ++ "&signature=" ++ sig)),
      (buildQueryString (allParams params t) ++ "&signature=" ++ sig).
    split.
    { rewrite (invoke_signed _ _ _ _ _ _ Hc).
      now apply (signedRequest_forward_log _ _ _ _ _ _ r1 data). }
    split; [apply (signed_fetch_shape cfg c method endpoint params _ Hc)|].
    split; [reflexivity|].
    destruct (hmacSha256Hex_shape _ _ _ Hsig) as [_ Hhex].
    rewrite (parse_query_signed _ sig Hhex). split.
    + intros Hp. apply in_or_app. left.
      rewrite buildQueryString_concat, parse_query_pairs.
      apply in_map_iff. exists ("timestamp", t). split; [reflexivity|].
      apply filter_In. split; [|exact Hp].
      apply (Permutation_in _
               (Permutation_sym (Object_entries_perm (allParams params t)))).
      assert (has_key (allParams params t) "timestamp" = true) as Hk.
      { unfold allParams. rewrite !has_key_set. simpl.
        now rewrite !orb_true_r. }
      apply has_key_get_In in Hk.
      now rewrite allParams_timestamp in Hk.
    + intros v Hin. apply in_app_or in Hin as [Hin | [Hin | []]];
        [|discriminate Hin].
      apply parse_query_entry in Hin; [|apply allParams_keys_distinct].
      now rewrite allParams_timestamp in Hin.
Qed.

Lemma caller_timestamp_is_overwritten_witness :
  NoDup (keys demo_order)
  /\ run (exchange empty_success)
         (signedRequest JSONReader.parse demo_config "POST" "/api/v3/order"
            (Some (obj_set demo_order "timestamp" (VNum 1)))) []
     = run (exchange empty_success)
           (signedRequest JSONReader.parse demo_config "POST" "/api/v3/order"
              (Some (obj_set demo_order "timestamp" (VStr "tomorrow")))) []
  /\ exists (rq2 : Request) (wire : string),
      snd (run (exchange empty_success)
             (invoke JSONReader.parse demo_config
                (call_newOrder (obj_set demo_order "timestamp" (VNum 1))))
             [])
      = [time_request; rq2]
      /\ wire_query rq2 = Some wire
      /\ In ("timestamp", "1499827319559") (parse_query wire)
      /\ ~ In ("timestamp", "1") (parse_query wire).
Proof.
  assert (NoDup (keys demo_order)) as Hnd.
  { repeat (constructor; [simpl; intuition discriminate|]). constructor. }
  split; [exact Hnd|].
  destruct (caller_timestamp_is_overwritten JSONReader.parse demo_config
              (exchange empty_success) "POST" "/api/v3/order")
    as (_ & _ & H & Hwire).
  split; [apply H; exact Hnd|].
  destruct (Hwire (call_newOrder (obj_set demo_order "timestamp" (VNum 1)))
                  (Some (obj_set demo_order "timestamp" (VNum 1)))
                  time_answer (VObj [("serverTime", VNum 1499827319559)])
                  (VNum 1499827319559)
                  (signature_of demo_config
                     (buildQueryString
                        (allParams
                           (Some (obj_set demo_order "timestamp" (VNum 1)))
                           (VNum 1499827319559)))))
    as (rq2 & wire & Hlog & Hq & _ & Hin & Hall);
    [ reflexivity | reflexivity | reflexivity | vm_compute; reflexivity
    | reflexivity | vm_compute; reflexivity |].
  exists rq2, wire. split; [exact Hlog|]. split; [exact Hq|].
  split; [apply Hin; reflexivity|].
  intros Hone. apply Hall in Hone. discriminate Hone.
Defined.

(* ================================================================== *)
(** * Further properties of the code *)

(** ** The request logs of the three modes *)

Lemma publicGet_log (JSON_parse : string -> JSError + JSValue)
      (remote : Remote) (endpoint : string) (params : option JSObject) :
  snd (run remote (publicGet JSON_parse endpoint params) [])
  = [public_request endpoint params].
Proof.
  rewrite publicGet_run. cbv zeta. fold (public_request endpoint params).
  destruct (remote [] (public_request endpoint params)) as [e|r];
    [reflexivity|].
  destruct (ok r); cbn [negb]; [now rewrite run_lift|].
  destruct (run_fail_with JSON_parse remote "message" r
              [public_request endpoint params]) as [e [_ H]].
  now rewrite H.
Qed.

Lemma userStreamRequest_log (JSON_parse : string -> JSError + JSValue)
      (cfg : BinanceConfig) (remote : Remote) (method endpoint : string)
      (params : option JSObject) :
  snd (run remote (userStreamRequest JSON_parse cfg method endpoint params) [])
  = [user_request cfg method endpoint params].
Proof.
  rewrite userStreamRequest_run. cbv zeta.
  fold (user_request cfg method endpoint params).
  destruct (remote [] (user_request cfg method endpoint params)) as [e|r];
    [reflexivity|].
  destruct (run remote _ [user_request cfg method endpoint params])
    as [o l] eqn:E.
  now apply settle_response in E as [-> _].
Qed.

Lemma signedRequest_log (JSON_parse : string -> JSError + JSValue)
      (cfg : BinanceConfig) (remote : Remote) (method endpoint : string)
      (params : option JSObject) :
  snd (run remote (signedRequest JSON_parse cfg method endpoint params) [])
  = [time_request]
  \/ exists t sig,
      snd (run remote (signedRequest JSON_parse cfg method endpoint params) [])
      = [time_request;
         signed_fetch cfg method endpoint
           (buildQueryString (allParams params t) ++ "&signature=" ++ sig)].
Proof.
  rewrite signedRequest_run.
  pose proof (getServerTime_log JSON_parse remote) as Hl.
  destruct (run remote (getServerTime JSON_parse) []) as [[t|e] log];
    simpl in Hl; subst log; [|now left].
  cbv zeta. destruct (hmacSha256Hex _ _) as [e|sig]; [now left|].
  right. exists t, sig.
  set (rq := signed_fetch _ _ _ _).
  change ([time_request] ++ [rq])%list with [time_request; rq].
  destruct (remote [time_request] rq) as [e|r]; [reflexivity|].
  destruct (run remote _ [time_request; rq]) as [o l] eqn:E.
  now apply settle_response in E as [-> _].
Qed.

(** ** The transport *)

(** X1.  A signed call makes one or two requests, the first of which is
    the server-time call, and never repeats one.  It makes the second,
    signed request exactly when the server-time call was answered with a
    success status and a body that decodes to a value other than null, and
    the key import accepted the secret. *)
Theorem signed_request_budget :
  forall (JSON_parse : string -> JSError + JSValue) (cfg : BinanceConfig)
         (remote : Remote) (method endpoint : string)
         (params : option JSObject),
    (List.length
       (snd (run remote
                 (signedRequest JSON_parse cfg method endpoint params) []))
     <= 2)%nat
    /\ hd_error
         (snd (run remote
                   (signedRequest JSON_parse cfg method endpoint params) []))
       = Some time_request
    /\ (List.length
          (snd (run remote
                    (signedRequest JSON_parse cfg method endpoint params) []))
        = 2%nat
        <-> exists r1 data t sig,
            remote [] time_request = inr r1
            /\ ok r1 = true
            /\ JSON_parse (body r1) = inr data
            /\ get_prop data "serverTime" = inr t
            /\ hmacSha256Hex (secretKey cfg)
                             (buildQueryString (allParams params t))
               = inr sig).
Proof.
  intros JSON_parse cfg remote method endpoint params.
  split; [|split; [|split]].
  - destruct (signedRequest_log JSON_parse cfg remote method endpoint params)
      as [-> | (t & sig & ->)]; simpl; lia.
  - destruct (signedRequest_log JSON_parse cfg remote method endpoint params)
      as [-> | (t & sig & ->)]; reflexivity.
  - intros Hlen.
    destruct (run remote (signedRequest JSON_parse cfg method endpoint params)
                  []) as [out log] eqn:Hrun.
    simpl in Hlen.
    destruct log as [|rq1 [|rq2 [|rq3 log]]]; try discriminate.
    apply signedRequest_two in Hrun
      as (r1 & data & t & sig & -> & H1 & H2 & H3 & H4 & H5 & _).
    exists r1, data, t, sig. repeat split; assumption.
  - intros (r1 & data & t & sig & H1 & H2 & H3 & H4 & H5).
    rewrite signedRequest_run, getServerTime_run, H1, H2, H3, H4.
    cbv zeta. rewrite H5.
    set (rq := signed_fetch _ _ _ _).
    change ([time_request] ++ [rq])%list with [time_request; rq].
    destruct (remote [time_request] rq) as [e|r]; [reflexivity|].
    destruct (run remote _ [time_request; rq]) as [o l] eqn:E.
    now apply settle_response in E as [-> _].
Qed.

Lemma signed_request_budget_witness :
  List.length
    (snd (run (exchange empty_success)
              (signedRequest JSONReader.parse demo_config "GET"
                             "/api/v3/account" None) []))
  = 2%nat
  /\ exists r1 data t sig,
      exchange empty_success [] time_request = inr r1
      /\ ok r1 = true
      /\ JSONReader.parse (body r1) = inr data
      /\ get_prop data "serverTime" = inr t
      /\ hmacSha256Hex (secretKey demo_config)
                       (buildQueryString (allParams None t))
         = inr sig.
Proof.
  split; [vm_compute; reflexivity|].
  destruct (signed_request_budget JSONReader.parse demo_config
              (exchange empty_success) "GET" "/api/v3/account" None)
    as (_ & _ & H & _).
  apply H. vm_compute. reflexivity.
Defined.

(** X2.  A failure of [fetch] is not retried and not wrapped: the call
    rejects with the very error of the transport, after the request that
    failed and no other.  For a signed call this holds for the
    server-time call, after which nothing is signed or sent, and for the
    signed request. *)
Theorem fetch_rejection_propagates :
  forall (JSON_parse : string -> JSError + JSValue) (cfg : BinanceConfig)
         (remote : Remote) (e : JSError),
    (forall (endpoint : string) (params : option JSObject),
        remote [] (public_request endpoint params) = inl e ->
        run remote (publicGet JSON_parse endpoint params) []
        = (Thrown e, [public_request endpoint params]))
    /\ (forall (method endpoint : string) (params : option JSObject),
           remote [] (user_request cfg method endpoint params) = inl e ->
           run remote (userStreamRequest JSON_parse cfg method endpoint params)
               []
           = (Thrown e, [user_request cfg method endpoint params]))
    /\ (forall (method endpoint : string) (params : option JSObject),
           remote [] time_request = inl e ->
           run remote (signedRequest JSON_parse cfg method endpoint params) []
           = (Thrown e, [time_request]))
    /\ (forall (method endpoint : string) (params : option JSObject)
               (out : Outcome JSValue) (rq1 rq2 : Request),
           run remote (signedRequest JSON_parse cfg method endpoint params) []
           = (out, [rq1; rq2]) ->
           remote [rq1] rq2 = inl e ->
           out = Thrown e).
Proof.
  intros JSON_parse cfg remote e. split; [|split; [|split]].
  - intros endpoint params H. rewrite publicGet_run. cbv zeta.
    fold (public_request endpoint params). now rewrite H.
  - intros method endpoint params H. rewrite userStreamRequest_run. cbv zeta.
    fold (user_request cfg method endpoint params). now rewrite H.
  - intros method endpoint params H.
    now rewrite signedRequest_run, getServerTime_run, H.
  - intros method endpoint params out rq1 rq2 Hrun H.
    apply signedRequest_two in Hrun
      as (r1 & data & t & sig & _ & _ & _ & _ & _ & _ & _ & Hlast).
    now rewrite H in Hlast.
Qed.

Lemma fetch_rejection_propagates_witness :
  unreachable (mkError "TypeError" "fetch failed") [] time_request
  = inl (mkError "TypeError" "fetch failed")
  /\ run (unreachable (mkError "TypeError" "fetch failed"))
         (signedRequest JSONReader.parse demo_config "POST" "/api/v3/order"
                        (Some demo_order)) []
     = (Thrown (mkError "TypeError" "fetch failed"), [time_request]).
Proof.
  split; [reflexivity|].
  destruct (fetch_rejection_propagates JSONReader.parse demo_config
              (unreachable (mkError "TypeError" "fetch failed"))
              (mkError "TypeError" "fetch failed")) as (_ & _ & H & _).
  apply H. reflexivity.
Defined.



(** ** The canonical string *)

Lemma forallb_perm {A : Type} (f : A -> bool) (l l' : list A) :
  Permutation l l' -> forallb f l = forallb f l'.
Proof.
  intros Hp. apply eq_true_iff_eq. rewrite !forallb_forall.
  split; intros H x Hx; apply H.
  - now apply (Permutation_in _ (Permutation_sym Hp)).
  - now apply (Permutation_in _ Hp).
Qed.

Lemma filter_nil_forallb {A : Type} (f : A -> bool) (l : list A) :
  match filter f l with [] => true | _ => false end
  = forallb (fun x => negb (f x)) l.
Proof.
  induction l as [|a l IH]; simpl; [reflexivity|].
  destruct (f a); simpl; [reflexivity | exact IH].
Qed.

Lemma concat_pairs_empty (L : list (string * JSValue)) :
  (String.concat "&" (map pair_string L) =? "")%string
  = match L with [] => true | _ => false end.
Proof.
  destruct L as [|e [|e' L]]; simpl; [reflexivity | |].
  - apply pair_string_nonempty.
  - pose proof (pair_string_nonempty e) as H.
    destruct (pair_string e); [discriminate | reflexivity].
Qed.

(** X4.  The canonical string is empty exactly when no entry of the
    mapping has a value other than null and undefined; so the URL of a
    public or user-stream call has a [?] and a query exactly when some
    parameter is present, and is the bare endpoint otherwise. *)
Theorem query_iff_present_entry :
  forall P : JSObject,
    (buildQueryString P =? "")%string
    = forallb (fun e => negb (present (snd e))) P
    /\ (forall url : string,
           with_query url (Some P)
           = if forallb (fun e => negb (present (snd e))) P then url
             else url ++ "?" ++ buildQueryString P)
    /\ (forall url : string, with_query url None = url).
Proof.
  intros P.
  assert ((buildQueryString P =? "")%string
          = forallb (fun e => negb (present (snd e))) P) as H.
  { rewrite buildQueryString_concat, concat_pairs_empty.
    rewrite (filter_nil_forallb (fun e => present (snd e))).
    apply forallb_perm, Object_entries_perm. }
  split; [exact H|]. split; [|reflexivity].
  intros url. unfold with_query. now rewrite H.
Qed.

Lemma form_encode_byte_chars (c : ascii) :
  string_forallb query_char (form_encode_byte c) = true.
Proof. destruct c as [[] [] [] [] [] [] [] []]; reflexivity. Qed.

Lemma form_encode_chars (s : string) :
  string_forallb query_char (form_encode s) = true.
Proof.
  induction s as [|c s IH]; simpl; [reflexivity|].
  now rewrite string_forallb_append, form_encode_byte_chars, IH.
Qed.

Lemma concat_chars (f : ascii -> bool) (sep : string) (l : list string) :
  string_forallb f sep = true ->
  Forall (fun s => string_forallb f s = true) l ->
  string_forallb f (String.concat sep l) = true.
Proof.
  intros Hsep Hl. induction Hl as [|x l Hx Hl IH]; [reflexivity|].
  destruct l as [|y l]; [exact Hx|].
  change (String.concat sep (x :: y :: l))
    with (x ++ sep ++ String.concat sep (y :: l)).
  now rewrite !string_forallb_append, Hx, Hsep, IH.
Qed.

(** X5.  The canonical string is made of ASCII letters and digits and of
    [* - . _ + % & =] only: no space, no [?], no [#], no byte above 127,
    whatever the names and values. *)
Theorem canonical_string_charset :
  forall P : JSObject,
    string_forallb query_char (buildQueryString P) = true
    /\ free_of " " (buildQueryString P) = true
    /\ free_of "?" (buildQueryString P) = true
    /\ free_of "#" (buildQueryString P) = true.
Proof.
  intros P.
  assert (string_forallb query_char (buildQueryString P) = true) as H.
  { rewrite buildQueryString_concat. apply concat_chars; [reflexivity|].
    apply Forall_forall. intros s Hs. apply in_map_iff in Hs as [e [<- _]].
    unfold pair_string.
    rewrite !string_forallb_append, !form_encode_chars. reflexivity. }
  split; [exact H|].
  repeat split; unfold free_of;
    apply (string_forallb_impl query_char); try exact H;
    intros c; destruct c as [[] [] [] [] [] [] [] []]; cbv; intros Hc;
    (reflexivity || discriminate Hc).
Qed.

(** ** The envelope *)

Lemma existsb_key_present (E : JSObject) (k : string) :
  NoDup (keys E) ->
  existsb (fun e => (fst e =? k)%string)
          (filter (fun e => present (snd e)) E)
  = has_key E k && present (obj_get E k).
Proof.
  induction E as [|[k0 v0] E IH]; simpl; [reflexivity|].
  intros H. inversion H as [|? ? Hk Hnd]; subst.
  destruct (k0 =? k)%string eqn:E0.
  - apply String.eqb_eq in E0; subst k0. simpl.
    pose proof (existsb_key_filter (fun e => present (snd e)) E k
                  (has_key_false E k Hk)) as Hno.
    destruct (present v0); simpl; [now rewrite String.eqb_refl | exact Hno].
  - simpl. destruct (present v0); simpl; [rewrite E0; simpl|]; now apply IH.
Qed.

Lemma has_field_entry (O : JSObject) (k : string) :
  k <> "" -> NoDup (keys O) ->
  has_field (buildQueryString O) (form_encode k)
  = has_key O k && present (obj_get O k).
Proof.
  intros Hk Hnd. rewrite buildQueryString_concat, has_field_pairs by exact Hk.
  assert (NoDup (keys (Object_entries O))) as Hnd'.
  { apply (keys_perm_NoDup O); [|exact Hnd].
    apply Permutation_sym, Object_entries_perm. }
  rewrite existsb_key_present by exact Hnd'.
  rewrite (has_key_perm _ _ k (Object_entries_perm O)).
  now rewrite (obj_get_perm _ O k Hnd (Object_entries_perm O)).
Qed.

Lemma truthy_present (v : JSValue) : truthy v = true -> present v = true.
Proof. destruct v; simpl; intros H; try reflexivity; discriminate. Qed.

Lemma parse_query_names (O : JSObject) :
  map fst (parse_query (buildQueryString O))
  = keys (filter (fun e => present (snd e)) (Object_entries O)).
Proof.
  rewrite buildQueryString_concat, parse_query_pairs. unfold keys.
  now rewrite map_map.
Qed.

(** X7.  In the canonical string of every envelope no field name occurs
    twice; the field [recvWindow] is always there; the field [timestamp]
    is there exactly when the server time is neither null nor undefined,
    so a server-time answer without [serverTime] gives a signed request
    without timestamp. *)
Theorem envelope_fields :
  forall (params : option JSObject) (t : JSValue),
    NoDup (map fst (parse_query (buildQueryString (allParams params t))))
    /\ has_field (buildQueryString (allParams params t)) "recvWindow" = true
    /\ has_field (buildQueryString (allParams params t)) "timestamp"
       = present t.
Proof.
  intros params t.
  pose proof (allParams_keys_distinct params t) as Hnd.
  split; [|split].
  - rewrite parse_query_names. apply keys_filter_NoDup.
    apply (keys_perm_NoDup (allParams params t)); [|exact Hnd].
    apply Permutation_sym, Object_entries_perm.
  - change "recvWindow" with (form_encode "recvWindow") at 1.
    rewrite has_field_entry; [|discriminate | exact Hnd].
    rewrite allParams_recvWindow. unfold allParams at 1.
    rewrite has_key_set, String.eqb_refl, orb_true_r. simpl.
    destruct (truthy (opt_get params "recvWindow")) eqn:E;
      [now apply truthy_present | reflexivity].
  - change "timestamp" with (form_encode "timestamp") at 1.
    rewrite has_field_entry; [|discriminate | exact Hnd].
    rewrite allParams_timestamp. unfold allParams.
    rewrite !has_key_set, String.eqb_refl. simpl.
    now rewrite orb_true_r.
Qed.

Lemma no_index_keys_app (a b : JSObject) :
  no_index_keys (a ++ b)%list = no_index_keys a && no_index_keys b.
Proof. unfold no_index_keys. apply forallb_app. Qed.

Lemma has_key_app (a b : JSObject) (k : string) :
  has_key (a ++ b)%list k = has_key a k || has_key b k.
Proof.
  induction a as [|[k0 v0] a IH]; simpl; [reflexivity|].
  now rewrite IH, orb_assoc.
Qed.

Lemma concat_app_sep (sep : string) (a b : list string) :
  a <> [] -> b <> [] ->
  String.concat sep (a ++ b)%list
  = String.concat sep a ++ sep ++ String.concat sep b.
Proof.
  intros Ha Hb. induction a as [|x a IH]; [contradiction|].
  destruct a as [|y a].
  - simpl. destruct b; [contradiction | reflexivity].
  - change (String.concat sep ((x :: y :: a) ++ b)%list)
      with (x ++ sep ++ String.concat sep ((y :: a) ++ b)%list).
    rewrite IH by discriminate.
    change (String.concat sep (x :: y :: a))
      with (x ++ sep ++ String.concat sep (y :: a)).
    now rewrite !append_assoc.
Qed.

(** The envelope of parameters that name neither field. *)
Lemma allParams_plain (P : JSObject) (t : JSValue) :
  NoDup (keys P) -> no_index_keys P = true ->
  has_key P "timestamp" = false -> has_key P "recvWindow" = false ->
  allParams (Some P) t
  = (P ++ [("timestamp", t); ("recvWindow", VNum 5000)])%list.
Proof.
  intros Hnd Hix Hts Hrw. unfold allParams, opt_get.
  rewrite obj_copy_nodup, Object_entries_named by assumption.
  rewrite (obj_get_absent P "recvWindow" Hrw).
  rewrite (obj_set_fresh P "timestamp" t Hts).
  rewrite obj_set_fresh.
  - now rewrite <- app_assoc.
  - rewrite has_key_app, Hrw. reflexivity.
Qed.

(** X6.  When the caller's parameters have distinct names, none of them an
    array index, [timestamp] or [recvWindow], the envelope is the
    parameters followed by [timestamp] and [recvWindow = 5000], in that
    order; so the signed string is the caller's canonical string followed
    by [&timestamp=<server time>&recvWindow=5000]. *)
Theorem envelope_appends_time_and_window :
  forall (P : JSObject) (t : JSValue),
    NoDup (keys P) ->
    no_index_keys P = true ->
    has_key P "timestamp" = false ->
    has_key P "recvWindow" = false ->
    allParams (Some P) t
    = (P ++ [("timestamp", t); ("recvWindow", VNum 5000)])%list
    /\ parse_query (buildQueryString (allParams (Some P) t))
       = (parse_query (buildQueryString P)
            ++ (if present t then [("timestamp", ToString t)] else [])
            ++ [("recvWindow", "5000")])%list
    /\ (present t = true ->
        buildQueryString P <> "" ->
        buildQueryString (allParams (Some P) t)
        = buildQueryString P ++ "&timestamp=" ++ form_encode (ToString t)
            ++ "&recvWindow=5000").
Proof.
  intros P t Hnd Hix Hts Hrw.
  pose proof (allParams_plain P t Hnd Hix Hts Hrw) as Henv.
  assert (Object_entries (allParams (Some P) t)
          = (P ++ [("timestamp", t); ("recvWindow", VNum 5000)])%list) as Hent.
  { rewrite Henv. apply Object_entries_named.
    rewrite no_index_keys_app, Hix. reflexivity. }
  split; [exact Henv|]. split.
  - rewrite !buildQueryString_concat, !parse_query_pairs, Hent.
    rewrite (Object_entries_named P Hix), filter_app, map_app.
    simpl. destruct (present t); reflexivity.
  - intros Ht Hne. rewrite !buildQueryString_concat, Hent.
    rewrite (Object_entries_named P Hix), filter_app, map_app.
    rewrite buildQueryString_concat, (Object_entries_named P Hix) in Hne.
    simpl filter. rewrite Ht. rewrite concat_app_sep.
    + reflexivity.
    + intros Hnil. apply Hne. now rewrite Hnil.
    + discriminate.
Qed.

Lemma envelope_appends_time_and_window_witness :
  NoDup (keys demo_order)
  /\ no_index_keys demo_order = true
  /\ has_key demo_order "timestamp" = false
  /\ has_key demo_order "recvWindow" = false
  /\ present (VNum 1499827319559) = true
  /\ buildQueryString demo_order <> ""
  /\ buildQueryString (allParams (Some demo_order) (VNum 1499827319559))
     = buildQueryString demo_order ++ "&timestamp="
         ++ form_encode (ToString (VNum 1499827319559)) ++ "&recvWindow=5000".
Proof.
  assert (NoDup (keys demo_order)) as Hnd.
  { repeat (constructor; [simpl; intuition discriminate|]). constructor. }
  assert (buildQueryString demo_order <> "") as Hne.
  { intros H. vm_compute in H. discriminate H. }
  split; [exact Hnd|]. do 4 (split; [reflexivity|]). split; [exact Hne|].
  exact (proj2 (proj2 (envelope_appends_time_and_window demo_order
                         (VNum 1499827319559) Hnd eq_refl eq_refl eq_refl))
               eq_refl Hne).
Defined.

(** ** The signed query string read back *)

Lemma concat_split_on (c : ascii) (s : string) :
  String.concat (String c "") (split_on c s) = s.
Proof.
  induction s as [|a s IH]; [reflexivity|]. simpl.
  pose proof (split_on_nonnil c s) as Hn.
  destruct (a =? c)%char eqn:E.
  - apply Ascii.eqb_eq in E; subst a.
    destruct (split_on c s) as [|h l]; [contradiction|].
    change (String.concat (String c "") ("" :: h :: l))
      with (String c (String.concat (String c "") (h :: l))).
    now rewrite IH.
  - destruct (split_on c s) as [|h l]; [contradiction|].
    destruct l as [|h' l]; simpl in *; now rewrite IH.
Qed.

Lemma signed_part_signature (q sig : string) :
  string_forallb is_lower_hex sig = true ->
  signed_part (q ++ "&signature=" ++ sig) = q
  /\ last_value (q ++ "&signature=" ++ sig) = sig.
Proof.
  intros H. unfold signed_part, last_value.
  rewrite (signed_components q sig H), removelast_last, last_last.
  split; [apply concat_split_on|].
  change ("signature=" ++ sig) with ("signature" ++ String "=" sig).
  now rewrite cut_app.
Qed.

(** X8.  The signature of a signed request can be checked from the wire
    alone: the value of the last field of its query string is the
    HMAC-SHA256, under the secret key, of everything that precedes that
    field. *)
Theorem wire_signature_verifies :
  forall (JSON_parse : string -> JSError + JSValue) (cfg : BinanceConfig)
         (remote : Remote) (c : FacadeCall) (method endpoint : string)
         (params : option JSObject) (out : Outcome JSValue)
         (rq1 rq2 : Request),
    signed_call c = Some (method, endpoint, params) ->
    run remote (invoke JSON_parse cfg c) [] = (out, [rq1; rq2]) ->
    exists wire,
      wire_query rq2 = Some wire
      /\ hmacSha256Hex (secretKey cfg) (signed_part wire)
         = inr (last_value wire).
Proof.
  intros JSON_parse cfg remote c method endpoint params out rq1 rq2 Hc Hrun.
  rewrite (invoke_signed _ _ _ _ _ _ Hc) in Hrun.
  apply signedRequest_two in Hrun
    as (r1 & data & t & sig & _ & _ & _ & _ & _ & Hsig & Hrq & _).
  exists (buildQueryString (allParams params t) ++ "&signature=" ++ sig).
  split.
  - subst rq2. apply (signed_fetch_shape cfg c method endpoint params _ Hc).
  - destruct (hmacSha256Hex_shape _ _ _ Hsig) as [_ Hhex].
    destruct (signed_part_signature (buildQueryString (allParams params t))
                sig Hhex) as [-> ->].
    exact Hsig.
Qed.

Lemma wire_signature_verifies_witness :
  signed_call (call_cancelOrder demo_order)
  = Some ("DELETE", "/api/v3/order", Some demo_order)
  /\ run (exchange empty_success)
         (invoke JSONReader.parse demo_config (call_cancelOrder demo_order)) []
     = (Returned (VObj []),
        [time_request;
         second (snd (run (exchange empty_success)
                          (invoke JSONReader.parse demo_config
                                  (call_cancelOrder demo_order)) []))])
  /\ exists wire,
      wire_query
        (second (snd (run (exchange empty_success)
                          (invoke JSONReader.parse demo_config
                                  (call_cancelOrder demo_order)) [])))
      = Some wire
      /\ hmacSha256Hex (secretKey demo_config) (signed_part wire)
         = inr (last_value wire).
Proof.
  split; [reflexivity|]. split; [vm_compute; reflexivity|].
  apply (wire_signature_verifies JSONReader.parse demo_config
           (exchange empty_success) (call_cancelOrder demo_order)
           "DELETE" "/api/v3/order" (Some demo_order) (Returned (VObj []))
           time_request);
    [reflexivity | vm_compute; reflexivity].
Defined.

(** X9.  The query string of a signed request parses, as a form, into the
    entries of the envelope whose value is neither null nor undefined, in
    enumeration order, each name with the string of its value, followed
    by the one field [signature]. *)
Theorem wire_query_fields :
  forall (JSON_parse : string -> JSError + JSValue) (cfg : BinanceConfig)
         (remote : Remote) (c : FacadeCall) (method endpoint : string)
         (params : option JSObject) (out : Outcome JSValue)
         (rq1 rq2 : Request),
    signed_call c = Some (method, endpoint, params) ->
    run remote (invoke JSON_parse cfg c) [] = (out, [rq1; rq2]) ->
    exists wire t sig,
      wire_query rq2 = Some wire
      /\ parse_query wire
         = (map (fun e => (fst e, ToString (snd e)))
                (filter (fun e => present (snd e))
                        (Object_entries (allParams params t)))
              ++ [("signature", sig)])%list.
Proof.
  intros JSON_parse cfg remote c method endpoint params out rq1 rq2 Hc Hrun.
  rewrite (invoke_signed _ _ _ _ _ _ Hc) in Hrun.
  apply signedRequest_two in Hrun
    as (r1 & data & t & sig & _ & _ & _ & _ & _ & Hsig & Hrq & _).
  exists (buildQueryString (allParams params t) ++ "&signature=" ++ sig),
    t, sig.
  split.
  - subst rq2. apply (signed_fetch_shape cfg c method endpoint params _ Hc).
  - destruct (hmacSha256Hex_shape _ _ _ Hsig) as [_ Hhex].
    rewrite (parse_query_signed _ sig Hhex).
    now rewrite buildQueryString_concat, parse_query_pairs.
Qed.

Lemma wire_query_fields_witness :
  signed_call (call_getAccountInfo None)
  = Some ("GET", "/api/v3/account", None)
  /\ run (exchange empty_success)
         (invoke JSONReader.parse demo_config (call_getAccountInfo None)) []
     = (Returned (VObj []),
        [time_request;
         second (snd (run (exchange empty_success)
                          (invoke JSONReader.parse demo_config
                                  (call_getAccountInfo None)) []))])
  /\ exists wire t sig,
      wire_query
        (second (snd (run (exchange empty_success)
                          (invoke JSONReader.parse demo_config
                                  (call_getAccountInfo None)) [])))
      = Some wire
      /\ parse_query wire
         = (map (fun e => (fst e, ToString (snd e)))
                (filter (fun e => present (snd e))
                        (Object_entries (allParams None t)))
              ++ [("signature", sig)])%list.
Proof.
  split; [reflexivity|]. split; [vm_compute; reflexivity|].
  apply (wire_query_fields JSONReader.parse demo_config
           (exchange empty_success) (call_getAccountInfo None)
           "GET" "/api/v3/account" None (Returned (VObj [])) time_request);
    [reflexivity | vm_compute; reflexivity].
Defined.

(** ** Dispatch and the catalog *)

Lemma dispatch_name (toolName : string) (args : JSObject) (c : FacadeCall) :
  dispatch toolName args = inr c -> toolName = tool_of c.
Proof.
  unfold dispatch. cbv zeta.
  repeat match goal with
         | |- context [(toolName =? ?b)%string] =>
             destruct (String.eqb_spec toolName b);
             [intros H; inversion H; subst; reflexivity|]
         end.
  discriminate.
Qed.

Lemma dispatch_params (toolName : string) (args : JSObject) (c : FacadeCall)
      (p : option JSObject) :
  dispatch toolName args = inr c ->
  forwarded c = Some p ->
  p = Some (strip_fields args) \/ p = if_nonempty (strip_fields args).
Proof.
  unfold dispatch. cbv zeta.
  repeat match goal with
         | |- context [(toolName =? ?b)%string] =>
             destruct (String.eqb_spec toolName b);
             [intros H F; inversion H; subst; simpl in F;
              first [discriminate F | inversion F; auto]|]
         end.
  discriminate.
Qed.

Lemma dispatch_unknown (toolName : string) (args : JSObject) :
  ~ In toolName TOOLS ->
  dispatch toolName args = inl (mkError "Error" ("Unknown tool: " ++ toolName)).
Proof.
  intros Hnot. unfold dispatch. cbv zeta.
  repeat match goal with
         | |- context [(toolName =? ?b)%string] =>
             destruct (String.eqb_spec toolName b) as [Heq|_];
             [exfalso; apply Hnot; rewrite Heq; simpl; tauto|]
         end.
  reflexivity.
Qed.

Lemma dispatch_known (toolName : string) (args : JSObject) :
  In toolName (map name CATALOG) ->
  exists c, dispatch toolName args = inr c /\ tool_of c = toolName.
Proof.
  intros Hin. simpl in Hin.
  repeat (destruct Hin as [<-|Hin]; [eexists; split; reflexivity|]).
  contradiction.
Qed.

(** X11.  The dispatch knows exactly the tools of the catalog, whose names
    are distinct: each of them goes to the operation of that name, for
    any arguments; any other name throws "Unknown tool: <name>" before any
    request is made. *)
Theorem dispatch_exactly_catalog :
  forall (toolName : string) (args : JSObject),
    (In toolName (map name CATALOG) ->
     exists c, dispatch toolName args = inr c /\ tool_of c = toolName)
    /\ (~ In toolName (map name CATALOG) ->
        forall (JSON_parse : string -> JSError + JSValue)
               (cfg : BinanceConfig) (remote : Remote),
          run remote (handleToolCall JSON_parse toolName args cfg) []
          = (Thrown (mkError "Error" ("Unknown tool: " ++ toolName)), []))
    /\ NoDup (map name CATALOG)
    /\ List.length CATALOG = 23%nat.
Proof.
  intros toolName args. split; [|split; [|split; [|reflexivity]]].
  - apply dispatch_known.
  - intros Hnot JSON_parse cfg remote. unfold handleToolCall.
    now rewrite (dispatch_unknown toolName args Hnot).
  - simpl. repeat (constructor; [simpl; intuition discriminate|]). constructor.
Qed.

Lemma dispatch_exactly_catalog_witness :
  In "bn_klines" (map name CATALOG)
  /\ (exists c,
         dispatch "bn_klines" [("symbol", VStr "LTCBTC")] = inr c
         /\ tool_of c = "bn_klines")
  /\ ~ In "bn_withdraw" (map name CATALOG)
  /\ run (always empty_success)
         (handleToolCall JSONReader.parse "bn_withdraw" [] demo_config) []
     = (Thrown (mkError "Error" "Unknown tool: bn_withdraw"), []).
Proof.
  assert (~ In "bn_withdraw" (map name CATALOG)) as Hnot.
  { simpl. intuition discriminate. }
  destruct (dispatch_exactly_catalog "bn_klines" [("symbol", VStr "LTCBTC")])
    as (H1 & _).
  destruct (dispatch_exactly_catalog "bn_withdraw" []) as (_ & H2 & _).
  split; [simpl; tauto|]. split; [apply H1; simpl; tauto|].
  split; [exact Hnot|]. now apply H2.
Defined.

(** ** The requests of each operation *)

Lemma cut_free (c : ascii) (s : string) :
  free_of c s = true -> cut c s = (s, "").
Proof.
  unfold free_of. induction s as [|a s IH]; simpl; [reflexivity|].
  intros H. apply andb_prop in H as [Ha Hs]. apply negb_true_iff in Ha.
  now rewrite Ha, (IH Hs).
Qed.

Lemma url_path_query (url q : string) :
  free_of "?" url = true -> url_path (url ++ "?" ++ q) = url.
Proof.
  intros H. unfold url_path.
  change (url ++ "?" ++ q) with (url ++ String "?" q).
  now rewrite cut_app.
Qed.

Lemma url_path_plain (url : string) :
  free_of "?" url = true -> url_path url = url.
Proof. intros H. unfold url_path. now rewrite cut_free. Qed.

Lemma url_path_with_query (url : string) (params : option JSObject) :
  free_of "?" url = true -> url_path (with_query url params) = url.
Proof.
  intros H. unfold with_query. destruct params as [p|];
    [|now apply url_path_plain].
  destruct (buildQueryString p =? "")%string;
    [now apply url_path_plain | now apply url_path_query].
Qed.

Lemma signed_fetch_path (cfg : BinanceConfig) (method endpoint q : string) :
  free_of "?" (baseUrl ++ endpoint) = true ->
  req_method (signed_fetch cfg method endpoint q) = method
  /\ url_path (req_url (signed_fetch cfg method endpoint q))
     = baseUrl ++ endpoint.
Proof.
  intros H. unfold signed_fetch.
  destruct ((method =? "GET")%string || (method =? "DELETE")%string);
    destruct (method =? "POST")%string; cbn [req_method req_url];
    (split; [reflexivity|]);
    try (now apply url_path_plain);
    replace (baseUrl ++ endpoint ++ "?" ++ q)
      with ((baseUrl ++ endpoint) ++ "?" ++ q) by apply append_assoc;
    now apply url_path_query.
Qed.

Lemma operation_path_plain (c : FacadeCall) :
  free_of "?" (baseUrl ++ snd (operation c)) = true.
Proof. destruct c; reflexivity. Qed.

Lemma invoke_by_mode (JSON_parse : string -> JSError + JSValue)
      (cfg : BinanceConfig) (c : FacadeCall) :
  match mode_of c with
  | PUBLIC =>
      fst (operation c) = "GET"
      /\ exists params,
          invoke JSON_parse cfg c
          = publicGet JSON_parse (snd (operation c)) params
  | USER_STREAM =>
      exists params,
        invoke JSON_parse cfg c
        = userStreamRequest JSON_parse cfg (fst (operation c))
            (snd (operation c)) params
  | SIGNED =>
      exists params,
        invoke JSON_parse cfg c
        = signedRequest JSON_parse cfg (fst (operation c))
            (snd (operation c)) params
  end.
Proof.
  destruct c; simpl; try (split; [reflexivity|]); eexists; reflexivity.
Qed.

(** Every request of an operation is the server-time call or the request
    of that operation. *)
Lemma invoke_requests (JSON_parse : string -> JSError + JSValue)
      (cfg : BinanceConfig) (remote : Remote) (c : FacadeCall)
      (rq : Request) :
  In rq (snd (run remote (invoke JSON_parse cfg c) [])) ->
  (mode_of c = SIGNED /\ rq = time_request) \/ request_of c rq.
Proof.
  pose proof (invoke_by_mode JSON_parse cfg c) as Hm.
  pose proof (operation_path_plain c) as Hp.
  destruct (mode_of c).
  - destruct Hm as [Hget [params ->]]. rewrite publicGet_log.
    intros [<-|[]]. right. split; [now rewrite Hget|].
    now apply url_path_with_query.
  - destruct Hm as [params ->]. rewrite userStreamRequest_log.
    intros [<-|[]]. right. split; [reflexivity|].
    now apply url_path_with_query.
  - destruct Hm as [params ->].
    destruct (signedRequest_log JSON_parse cfg remote (fst (operation c))
                (snd (operation c)) params) as [-> | (t & sig & ->)].
    + intros [<-|[]]. now left.
    + intros [<-|[<-|[]]]; [now left|]. right.
      now apply signed_fetch_path.
Qed.

Lemma handleToolCall_requests (JSON_parse : string -> JSError + JSValue)
      (cfg : BinanceConfig) (remote : Remote) (toolName : string)
      (args : JSObject) (rq : Request) :
  In rq (snd (run remote (handleToolCall JSON_parse toolName args cfg) [])) ->
  exists c,
    dispatch toolName args = inr c
    /\ toolName = tool_of c
    /\ ((mode_of c = SIGNED /\ rq = time_request) \/ request_of c rq).
Proof.
  unfold handleToolCall.
  destruct (dispatch toolName args) as [e|c] eqn:Hd; [intros []|].
  intros Hin. exists c. split; [reflexivity|].
  split; [now apply (dispatch_name toolName args)|].
  now apply (invoke_requests JSON_parse cfg remote).
Qed.

(** ** Annotations of the catalog against the requests made *)

Lemma catalog_operation (t : MCPToolDefinition) (c : FacadeCall) :
  In t CATALOG ->
  name t = tool_of c ->
  destructiveHint t = (fst (operation c) =? "DELETE")%string
  /\ (readOnlyHint t = true ->
      fst (operation c) = "GET"
      \/ operation c = ("POST", "/api/v3/order/test"))
  /\ openWorldHint t
     = match mode_of c with PUBLIC => true | _ => false end
  /\ (if in_dec string_dec "recvWindow" (properties t) then true else false)
     = match mode_of c with SIGNED => true | _ => false end.
Proof.
  intros Hin. simpl in Hin.
  repeat (destruct Hin as [<-|Hin];
          [destruct c; simpl; intros Hn; try discriminate Hn;
           repeat split; auto; discriminate|]).
  contradiction.
Qed.

(** X12.  The annotations of a tool agree with the requests it makes.  A
    tool makes a DELETE request only if it is marked destructive, and what
    a destructive tool sends beyond the server-time call is a DELETE; a
    tool marked read-only sends GET requests, or a POST to the order test
    endpoint, and nothing else. *)
Theorem annotations_match_requests :
  forall (JSON_parse : string -> JSError + JSValue) (cfg : BinanceConfig)
         (remote : Remote) (t : MCPToolDefinition) (args : JSObject)
         (rq : Request),
    In t CATALOG ->
    In rq (snd (run remote (handleToolCall JSON_parse (name t) args cfg) [])) ->
    (req_method rq = "DELETE" -> destructiveHint t = true)
    /\ (destructiveHint t = true ->
        rq = time_request \/ req_method rq = "DELETE")
    /\ (readOnlyHint t = true ->
        req_method rq = "GET"
        \/ (req_method rq = "POST"
            /\ url_path (req_url rq) = baseUrl ++ "/api/v3/order/test")).
Proof.
  intros JSON_parse cfg remote t args rq Hin Hrq.
  destruct (handleToolCall_requests _ _ _ _ _ _ Hrq)
    as (c & _ & Hname & Hshape).
  destruct (catalog_operation t c Hin Hname) as (Hdel & Hro & _).
  destruct Hshape as [[_ ->] | [Hm Hu]].
  - split; [discriminate|]. split; [now left|]. intros _. now left.
  - rewrite Hdel, Hm. split; [intros ->; reflexivity|].
    split; [intros H; right; now apply String.eqb_eq|].
    intros H. destruct (Hro H) as [-> | Hop]; [now left|].
    right. rewrite Hu, Hop. now split.
Qed.

Lemma annotations_match_requests_witness :
  exists (t : MCPToolDefinition) (rq : Request),
    In t CATALOG
    /\ name t = "bn_test_order"
    /\ readOnlyHint t = true
    /\ In rq (snd (run (exchange empty_success)
                       (handleToolCall JSONReader.parse (name t) demo_order
                          demo_config) []))
    /\ req_method rq = "POST"
    /\ url_path (req_url rq) = baseUrl ++ "/api/v3/order/test".
Proof.
  exists (tool "bn_test_order" "Test Order (Dry Run)"
            ["symbol"; "side"; "type"; "timeInForce"; "quantity";
             "quoteOrderQty"; "price"; "stopPrice"; "newClientOrderId";
             "recvWindow"]
            ["symbol"; "side"; "type"] true false true false).
  exists (second (snd (run (exchange empty_success)
                         (handleToolCall JSONReader.parse "bn_test_order"
                            demo_order demo_config) []))).
  assert (In (tool "bn_test_order" "Test Order (Dry Run)"
            ["symbol"; "side"; "type"; "timeInForce"; "quantity";
             "quoteOrderQty"; "price"; "stopPrice"; "newClientOrderId";
             "recvWindow"]
            ["symbol"; "side"; "type"] true false true false) CATALOG) as Hin.
  { do 12 right. left. reflexivity. }
  assert (In (second (snd (run (exchange empty_success)
                         (handleToolCall JSONReader.parse "bn_test_order"
                            demo_order demo_config) [])))
             (snd (run (exchange empty_success)
                         (handleToolCall JSONReader.parse "bn_test_order"
                            demo_order demo_config) []))) as Hrq.
  { vm_compute. right. left. reflexivity. }
  split; [exact Hin|]. split; [reflexivity|]. split; [reflexivity|].
  split; [exact Hrq|].
  destruct (annotations_match_requests JSONReader.parse demo_config
              (exchange empty_success) _ demo_order _ Hin Hrq)
    as (_ & _ & H).
  destruct (H eq_refl) as [Hget | Hpost]; [|exact Hpost].
  vm_compute in Hget. discriminate Hget.
Defined.

Lemma operation_tool (c : FacadeCall) (method path : string) :
  operation c = (method, path) ->
  In (method, path)
     [("POST", "/api/v3/order"); ("DELETE", "/api/v3/order");
      ("DELETE", "/api/v3/openOrders")] ->
  tool_of c
  = (if (method =? "POST")%string then "bn_new_order"
     else if (path =? "/api/v3/order")%string then "bn_cancel_order"
          else "bn_cancel_all_orders").
Proof.
  intros Hop Hin. simpl in Hin.
  destruct Hin as [H|[H|[H|[]]]]; inversion H; subst; clear H;
    destruct c; simpl in Hop; try discriminate Hop; reflexivity.
Qed.

Lemma baseUrl_path (p q : string) : baseUrl ++ p = baseUrl ++ q -> p = q.
Proof. unfold baseUrl. simpl. intros H. now inversion H. Qed.

(** X13.  Orders are placed and cancelled only by the tools meant for it:
    whatever the tool name and the arguments, a POST to /api/v3/order comes
    from bn_new_order alone, a DELETE on /api/v3/order from bn_cancel_order
    alone and a DELETE on /api/v3/openOrders from bn_cancel_all_orders
    alone. *)
Theorem order_requests_only_from_order_tools :
  forall (JSON_parse : string -> JSError + JSValue) (cfg : BinanceConfig)
         (remote : Remote) (toolName : string) (args : JSObject)
         (rq : Request),
    In rq (snd (run remote (handleToolCall JSON_parse toolName args cfg) [])) ->
    (req_method rq = "POST" ->
     url_path (req_url rq) = baseUrl ++ "/api/v3/order" ->
     toolName = "bn_new_order")
    /\ (req_method rq = "DELETE" ->
        url_path (req_url rq) = baseUrl ++ "/api/v3/order" ->
        toolName = "bn_cancel_order")
    /\ (req_method rq = "DELETE" ->
        url_path (req_url rq) = baseUrl ++ "/api/v3/openOrders" ->
        toolName = "bn_cancel_all_orders").
Proof.
  intros JSON_parse cfg remote toolName args rq Hrq.
  destruct (handleToolCall_requests _ _ _ _ _ _ Hrq)
    as (c & _ & -> & Hshape).
  destruct Hshape as [[_ ->] | [Hm Hu]].
  - repeat split; discriminate.
  - repeat split; intros Hmethod Hpath; rewrite Hmethod in Hm;
      rewrite Hpath in Hu; apply baseUrl_path in Hu;
      rewrite (operation_tool c (fst (operation c)) (snd (operation c)));
      try (now destruct (operation c));
      rewrite <- Hm, <- Hu; simpl; tauto.
Qed.

Lemma order_requests_only_from_order_tools_witness :
  exists rq : Request,
    In rq (snd (run (exchange empty_success)
                    (handleToolCall JSONReader.parse "bn_new_order" demo_order
                       demo_config) []))
    /\ req_method rq = "POST"
    /\ url_path (req_url rq) = baseUrl ++ "/api/v3/order"
    /\ "bn_new_order" = "bn_new_order".
Proof.
  exists (second (snd (run (exchange empty_success)
                         (handleToolCall JSONReader.parse "bn_new_order"
                            demo_order demo_config) []))).
  assert (In (second (snd (run (exchange empty_success)
                         (handleToolCall JSONReader.parse "bn_new_order"
                            demo_order demo_config) [])))
             (snd (run (exchange empty_success)
                         (handleToolCall JSONReader.parse "bn_new_order"
                            demo_order demo_config) []))) as Hrq.
  { vm_compute. right. left. reflexivity. }
  split; [exact Hrq|]. split; [reflexivity|]. split; [reflexivity|].
  exact (proj1 (order_requests_only_from_order_tools JSONReader.parse
                  demo_config (exchange empty_success) "bn_new_order"
                  demo_order _ Hrq) eq_refl eq_refl).
Defined.

(** ** The listen-key operations *)





(** ** Credentials on the wire *)

Lemma public_mode (c : FacadeCall) :
  includes publicTools (tool_of c)
  = match mode_of c with PUBLIC => true | _ => false end.
Proof. destruct c; reflexivity. Qed.

Lemma signed_fetch_key (cfg : BinanceConfig) (method endpoint q : string) :
  hd_error (req_headers (signed_fetch cfg method endpoint q))
  = Some ("X-MBX-APIKEY", apiKey cfg).
Proof. unfold signed_fetch. destruct (method =? "POST")%string; reflexivity. Qed.

Lemma invoke_headers (JSON_parse : string -> JSError + JSValue)
      (cfg : BinanceConfig) (remote : Remote) (c : FacadeCall)
      (rq : Request) :
  In rq (snd (run remote (invoke JSON_parse cfg c) [])) ->
  match mode_of c with
  | PUBLIC =>
      snd (run remote (invoke JSON_parse cfg c) []) = [rq]
      /\ req_method rq = "GET" /\ req_headers rq = [] /\ req_body rq = None
  | USER_STREAM =>
      snd (run remote (invoke JSON_parse cfg c) []) = [rq]
      /\ req_headers rq = [("X-MBX-APIKEY", apiKey cfg)] /\ req_body rq = None
  | SIGNED =>
      rq = time_request
      \/ hd_error (req_headers rq) = Some ("X-MBX-APIKEY", apiKey cfg)
  end.
Proof.
  pose proof (invoke_by_mode JSON_parse cfg c) as Hm.
  destruct (mode_of c).
  - destruct Hm as [_ [params ->]]. rewrite publicGet_log.
    intros [<-|[]]. repeat split.
  - destruct Hm as [params ->]. rewrite userStreamRequest_log.
    intros [<-|[]]. repeat split.
  - destruct Hm as [params ->].
    destruct (signedRequest_log JSON_parse cfg remote (fst (operation c))
                (snd (operation c)) params) as [-> | (t & sig & ->)].
    + intros [<-|[]]. now left.
    + intros [<-|[<-|[]]]; [now left|]. right. apply signed_fetch_key.
Qed.


(** X19.  The tools exempt from the credential check are those whose
    requests carry no API key.  A public tool sends no header at all;
    every other tool sends the X-MBX-APIKEY header of its client on each
    request except the server-time call. *)
Theorem exempt_tools_send_no_key :
  forall (JSON_parse : string -> JSError + JSValue) (cfg : BinanceConfig)
         (remote : Remote) (toolName : string) (args : JSObject)
         (rq : Request),
    In rq (snd (run remote (handleToolCall JSON_parse toolName args cfg) [])) ->
    if includes publicTools toolName
    then req_headers rq = [] /\ req_body rq = None
    else rq = time_request
         \/ hd_error (req_headers rq) = Some ("X-MBX-APIKEY", apiKey cfg).
Proof.
  intros JSON_parse cfg remote toolName args rq Hrq.
  pose proof Hrq as Hc.
  apply handleToolCall_requests in Hc as (c & Hd & -> & _).
  unfold handleToolCall in Hrq. rewrite Hd in Hrq.
  apply invoke_headers in Hrq. rewrite public_mode.
  destruct (mode_of c).
  - now destruct Hrq as (_ & _ & Hh & Hb).
  - destruct Hrq as (_ & Hh & _). right. now rewrite Hh.
  - exact Hrq.
Qed.

Lemma exempt_tools_send_no_key_witness :
  exists rq : Request,
    In rq (snd (run (exchange empty_success)
                    (handleToolCall JSONReader.parse "bn_account_info" []
                       demo_config) []))
    /\ rq <> time_request
    /\ hd_error (req_headers rq) = Some ("X-MBX-APIKEY", apiKey demo_config).
Proof.
  exists (second (snd (run (exchange empty_success)
                         (handleToolCall JSONReader.parse "bn_account_info" []
                            demo_config) []))).
  assert (In (second (snd (run (exchange empty_success)
                         (handleToolCall JSONReader.parse "bn_account_info" []
                            demo_config) [])))
             (snd (run (exchange empty_success)
                         (handleToolCall JSONReader.parse "bn_account_info" []
                            demo_config) []))) as Hrq.
  { vm_compute. right. left. reflexivity. }
  split; [exact Hrq|].
  assert (second (snd (run (exchange empty_success)
                         (handleToolCall JSONReader.parse "bn_account_info" []
                            demo_config) [])) <> time_request) as Hne.
  { vm_compute. discriminate. }
  split; [exact Hne|].
  destruct (exempt_tools_send_no_key JSONReader.parse demo_config
              (exchange empty_success) "bn_account_info" [] _ Hrq)
    as [Ht | Hh]; [contradiction | exact Hh].
Defined.

(** ** The handler *)

Lemma serve_log (JSON_parse : string -> JSError + JSValue)
      (JSON_stringify : JSValue -> string) (config : option BinanceConfig)
      (remote : Remote) (toolName : string) (client : option BinanceConfig)
      (args : JSObject) :
  gate_blocks config toolName args = false ->
  snd (serve JSON_parse JSON_stringify config remote toolName client args [])
  = snd (run remote
           (handleToolCall JSON_parse toolName args
              (next_client config client args)) []).
Proof.
  intros Hg. unfold serve. rewrite Hg. cbv zeta.
  now destruct (run remote _ []) as [[v|e] l].
Qed.



(** ** What of the arguments reaches the exchange *)

Lemma strip_fields_NoDup (args : JSObject) :
  NoDup (keys args) -> NoDup (keys (strip_fields args)).
Proof.
  intros Hnd. rewrite strip_fields_entries by exact Hnd.
  apply keys_filter_NoDup.
  apply (keys_perm_NoDup args); [|exact Hnd].
  symmetry. apply Object_entries_perm.
Qed.

Lemma envelope_keeps (P : JSObject) (t : JSValue) (k : string) :
  NoDup (keys P) -> has_key P k = true ->
  k <> "timestamp" -> k <> "recvWindow" ->
  In (k, obj_get P k) (Object_entries (allParams (Some P) t)).
Proof.
  intros Hnd Hk Ht Hw.
  assert (has_key (allParams (Some P) t) k = true) as Hin.
  { unfold allParams. rewrite !has_key_set, obj_copy_nodup by exact Hnd.
    rewrite (has_key_perm _ _ k (Object_entries_perm P)), Hk. reflexivity. }
  assert (obj_get (allParams (Some P) t) k = obj_get P k) as Hv.
  { unfold allParams.
    rewrite !obj_get_set_other by (intros E; now symmetry in E).
    rewrite obj_copy_nodup by exact Hnd.
    now apply obj_get_perm; [|apply Object_entries_perm]. }
  apply has_key_get_In in Hin. rewrite Hv in Hin.
  apply (Permutation_in _ (Permutation_sym (Object_entries_perm _)) Hin).
Qed.

Lemma if_nonempty_has_key (o : JSObject) (k : string) :
  has_key o k = true -> if_nonempty o = Some o.
Proof.
  intros H. unfold if_nonempty.
  rewrite <- (has_key_perm _ _ k (Object_entries_perm o)) in H.
  now destruct (Object_entries o).
Qed.

Lemma signed_call_forwarded (c : FacadeCall) :
  mode_of c = SIGNED ->
  exists method endpoint params,
    signed_call c = Some (method, endpoint, params)
    /\ forwarded c = Some params.
Proof.
  destruct c; simpl; intros H; try discriminate H;
    do 3 eexists; split; reflexivity.
Qed.

(** X14.  Every argument of a signed tool call other than [_fields],
    [timestamp] and [recvWindow] whose value is neither null nor undefined
    is sent to the exchange as a field of the signed query, under its name
    and with the string of its value; this holds of [BINANCE_API_KEY] and
    [BINANCE_SECRET_KEY] too, when the credentials are passed as
    arguments. *)
Theorem arguments_reach_the_exchange :
  forall (JSON_parse : string -> JSError + JSValue) (cfg : BinanceConfig)
         (remote : Remote) (toolName : string) (args : JSObject)
         (out : Outcome JSValue) (rq1 rq2 : Request) (k : string),
    NoDup (keys args) ->
    run remote (handleToolCall JSON_parse toolName args cfg) []
    = (out, [rq1; rq2]) ->
    has_key args k = true ->
    present (obj_get args k) = true ->
    k <> "_fields" -> k <> "timestamp" -> k <> "recvWindow" ->
    exists wire,
      wire_query rq2 = Some wire
      /\ In (k, ToString (obj_get args k)) (parse_query wire).
Proof.
  intros JSON_parse cfg remote toolName args out rq1 rq2 k
         Hnd Hrun Hk Hp Hf Ht Hw.
  unfold handleToolCall in Hrun.
  destruct (dispatch toolName args) as [e|c] eqn:Hd; [discriminate Hrun|].
  assert (mode_of c = SIGNED) as Hmode.
  { pose proof (invoke_by_mode JSON_parse cfg c) as Hm.
    pose proof (f_equal snd Hrun) as Hlog. simpl in Hlog.
    destruct (mode_of c); [| |reflexivity].
    - destruct Hm as [_ [params Hi]].
      rewrite Hi, publicGet_log in Hlog. discriminate Hlog.
    - destruct Hm as [params Hi].
      rewrite Hi, userStreamRequest_log in Hlog. discriminate Hlog. }
  destruct (signed_call_forwarded c Hmode)
    as (method & endpoint & params & Hc & Hfw).
  assert (has_key (strip_fields args) k = true) as Hks
      by (now rewrite strip_fields_has_key).
  assert (params = Some (strip_fields args)) as ->.
  { destruct (dispatch_params _ _ _ _ Hd Hfw) as [-> | ->];
      [reflexivity | now apply (if_nonempty_has_key _ k)]. }
  rewrite (invoke_signed _ _ _ _ _ _ Hc) in Hrun.
  apply signedRequest_two in Hrun
    as (r1 & data & t & sig & _ & _ & _ & _ & _ & Hsig & Hrq & _).
  exists (buildQueryString (allParams (Some (strip_fields args)) t)
            ++ "&signature=" ++ sig).
  split.
  - subst rq2. apply (signed_fetch_shape cfg c method endpoint _ _ Hc).
  - destruct (hmacSha256Hex_shape _ _ _ Hsig) as [_ Hhex].
    rewrite (parse_query_signed _ sig Hhex).
    rewrite buildQueryString_concat, parse_query_pairs.
    apply in_or_app. left. apply in_map_iff.
    exists (k, obj_get args k). split; [reflexivity|].
    apply filter_In. split; [|exact Hp].
    rewrite <- (strip_fields_get args k Hnd Hf).
    apply envelope_keeps; try assumption.
    now apply strip_fields_NoDup.
Qed.

Lemma arguments_reach_the_exchange_witness :
  NoDup (keys keyed_order)
  /\ exists wire,
      wire_query
        (second (snd (run (exchange empty_success)
                        (handleToolCall JSONReader.parse "bn_new_order"
                           keyed_order demo_config) [])))
      = Some wire
      /\ In ("BINANCE_SECRET_KEY", secretKey demo_config) (parse_query wire).
Proof.
  assert (NoDup (keys keyed_order)) as Hnd.
  { vm_compute. repeat (constructor; [simpl; intuition discriminate|]).
    constructor. }
  split; [exact Hnd|].
  apply (arguments_reach_the_exchange JSONReader.parse demo_config
           (exchange empty_success) "bn_new_order" keyed_order
           (Returned (VObj [])) time_request _ "BINANCE_SECRET_KEY" Hnd);
    [vm_compute; reflexivity | reflexivity | reflexivity
     | discriminate | discriminate | discriminate].
Defined.

(** ** Errors of the exchange at the caller of a tool *)





(** ** The cached client *)

Lemma gate_passed (config : option BinanceConfig) (toolName : string)
      (args : JSObject) :
  includes publicTools toolName = false ->
  gate_blocks config toolName args = false ->
  truthy (effective_apiKey config args) = true
  /\ truthy (effective_secretKey config args) = true.
Proof.
  unfold gate_blocks. intros -> H. cbn [negb andb] in H.
  apply orb_false_elim in H as [H1 H2].
  now apply negb_false_iff in H1, H2.
Qed.

Lemma strict_neq_undefined (v : JSValue) :
  truthy v = true -> strict_neq VUndefined v = true.
Proof. now destruct v. Qed.

Lemma strict_neq_empty (v : JSValue) :
  truthy v = true -> strict_neq (VStr "") v = true.
Proof. destruct v as [| | | |s| |]; try reflexivity. now destruct s. Qed.

Lemma strict_neq_same (s : string) : strict_neq (VStr s) (VStr s) = false.
Proof. simpl. now rewrite String.eqb_refl. Qed.

Lemma truthy_string (s : string) : s <> "" -> truthy (VStr s) = true.
Proof. intros H. simpl. apply negb_true_iff. now apply String.eqb_neq. Qed.

(** Under a configuration with both keys the client is the configured one,
    whatever the arguments. *)
Lemma next_client_configured (c : BinanceConfig)
      (client : option BinanceConfig) (args : JSObject) :
  apiKey c <> "" -> secretKey c <> "" ->
  client = None \/ client = Some c ->
  effective_apiKey (Some c) args = VStr (apiKey c)
  /\ effective_secretKey (Some c) args = VStr (secretKey c)
  /\ next_client (Some c) client args = c.
Proof.
  intros Ha Hs Hcl.
  assert (effective_apiKey (Some c) args = VStr (apiKey c)) as Hk
      by (apply js_or_truthy; now apply truthy_string).
  assert (effective_secretKey (Some c) args = VStr (secretKey c)) as Hsk
      by (apply js_or_truthy; now apply truthy_string).
  split; [exact Hk|]. split; [exact Hsk|].
  unfold next_client. cbv zeta. rewrite Hk, Hsk.
  unfold config_field. rewrite strict_neq_same.
  rewrite !js_or_truthy by now apply truthy_string.
  destruct Hcl as [-> | ->]; [|reflexivity]. now destruct c.
Qed.

Lemma serve_client (JSON_parse : string -> JSError + JSValue)
      (JSON_stringify : JSValue -> string) (config : option BinanceConfig)
      (remote : Remote) (toolName : string) (client : option BinanceConfig)
      (args : JSObject) (log : list Request) :
  snd (fst (serve JSON_parse JSON_stringify config remote toolName client
              args log))
  = if gate_blocks config toolName args then client
    else Some (next_client config client args).
Proof.
  unfold serve. destruct (gate_blocks config toolName args); [reflexivity|].
  cbv zeta. now destruct (run remote _ log) as [[v|e] l].
Qed.

Lemma reachable_configured (JSON_parse : string -> JSError + JSValue)
      (JSON_stringify : JSValue -> string) (c : BinanceConfig)
      (client : option BinanceConfig) :
  apiKey c <> "" -> secretKey c <> "" ->
  reachable_client JSON_parse JSON_stringify (Some c) client ->
  client = None \/ client = Some c.
Proof.
  intros Ha Hs H. induction H as [|remote toolName client args log H IH];
    [now left|].
  rewrite serve_client.
  destruct (gate_blocks (Some c) toolName args); [exact IH|]. right.
  f_equal. now apply next_client_configured.
Qed.

(** X15.  Unless the configuration holds an API key with an empty secret,
    a call of a non-public tool that passes the credential check runs on a
    client that holds the effective credentials of that very call (the
    configured value, else the argument), whatever client the earlier
    calls have left cached. *)
Theorem call_runs_on_effective_credentials :
  forall (JSON_parse : string -> JSError + JSValue)
         (JSON_stringify : JSValue -> string) (config : option BinanceConfig)
         (client : option BinanceConfig) (toolName : string)
         (args : JSObject),
    reachable_client JSON_parse JSON_stringify config client ->
    (forall c, config = Some c -> apiKey c <> "" -> secretKey c <> "") ->
    includes publicTools toolName = false ->
    gate_blocks config toolName args = false ->
    next_client config client args
    = mkConfig (ToString (effective_apiKey config args))
               (ToString (effective_secretKey config args)).
Proof.
  intros JSON_parse JSON_stringify config client toolName args
         Hreach Hcfg Hpub Hg.
  destruct (gate_passed config toolName args Hpub Hg) as [Hk Hs].
  assert (strict_neq (config_field config apiKey)
                     (effective_apiKey config args) = true ->
          next_client config client args
          = mkConfig (ToString (effective_apiKey config args))
                     (ToString (effective_secretKey config args))) as Hfresh.
  { intros Hne. unfold next_client. rewrite Hne.
    rewrite !js_or_truthy by assumption. now destruct client. }
  destruct config as [c|].
  - destruct (String.eqb_spec (apiKey c) "") as [He|Hne].
    + apply Hfresh. unfold config_field. rewrite He.
      apply strict_neq_empty. exact Hk.
    + pose proof (Hcfg c eq_refl Hne) as Hsec.
      pose proof (reachable_configured _ _ c client Hne Hsec Hreach) as Hcl.
      destruct (next_client_configured c client args Hne Hsec Hcl)
        as (-> & -> & ->).
      now destruct c.
  - apply Hfresh. unfold config_field. apply strict_neq_undefined. exact Hk.
Qed.

Lemma call_runs_on_effective_credentials_witness :
  reachable_client JSONReader.parse (fun _ => "") None
    (snd (fst (serve JSONReader.parse (fun _ => "") None
                 (always empty_success) "bn_ping" None [] [])))
  /\ next_client None
       (snd (fst (serve JSONReader.parse (fun _ => "") None
                    (always empty_success) "bn_ping" None [] [])))
       keyed_order
     = demo_config.
Proof.
  assert (reachable_client JSONReader.parse (fun _ => "") None
            (snd (fst (serve JSONReader.parse (fun _ => "") None
                         (always empty_success) "bn_ping" None [] []))))
    as Hreach by (apply reach_call, reach_start).
  split; [exact Hreach|].
  apply (call_runs_on_effective_credentials JSONReader.parse (fun _ => "")
           None _ "bn_new_order" keyed_order Hreach);
    [discriminate | reflexivity | reflexivity].
Defined.

(** X16.  Under a configuration that holds an API key and an empty secret,
    a client cached by a call without a secret keeps the empty secret: a
    later call of a signed tool that brings the secret in its arguments
    passes the credential check, yet runs on the empty secret and makes no
    request beyond the server-time call. *)
Theorem cached_client_keeps_empty_secret :
  forall (JSON_parse : string -> JSError + JSValue)
         (JSON_stringify : JSValue -> string) (remote remote' : Remote)
         (key : string) (first args : JSObject) (publicTool toolName : string)
         (c : FacadeCall),
    key <> "" ->
    includes publicTools publicTool = true ->
    truthy (obj_get first "BINANCE_SECRET_KEY") = false ->
    truthy (obj_get args "BINANCE_SECRET_KEY") = true ->
    dispatch toolName args = inr c ->
    mode_of c = SIGNED ->
    let config := Some (mkConfig key "") in
    let client :=
      snd (fst (serve JSON_parse JSON_stringify config remote publicTool None
                  first [])) in
    gate_blocks config toolName args = false
    /\ next_client config client args = mkConfig key ""
    /\ snd (serve JSON_parse JSON_stringify config remote' toolName client
              args [])
       = [time_request].
Proof.
  intros JSON_parse JSON_stringify remote remote' key first args publicTool
         toolName c Hkey Hpub Hfirst Hargs Hd Hmode config client.
  assert (forall a, effective_apiKey config a = VStr key) as Hk
      by (intros a; apply js_or_truthy; now apply truthy_string).
  assert (forall a, effective_secretKey config a
                    = obj_get a "BINANCE_SECRET_KEY") as Hs
      by (intros a; now apply js_or_falsy).
  assert (gate_blocks config toolName args = false) as Hg.
  { unfold gate_blocks. rewrite Hk, Hs, Hargs, (truthy_string key Hkey).
    now rewrite andb_false_r. }
  assert (client = Some (mkConfig key "")) as Hcl.
  { unfold client. rewrite serve_client. unfold gate_blocks. rewrite Hpub.
    cbn [negb andb]. f_equal. unfold next_client.
    rewrite Hk, Hs, (js_or_falsy _ _ Hfirst).
    now rewrite js_or_truthy by now apply truthy_string. }
  assert (next_client config client args = mkConfig key "") as Hnext.
  { rewrite Hcl. unfold next_client. cbv zeta. rewrite Hk.
    unfold config_field, config. cbn [apiKey].
    now rewrite strict_neq_same. }
  split; [exact Hg|]. split; [exact Hnext|].
  rewrite serve_log by exact Hg. rewrite Hnext.
  unfold handleToolCall. rewrite Hd.
  pose proof (invoke_by_mode JSON_parse (mkConfig key "") c) as Hm.
  rewrite Hmode in Hm. destruct Hm as [params ->].
  destruct (signedRequest_log JSON_parse (mkConfig key "") remote'
              (fst (operation c)) (snd (operation c)) params)
    as [Hl | (t & sig & Hl)]; [exact Hl|].
  destruct (run remote'
              (signedRequest JSON_parse (mkConfig key "") (fst (operation c))
                 (snd (operation c)) params) []) as [out log] eqn:Hrun.
  simpl in Hl. subst log.
  apply signedRequest_two in Hrun
    as (r1 & data & t' & sig' & _ & _ & _ & _ & _ & Hsig & _).
  discriminate Hsig.
Qed.

Lemma cached_client_keeps_empty_secret_witness :
  next_client (Some (mkConfig "key" ""))
    (snd (fst (serve JSONReader.parse (fun _ => "")
                 (Some (mkConfig "key" "")) (always empty_success) "bn_ping"
                 None [] [])))
    keyed_order
  = mkConfig "key" ""
  /\ snd (serve JSONReader.parse (fun _ => "") (Some (mkConfig "key" ""))
            (exchange empty_success) "bn_new_order"
            (snd (fst (serve JSONReader.parse (fun _ => "")
                         (Some (mkConfig "key" "")) (always empty_success)
                         "bn_ping" None [] [])))
            keyed_order [])
     = [time_request].
Proof.
  exact (proj2 (cached_client_keeps_empty_secret JSONReader.parse
                  (fun _ => "") (always empty_success)
                  (exchange empty_success) "key" [] keyed_order "bn_ping"
                  "bn_new_order" (call_newOrder (strip_fields keyed_order))
                  ltac:(discriminate) eq_refl eq_refl eq_refl eq_refl
                  eq_refl)).
Defined.

(** ** The configuration of the entry points *)

Lemma env_get_set_same (env : Env) (k v : string) :
  env_get (env_set env k v) k = Some v.
Proof.
  induction env as [|[k' v'] env IH]; simpl.
  - now rewrite String.eqb_refl.
  - destruct (k' =? k)%string eqn:E; simpl.
    + now rewrite String.eqb_refl.
    + now rewrite E.
Qed.

Lemma env_get_set_other (env : Env) (k v k' : string) :
  k <> k' -> env_get (env_set env k v) k' = env_get env k'.
Proof.
  intros Hne. induction env as [|[k0 v0] env IH]; simpl.
  - apply String.eqb_neq in Hne. now rewrite Hne.
  - destruct (k0 =? k)%string eqn:E; simpl.
    + apply String.eqb_eq in E. subst k0.
      apply String.eqb_neq in Hne. now rewrite Hne.
    + now rewrite IH.
Qed.

Lemma env_override_same (env : Env) (k : string) (v : option string) :
  env_get (env_override env k v) k = option_or_env v (env_get env k).
Proof.
  unfold env_override, option_or_env, set_and_nonempty.
  destruct v as [s|]; [|reflexivity].
  destruct (s =? "")%string; [reflexivity|]. apply env_get_set_same.
Qed.

Lemma env_override_other (env : Env) (k : string) (v : option string)
      (k' : string) :
  k <> k' -> env_get (env_override env k v) k' = env_get env k'.
Proof.
  intros Hne. unfold env_override. destruct v as [s|]; [|reflexivity].
  destruct (s =? "")%string; [reflexivity|]. now apply env_get_set_other.
Qed.

(** X17.  A configuration read from the environment holds both keys, and
    neither is empty; there is none as soon as one of the two variables is
    unset or empty.  Under such a configuration no tool call is refused
    for want of credentials, and credentials passed as arguments are
    ignored: the effective keys are the configured ones. *)
Theorem getConfig_complete :
  forall (env : Env),
    match getConfig env with
    | Some c =>
        env_get env "BINANCE_API_KEY" = Some (apiKey c)
        /\ env_get env "BINANCE_SECRET_KEY" = Some (secretKey c)
        /\ apiKey c <> "" /\ secretKey c <> ""
        /\ forall (toolName : string) (args : JSObject),
            gate_blocks (Some c) toolName args = false
            /\ effective_apiKey (Some c) args = VStr (apiKey c)
            /\ effective_secretKey (Some c) args = VStr (secretKey c)
            /\ next_client (Some c) None args = c
    | None =>
        set_and_nonempty (env_get env "BINANCE_API_KEY")
        && set_and_nonempty (env_get env "BINANCE_SECRET_KEY") = false
    end.
Proof.
  intros env. unfold getConfig, set_and_nonempty.
  destruct (env_get env "BINANCE_API_KEY") as [a|]; [|reflexivity].
  destruct (env_get env "BINANCE_SECRET_KEY") as [s|];
    [|now rewrite andb_false_r].
  destruct (String.eqb_spec a "") as [->|Ha]; [reflexivity|].
  destruct (String.eqb_spec s "") as [->|Hs]; [reflexivity|].
  cbn [orb apiKey secretKey].
  split; [reflexivity|]. split; [reflexivity|].
  split; [exact Ha|]. split; [exact Hs|].
  intros toolName args.
  destruct (next_client_configured (mkConfig a s) None args Ha Hs
              (or_introl eq_refl)) as (Hk & Hsk & Hn).
  split; [|now repeat split].
  unfold gate_blocks. rewrite Hk, Hsk.
  cbn [apiKey secretKey]. rewrite !truthy_string by assumption.
  now rewrite andb_false_r.
Qed.

(** X21.  The Smithery entry point lets each option that is set and not
    empty replace the environment variable of its name, and leaves the
    replacement in the environment; an absent or empty option leaves the
    variable as it is, and no other variable changes.  The server gets a
    configuration exactly when both resulting values are non-empty, and
    then it holds those two values. *)
Theorem createSmitheryServer_overrides :
  forall (opts : option SmitheryConfig) (env : Env) (k : string),
    let key :=
      option_or_env (option_field opts BINANCE_API_KEY)
                    (env_get env "BINANCE_API_KEY") in
    let secret :=
      option_or_env (option_field opts BINANCE_SECRET_KEY)
                    (env_get env "BINANCE_SECRET_KEY") in
    env_get (fst (createSmitheryServer opts env)) k
    = (if (k =? "BINANCE_API_KEY")%string then key
       else if (k =? "BINANCE_SECRET_KEY")%string then secret
            else env_get env k)
    /\ snd (createSmitheryServer opts env)
       = match key, secret with
         | Some a, Some s =>
             if (a =? "")%string || (s =? "")%string then None
             else Some (mkConfig a s)
         | _, _ => None
         end.
Proof.
  intros opts env k key secret.
  set (env2 := env_override
                 (env_override env "BINANCE_API_KEY"
                    (option_field opts BINANCE_API_KEY))
                 "BINANCE_SECRET_KEY" (option_field opts BINANCE_SECRET_KEY)).
  assert (createSmitheryServer opts env = (env2, getConfig env2)) as ->
      by (now destruct opts).
  assert (env_get env2 "BINANCE_API_KEY" = key) as Hk.
  { unfold env2. rewrite env_override_other by discriminate.
    apply env_override_same. }
  assert (env_get env2 "BINANCE_SECRET_KEY" = secret) as Hs.
  { unfold env2. rewrite env_override_same.
    now rewrite env_override_other by discriminate. }
  cbn [fst snd]. split.
  - destruct (String.eqb_spec k "BINANCE_API_KEY") as [->|Ha]; [exact Hk|].
    destruct (String.eqb_spec k "BINANCE_SECRET_KEY") as [->|Hb];
      [exact Hs|].
    unfold env2.
    rewrite !env_override_other by (intros E; now symmetry in E).
    reflexivity.
  - unfold getConfig. now rewrite Hk, Hs.
Qed.

(** ** Answers of the exchange at the caller of a tool *)

(** When the last request of an operation is answered with a success
    status, the operation yields what the body decodes to; the last
    request of a signed operation that stopped after the server-time call
    is left aside. *)
Lemma invoke_last_success (JSON_parse : string -> JSError + JSValue)
      (cfg : BinanceConfig) (remote : Remote) (c : FacadeCall)
      (out : Outcome JSValue) (log : list Request) (response : Response) :
  run remote (invoke JSON_parse cfg c) [] = (out, log) ->
  remote (removelast log) (last log time_request) = inr response ->
  ok response = true ->
  includes publicTools (tool_of c) = true
  \/ last log time_request <> time_request ->
  (body response <> "" ->
   out = match JSON_parse (body response) with
         | inl e => Thrown e
         | inr v => Returned v
         end)
  /\ (body response = "" -> includes publicTools (tool_of c) = false ->
      out = Returned (VObj [])).
Proof.
  intros Hrun Hresp Hok Hlast.
  assert (decoded_or_empty JSON_parse response out ->
          (body response <> "" ->
           out = match JSON_parse (body response) with
                 | inl e => Thrown e
                 | inr v => Returned v
                 end)
          /\ (body response = "" -> includes publicTools (tool_of c) = false ->
              out = Returned (VObj []))) as Hdec.
  { intros (H1 & H2 & H3). split; [|now intros Hb _; apply H1].
    intros Hb. destruct (JSON_parse (body response)) as [e|v] eqn:Hp;
      [now apply (H2 Hb) | now apply (H3 Hb)]. }
  pose proof (invoke_by_mode JSON_parse cfg c) as Hm.
  pose proof (f_equal snd Hrun) as Hlog. simpl in Hlog.
  rewrite public_mode in *.
  destruct (mode_of c).
  - destruct Hm as [_ [params Hi]]. rewrite Hi in Hrun, Hlog.
    rewrite publicGet_log in Hlog. subst log. simpl in Hresp.
    destruct (publicGet_one _ _ _ _ _ _ _ Hrun Hresp) as (_ & H & _).
    split; [intros _; now apply H | discriminate].
  - destruct Hm as [params Hi]. rewrite Hi in Hrun, Hlog.
    rewrite userStreamRequest_log in Hlog. subst log. simpl in Hresp.
    apply Hdec.
    now apply (userStreamRequest_one _ _ _ _ _ _ _ _ _ Hrun Hresp).
  - destruct Hm as [params Hi]. rewrite Hi in Hrun, Hlog.
    destruct (signedRequest_log JSON_parse cfg remote (fst (operation c))
                (snd (operation c)) params) as [Hl | (t & sig & Hl)];
      rewrite Hl in Hlog; subst log; simpl in Hresp.
    + destruct Hlast as [Hpub | Hne]; [discriminate Hpub|].
      now contradiction Hne.
    + apply Hdec.
      now apply (signedRequest_second _ _ _ _ _ _ _ _ _ _ Hrun Hresp).
Qed.

(** X22.  The answer of the exchange reaches the caller of a tool.  When
    the last request of a tool call is answered with a success status
    (a signed call that stopped after the server-time call aside), the
    result is the stringified value of the decoded body, not flagged; a
    body that does not decode gives the decoding error as text, flagged;
    an empty body gives the stringified empty object for every tool that
    is not public. *)
Theorem exchange_answer_reaches_caller :
  forall (JSON_parse : string -> JSError + JSValue)
         (JSON_stringify : JSValue -> string) (config : option BinanceConfig)
         (remote : Remote) (toolName : string) (client : option BinanceConfig)
         (args : JSObject) (out : Outcome JSValue) (log : list Request)
         (response : Response),
    gate_blocks config toolName args = false ->
    run remote
        (handleToolCall JSON_parse toolName args
           (next_client config client args)) []
    = (out, log) ->
    log <> [] ->
    remote (removelast log) (last log time_request) = inr response ->
    ok response = true ->
    includes publicTools toolName = true
    \/ last log time_request <> time_request ->
    let result :=
      fst (fst (serve JSON_parse JSON_stringify config remote toolName client
                  args [])) in
    (forall v,
        body response <> "" -> JSON_parse (body response) = inr v ->
        result = mkResult (JSON_stringify v) false)
    /\ (forall e,
           body response <> "" -> JSON_parse (body response) = inl e ->
           result = mkResult ("Error: " ++ emessage e) true)
    /\ (body response = "" -> includes publicTools toolName = false ->
        result = mkResult (JSON_stringify (VObj [])) false).
Proof.
  intros JSON_parse JSON_stringify config remote toolName client args out log
         response Hg Hrun Hne Hresp Hok Hlast result.
  assert ((body response <> "" ->
           out = match JSON_parse (body response) with
                 | inl e => Thrown e
                 | inr v => Returned v
                 end)
          /\ (body response = "" -> includes publicTools toolName = false ->
              out = Returned (VObj []))) as [Hfull Hempty].
  { unfold handleToolCall in Hrun.
    destruct (dispatch toolName args) as [e|c] eqn:Hd;
      [inversion Hrun; subst; contradiction|].
    rewrite (dispatch_name _ _ _ Hd) in *.
    now apply (invoke_last_success _ _ _ _ _ _ _ Hrun Hresp). }
  unfold result, serve. rewrite Hg. cbv zeta. rewrite Hrun.
  split; [|split].
  - intros v Hb Hv. now rewrite (Hfull Hb), Hv.
  - intros e Hb He. now rewrite (Hfull Hb), He.
  - intros Hb Hpub. now rewrite (Hempty Hb Hpub).
Qed.

Lemma exchange_answer_reaches_caller_witness :
  fst (fst (serve JSONReader.parse ToString None (exchange order_ack)
              "bn_new_order" None keyed_order []))
  = mkResult (ToString (VObj [("orderId", VNum 28)])) false.
Proof.
  assert (run (exchange order_ack)
              (handleToolCall JSONReader.parse "bn_new_order" keyed_order
                 (next_client None None keyed_order)) []
          = (fst (run (exchange order_ack)
                    (handleToolCall JSONReader.parse "bn_new_order" keyed_order
                       (next_client None None keyed_order)) []),
             [time_request;
              second (snd (run (exchange order_ack)
                    (handleToolCall JSONReader.parse "bn_new_order" keyed_order
                       (next_client None None keyed_order)) []))])) as Hrun
      by (vm_compute; reflexivity).
  assert (last [time_request;
              second (snd (run (exchange order_ack)
                    (handleToolCall JSONReader.parse "bn_new_order" keyed_order
                       (next_client None None keyed_order)) []))]
               time_request <> time_request) as Hlast
      by (vm_compute; discriminate).
  assert (body order_ack <> "") as Hbody by (vm_compute; discriminate).
  exact (proj1 (exchange_answer_reaches_caller JSONReader.parse ToString
                  None (exchange order_ack) "bn_new_order" None keyed_order
                  _ _ order_ack eq_refl Hrun ltac:(discriminate) eq_refl
                  eq_refl (or_intror Hlast))
               (VObj [("orderId", VNum 28)]) Hbody eq_refl).
Defined.

(** When the last request of an operation is rejected, the operation
    throws the rejection. *)
Lemma invoke_last_rejection (JSON_parse : string -> JSError + JSValue)
      (cfg : BinanceConfig) (remote : Remote) (c : FacadeCall)
      (out : Outcome JSValue) (log : list Request) (e : JSError) :
  run remote (invoke JSON_parse cfg c) [] = (out, log) ->
  remote (removelast log) (last log time_request) = inl e ->
  out = Thrown e.
Proof.
  intros Hrun Hresp.
  pose proof (invoke_by_mode JSON_parse cfg c) as Hm.
  pose proof (f_equal snd Hrun) as Hlog. simpl in Hlog.
  destruct (mode_of c).
  - destruct Hm as [_ [params Hi]]. rewrite Hi in Hrun, Hlog.
    rewrite publicGet_log in Hlog. subst log. cbn [removelast last] in Hresp.
    rewrite publicGet_run in Hrun. cbv zeta in Hrun.
    fold (public_request (snd (operation c)) params) in Hrun.
    rewrite Hresp in Hrun. now inversion Hrun.
  - destruct Hm as [params Hi]. rewrite Hi in Hrun, Hlog.
    rewrite userStreamRequest_log in Hlog. subst log. cbn [removelast last] in Hresp.
    rewrite userStreamRequest_run in Hrun. cbv zeta in Hrun.
    fold (user_request cfg (fst (operation c)) (snd (operation c)) params)
      in Hrun.
    rewrite Hresp in Hrun. now inversion Hrun.
  - destruct Hm as [params Hi]. rewrite Hi in Hrun, Hlog.
    destruct (signedRequest_log JSON_parse cfg remote (fst (operation c))
                (snd (operation c)) params) as [Hl | (t & sig & Hl)];
      rewrite Hl in Hlog; subst log; cbn [removelast last] in Hresp.
    + rewrite signedRequest_run, getServerTime_run, Hresp in Hrun.
      now inversion Hrun.
    + apply signedRequest_two in Hrun
        as (r1 & data & t' & sig' & _ & _ & _ & _ & _ & _ & _ & Hlast).
      now rewrite Hresp in Hlast.
Qed.

(** X23.  A failure of the transport does not escape the handler: when
    the last request of a tool call is rejected, the result is the text
    "Error: <message of the rejection>", flagged as an error. *)
Theorem transport_failure_reaches_caller :
  forall (JSON_parse : string -> JSError + JSValue)
         (JSON_stringify : JSValue -> string) (config : option BinanceConfig)
         (remote : Remote) (toolName : string) (client : option BinanceConfig)
         (args : JSObject) (out : Outcome JSValue) (log : list Request)
         (e : JSError),
    gate_blocks config toolName args = false ->
    run remote
        (handleToolCall JSON_parse toolName args
           (next_client config client args)) []
    = (out, log) ->
    log <> [] ->
    remote (removelast log) (last log time_request) = inl e ->
    fst (fst (serve JSON_parse JSON_stringify config remote toolName client
                args []))
    = mkResult ("Error: " ++ emessage e) true.
Proof.
  intros JSON_parse JSON_stringify config remote toolName client args out log
         e Hg Hrun Hne Hresp.
  assert (out = Thrown e) as ->.
  { unfold handleToolCall in Hrun.
    destruct (dispatch toolName args) as [e'|c];
      [inversion Hrun; subst; contradiction|].
    now apply (invoke_last_rejection _ _ _ _ _ _ _ Hrun Hresp). }
  unfold serve. rewrite Hg. cbv zeta. now rewrite Hrun.
Qed.

Lemma transport_failure_reaches_caller_witness :
  fst (fst (serve JSONReader.parse ToString None
              (unreachable (mkError "TypeError" "fetch failed"))
              "bn_new_order" None keyed_order []))
  = mkResult "Error: fetch failed" true.
Proof.
  apply (transport_failure_reaches_caller JSONReader.parse ToString None
           (unreachable (mkError "TypeError" "fetch failed"))
           "bn_new_order" None keyed_order
           (Thrown (mkError "TypeError" "fetch failed")) [time_request]
           (mkError "TypeError" "fetch failed"));
    [reflexivity | vm_compute; reflexivity | discriminate | reflexivity].
Defined.

(** ** The [_fields] argument *)

Lemma filter_obj_set (E : JSObject) (k : string) (v : JSValue) :
  filter (fun e => negb (fst e =? k)%string) (obj_set E k v)
  = filter (fun e => negb (fst e =? k)%string) E.
Proof.
  induction E as [|[k0 v0] E IH]; simpl.
  - now rewrite String.eqb_refl.
  - destruct (k0 =? k)%string eqn:E0; simpl.
    + now rewrite String.eqb_refl.
    + now rewrite ?E0, IH.
Qed.

Lemma strip_fields_set (args : JSObject) (v : JSValue) :
  NoDup (keys args) ->
  strip_fields (obj_set args "_fields" v) = strip_fields args.
Proof.
  intros Hnd.
  rewrite (strip_fields_entries (obj_set args "_fields" v))
    by now apply obj_set_NoDup.
  rewrite Object_entries_set by reflexivity.
  now rewrite filter_obj_set, <- strip_fields_entries.
Qed.

(** X24.  The [_fields] argument has no effect: a tool call with
    [_fields] added or changed is refused or
    served alike, makes the same requests and gives the same result. *)
Theorem fields_argument_is_ignored :
  forall (JSON_parse : string -> JSError + JSValue)
         (JSON_stringify : JSValue -> string) (config : option BinanceConfig)
         (remote : Remote) (toolName : string) (client : option BinanceConfig)
         (args : JSObject) (v : JSValue) (log : list Request),
    NoDup (keys args) ->
    serve JSON_parse JSON_stringify config remote toolName client
          (obj_set args "_fields" v) log
    = serve JSON_parse JSON_stringify config remote toolName client args log.
Proof.
  intros JSON_parse JSON_stringify config remote toolName client args v log
         Hnd.
  assert (forall cfg,
             handleToolCall JSON_parse toolName (obj_set args "_fields" v) cfg
             = handleToolCall JSON_parse toolName args cfg) as Hcall.
  { intros cfg. unfold handleToolCall, dispatch.
    now rewrite (strip_fields_set args v Hnd). }
  assert (effective_apiKey config (obj_set args "_fields" v)
          = effective_apiKey config args) as Hk.
  { unfold effective_apiKey. now rewrite obj_get_set_other by discriminate. }
  assert (effective_secretKey config (obj_set args "_fields" v)
          = effective_secretKey config args) as Hs.
  { unfold effective_secretKey. now rewrite obj_get_set_other by discriminate. }
  unfold serve, gate_blocks, next_client. cbv zeta.
  now rewrite Hk, Hs, !Hcall.
Qed.

Lemma fields_argument_is_ignored_witness :
  NoDup (keys [("symbol", VStr "LTCBTC")])
  /\ serve JSONReader.parse ToString None (always order_ack)
           "bn_ticker_price" None
           [("symbol", VStr "LTCBTC"); ("_fields", VStr "price")] []
     = serve JSONReader.parse ToString None (always order_ack)
             "bn_ticker_price" None [("symbol", VStr "LTCBTC")] [].
Proof.
  assert (NoDup (keys [("symbol", VStr "LTCBTC")])) as Hnd.
  { repeat constructor. simpl. tauto. }
  split; [exact Hnd|].
  exact (fields_argument_is_ignored JSONReader.parse ToString None
           (always order_ack) "bn_ticker_price" None
           [("symbol", VStr "LTCBTC")] (VStr "price") [] Hnd).
Defined.
